(** * Canton Scan client: the derived-data layer of [canton_scan_client.py]

    A shallow embedding of the client-side logic of [ScanApiClient]:
    the month/round resolver ([find_rounds_for_month]), the range series
    builder ([get_wallet_balances_for_rounds]), the latest-round guarded
    operations and the two-pass activity exporter
    ([export_activities_after]).

    The HTTP endpoints are an external collaborator (the Gateway).  A
    Gateway is a record of deterministic response functions; every call
    the client issues is appended to a call log, so that the number and
    the arguments of the requests can be stated. *)

From Stdlib Require Import ZArith List String Ascii Bool Lia DecimalString.
From Stdlib Require OrderedTypeEx.
From stdpp Require Import base option list gmap strings.

Local Open Scope Z_scope.
Set Warnings "-register-all".

(** ** JSON values, as [requests]' [.json()] hands them to the client.
    Numbers are integers (the round numbers of the API); a JSON object is
    an association list in insertion order, looked up by its first binding
    for a key. *)

Inductive json : Type :=
| JNull
| JBool (b : bool)
| JNum (n : Z)
| JStr (s : string)
| JList (l : list json)
| JDict (d : list (string * json)).

Abbreviation dict := (list (string * json)).

Fixpoint dict_get (d : dict) (k : string) : option json :=
  match d with
  | [] => None
  | (k', v) :: d' => if String.eqb k' k then Some v else dict_get d' k
  end.

(** A Python [str] is held as its UTF-8 bytes; its characters are the
    code points: every byte that is no continuation byte (10xxxxxx) starts
    one.  [utf8_chars] lists them, so [len(s)] is the length of that list
    and [for c in s] runs over it. *)
Definition is_continuation (c : ascii) : bool :=
  let n := nat_of_ascii c in (128 <=? n)%nat && (n <? 192)%nat.

Fixpoint utf8_chars (s : string) : list string :=
  match s with
  | EmptyString => []
  | String c s' =>
      let starts_inside :=
        match s' with
        | String c' _ => is_continuation c'
        | EmptyString => false
        end in
      match utf8_chars s' with
      | first :: rest =>
          if starts_inside then String c first :: rest
          else String c EmptyString :: first :: rest
      | [] => [String c EmptyString]
      end
  end.

(** [d.get(k)]: [None] (here [JNull]) when the key is absent. *)
Definition py_get (d : dict) (k : string) : json :=
  default JNull (dict_get d k).

(** [d.get(k, dflt)]. *)
Definition py_get_default (d : dict) (k : string) (dflt : json) : json :=
  default dflt (dict_get d k).

(** [k in d]. *)
Definition dict_has (d : dict) (k : string) : bool :=
  bool_decide (is_Some (dict_get d k)).

(** Python truth value of a JSON value. *)
Definition truthy (v : json) : bool :=
  match v with
  | JNull => false
  | JBool b => b
  | JNum n => negb (n =? 0)
  | JStr s => negb (String.eqb s "")
  | JList l => match l with [] => false | _ => true end
  | JDict d => match d with [] => false | _ => true end
  end.

(** [a or b]. *)
Definition py_or (a b : json) : json := if truthy a then a else b.

(** [v == n] for an integer [n] ([True == 1] and [False == 0] in Python). *)
Definition json_eq_int (v : json) (n : Z) : bool :=
  match v with
  | JNum m => m =? n
  | JBool b => Z.b2z b =? n
  | _ => false
  end.

(** ** Exceptions, results and the call log *)

Inductive exn : Type :=
| ValueError (msg : string)
| TypeError
| AttributeError.

Inductive call : Type :=
| CallRoundOfLatestData
| CallRoundTotals (start_round end_round : Z)
| CallRoundPartyTotals (start_round end_round : Z)
| CallWalletBalance (party_id : string) (as_of_end_of_round : json)
| CallListActivity (page_size : Z) (begin_after_id : json).

Inductive res (A : Type) : Type :=
| Ret (a : A)
| Raise (e : exn)
| OutOfFuel.
Arguments Ret {A} a.
Arguments Raise {A} e.
Arguments OutOfFuel {A}.

(** A computation yields a result and the Gateway calls it issued, in order. *)
Definition M (A : Type) : Type := (res A * list call)%type.

Definition ret {A} (a : A) : M A := (Ret a, []).
Definition raise {A} (e : exn) : M A := (Raise e, []).
Definition out_of_fuel {A} : M A := (OutOfFuel, []).

Definition bind {A B} (m : M A) (f : A -> M B) : M B :=
  match m with
  | (Ret a, log) => let '(r, log') := f a in (r, log ++ log')
  | (Raise e, log) => (Raise e, log)
  | (OutOfFuel, log) => (OutOfFuel, log)
  end.

Declare Scope py_scope.
Delimit Scope py_scope with py.
Notation "x <- m ;; k" := (bind m (fun x => k))
  (at level 100, m at next level, right associativity) : py_scope.
Local Open Scope py_scope.

Definition result {A} (m : M A) : res A := fst m.
Definition calls {A} (m : M A) : list call := snd m.

(** ** The Gateway *)

Record Gateway : Type := {
  get_round_of_latest_data : dict;
  list_round_totals : Z -> Z -> list dict;
  list_round_party_totals : Z -> Z -> dict;
  get_wallet_balance : string -> json -> dict;
  list_activity : Z -> json -> dict
}.

Definition call_round_of_latest_data (gw : Gateway) : M dict :=
  (Ret (get_round_of_latest_data gw), [CallRoundOfLatestData]).

Definition call_round_totals (gw : Gateway) (s e : Z) : M (list dict) :=
  (Ret (list_round_totals gw s e), [CallRoundTotals s e]).

Definition call_round_party_totals (gw : Gateway) (s e : Z) : M dict :=
  (Ret (list_round_party_totals gw s e), [CallRoundPartyTotals s e]).

Definition call_wallet_balance (gw : Gateway) (party_id : string) (r : json) : M dict :=
  (Ret (get_wallet_balance gw party_id r), [CallWalletBalance party_id r]).

Definition call_list_activity (gw : Gateway) (page_size : Z) (cursor : json) : M dict :=
  (Ret (list_activity gw page_size cursor), [CallListActivity page_size cursor]).

(** The value of [latest_data.get("round")] used as an integer: [None]
    is tested first by every caller; a value that is no integer fails at
    its first arithmetic use. *)
Inductive latest_round_value : Type :=
| LatestNone
| LatestInt (n : Z)
| LatestOther.

Definition latest_round_of (latest_data : dict) : latest_round_value :=
  match py_get latest_data "round" with
  | JNull => LatestNone
  | JNum n => LatestInt n
  | JBool b => LatestInt (Z.b2z b)
  | _ => LatestOther
  end.

(** ** Effective timestamps of round_totals entries *)

(** [entry.get("closed_round_effective_at") or entry.get("effectiveAt")
    or entry.get("effective_at")] *)
Definition effective_at_of (entry : dict) : json :=
  py_or (py_or (py_get entry "closed_round_effective_at")
               (py_get entry "effectiveAt"))
        (py_get entry "effective_at").

Definition batch_size : Z := 200.

(** The [for entry in entries] loop of [get_effective_at]. *)
Fixpoint find_effective_at (round_num : Z) (entries : list dict) : json :=
  match entries with
  | [] => JNull
  | entry :: rest =>
      let effective_at := effective_at_of entry in
      if json_eq_int (py_get entry "closed_round") round_num && truthy effective_at
      then effective_at
      else find_effective_at round_num rest
  end.

Definition batch_start_of (round_num : Z) : Z := (round_num / batch_size) * batch_size.
Definition batch_end_of (latest_round round_num : Z) : Z :=
  Z.min (batch_start_of round_num + batch_size - 1) latest_round.

Definition get_effective_at (gw : Gateway) (latest_round round_num : Z) : M json :=
  let batch_start := (round_num / batch_size) * batch_size in
  let batch_end := Z.min (batch_start + batch_size - 1) latest_round in
  entries <- call_round_totals gw batch_start batch_end ;;
  ret (find_effective_at round_num entries).

(** [s.replace("Z", "+00:00")] *)
Fixpoint replace_Z (s : string) : string :=
  match s with
  | EmptyString => EmptyString
  | String c s' =>
      if Ascii.eqb c "Z" then "+00:00" +:+ replace_Z s' else String c (replace_Z s')
  end.

(** The two fields of a [datetime] that the client reads. *)
Record datetime : Type := { dt_year : Z; dt_month : Z }.

(** [(a1, a2) < (b1, b2)] on tuples of integers. *)
Definition tuple_ltb (a b : Z * Z) : bool :=
  (fst a <? fst b) || ((fst a =? fst b) && (snd a <? snd b)).

Record FindRoundsForMonthResult : Type := {
  start_round : Z;
  start_time : json;
  end_round : Z;
  end_time : json
}.

Section MonthRoundResolver.

(** [datetime.fromisoformat], with [None] for a raised exception. *)
Variable fromisoformat : string -> option datetime.

Definition parse_effective_at (effective_at : json) : option datetime :=
  if truthy effective_at then
    match effective_at with
    | JStr s => fromisoformat (replace_Z s)
    | _ => None (* no [replace] attribute: caught by [except Exception] *)
    end
  else None.

Definition get_effective_at_dt (gw : Gateway) (latest_round round_num : Z)
  : M (option datetime) :=
  effective_at <- get_effective_at gw latest_round round_num ;;
  ret (parse_effective_at effective_at).

(** First [while left <= right] loop. *)
Fixpoint search_first (fuel : nat) (gw : Gateway) (latest_round year month : Z)
    (left right : Z) (first_in_month : option Z) : M (option Z) :=
  if left <=? right then
    match fuel with
    | O => out_of_fuel
    | S fuel' =>
        let mid := (left + right) / 2 in
        dt <- get_effective_at_dt gw latest_round mid ;;
        match dt with
        | None =>
            search_first fuel' gw latest_round year month (mid + 1) right first_in_month
        | Some d =>
            if tuple_ltb (dt_year d, dt_month d) (year, month) then
              search_first fuel' gw latest_round year month (mid + 1) right first_in_month
            else if tuple_ltb (year, month) (dt_year d, dt_month d) then
              search_first fuel' gw latest_round year month left (mid - 1) first_in_month
            else
              search_first fuel' gw latest_round year month left (mid - 1) (Some mid)
        end
    end
  else ret first_in_month.

(** Second [while left <= right] loop. *)
Fixpoint search_last (fuel : nat) (gw : Gateway) (latest_round year month : Z)
    (left right : Z) (last_in_month : Z) : M Z :=
  if left <=? right then
    match fuel with
    | O => out_of_fuel
    | S fuel' =>
        let mid := (left + right) / 2 in
        dt <- get_effective_at_dt gw latest_round mid ;;
        match dt with
        | None =>
            search_last fuel' gw latest_round year month (mid + 1) right last_in_month
        | Some d =>
            if tuple_ltb (year, month) (dt_year d, dt_month d) then
              search_last fuel' gw latest_round year month left (mid - 1) last_in_month
            else if tuple_ltb (dt_year d, dt_month d) (year, month) then
              search_last fuel' gw latest_round year month (mid + 1) right last_in_month
            else
              search_last fuel' gw latest_round year month (mid + 1) right mid
        end
    end
  else ret last_in_month.

(** Iterations that the interval [[0, latest_round]] can take at most. *)
Definition search_fuel (latest_round : Z) : nat := Z.to_nat (latest_round + 1).

Definition find_rounds_for_month (gw : Gateway) (year month : Z)
  : M (option FindRoundsForMonthResult) :=
  latest_data <- call_round_of_latest_data gw ;;
  match latest_round_of latest_data with
  | LatestNone => ret None
  | LatestOther => raise TypeError (* [0 <= latest_round] *)
  | LatestInt latest_round =>
      first_in_month <-
        search_first (search_fuel latest_round) gw latest_round year month
                     0 latest_round None ;;
      match first_in_month with
      | None => ret None
      | Some first_in_month =>
          last_in_month <-
            search_last (search_fuel latest_round) gw latest_round year month
                        first_in_month latest_round first_in_month ;;
          start_time <- get_effective_at gw latest_round first_in_month ;;
          end_time <- get_effective_at gw latest_round last_in_month ;;
          ret (Some {| start_round := first_in_month;
                       start_time := start_time;
                       end_round := last_in_month;
                       end_time := end_time |})
      end
  end.

End MonthRoundResolver.

(** ** Computations that call no Gateway: the error monad [res] *)

#[global] Instance res_ret : MRet res := fun _ a => Ret a.
#[global] Instance res_bind : MBind res := fun _ _ f m =>
  match m with
  | Ret a => f a
  | Raise e => Raise e
  | OutOfFuel => OutOfFuel
  end.

Definition lift {A} (r : res A) : M A := (r, []).

(** [range(lo, hi, step)]: CPython's length formula, then the elements. *)
Definition range_len (lo hi step : Z) : Z :=
  if (0 <? step) && (lo <? hi) then 1 + (hi - 1 - lo) / step
  else if (step <? 0) && (hi <? lo) then 1 + (lo - 1 - hi) / (- step)
  else 0.

Definition py_range (lo hi step : Z) : res (list Z) :=
  if step =? 0 then Raise (ValueError "range() arg 3 must not be zero")
  else Ret ((fun i => lo + i * step) <$> seqZ 0 (range_len lo hi step)).

(** The [for x in l] loop with an accumulator. *)
Fixpoint for_each {A S} (body : S -> A -> M S) (l : list A) (s : S) : M S :=
  match l with
  | [] => ret s
  | x :: l' => s' <- body s x ;; for_each body l' s'
  end.

(** ** The round -> effective time dictionaries

    Keys of [round_to_effective_time] are whatever [closed_round] holds:
    [None], an integer (a boolean hashes and compares as 0 or 1) or a
    string; a list or an object is unhashable. *)

Abbreviation pykey := (option (Z + string)).

Definition hash_key (v : json) : res pykey :=
  match v with
  | JNull => Ret None
  | JNum n => Ret (Some (inl n))
  | JBool b => Ret (Some (inl (Z.b2z b)))
  | JStr s => Ret (Some (inr s))
  | JList _ | JDict _ => Raise TypeError
  end.

(** [round_to_effective_time[round_num] = eff_time] *)
Definition index_set (round_to_effective_time : gmap pykey json)
    (round_num eff_time : json) : res (gmap pykey json) :=
  k ← hash_key round_num;
  Ret (<[k := eff_time]> round_to_effective_time).

(** [round_to_effective_time.get(round_num)] *)
Definition index_get_json (round_to_effective_time : gmap pykey json)
    (round_num : json) : res json :=
  k ← hash_key round_num;
  Ret (default JNull (round_to_effective_time !! k)).

(** [round_to_effective_time.get(r)] for an integer [r]. *)
Definition index_get (round_to_effective_time : gmap pykey json) (r : Z) : json :=
  default JNull (round_to_effective_time !! Some (inl r)).

(** ** get_latest_wallet_balance *)

Record LatestWalletBalanceResponse : Type := {
  lwb_round : json;
  lwb_effective_at : json;
  lwb_wallet_balance : json;
  lwb_party_id : string
}.

Definition get_latest_wallet_balance (gw : Gateway) (party_id : string)
  : M LatestWalletBalanceResponse :=
  latest_round_data <- call_round_of_latest_data gw ;;
  let latest_round := py_get latest_round_data "round" in
  let effective_at := py_get latest_round_data "effectiveAt" in
  match latest_round with
  | JNull => raise (ValueError "Could not determine latest round")
  | _ =>
      balance_data <- call_wallet_balance gw party_id latest_round ;;
      let wallet_balance := py_get balance_data "wallet_balance" in
      ret {| lwb_round := latest_round;
             lwb_effective_at := effective_at;
             lwb_wallet_balance := wallet_balance;
             lwb_party_id := party_id |}
  end.

(** ** get_wallet_balances_for_rounds and get_wallet_balance_last_10_rounds *)

Record BalanceSample : Type := {
  round : Z;
  effective_time : json;
  wallet_balance : json
}.

(** Body of the [for entry in self.list_round_totals(...)] loop of
    [get_wallet_balances_for_rounds]. *)
Definition for_rounds_index_entry (round_to_effective_time : gmap pykey json)
    (entry : dict) : res (gmap pykey json) :=
  let round_num := py_get entry "closed_round" in
  let eff_time :=
    py_or (py_or (py_get entry "closed_round_effective_at")
                 (py_get entry "effectiveAt"))
          (py_get entry "effective_at") in
  match round_num with
  | JNull => Ret round_to_effective_time
  | _ =>
      if truthy eff_time then index_set round_to_effective_time round_num eff_time
      else Ret round_to_effective_time
  end.

Definition for_rounds_prefetch_batch (gw : Gateway) (last_round : Z)
    (round_to_effective_time : gmap pykey json) (batch_start : Z)
  : M (gmap pykey json) :=
  let batch_end := Z.min (batch_start + batch_size - 1) last_round in
  entries <- call_round_totals gw batch_start batch_end ;;
  for_each (fun m entry => lift (for_rounds_index_entry m entry))
           entries round_to_effective_time.

Definition fetch_sample (gw : Gateway) (party_id : string)
    (round_to_effective_time : gmap pykey json)
    (results : list BalanceSample) (r : Z) : M (list BalanceSample) :=
  let eff_time := index_get round_to_effective_time r in
  balance_resp <- call_wallet_balance gw party_id (JNum r) ;;
  let wallet_balance := py_get balance_resp "wallet_balance" in
  ret (results ++ [{| round := r;
                      effective_time := eff_time;
                      wallet_balance := wallet_balance |}]).

(** The optional CSV file repeats [results] row by row and is left out. *)
Definition get_wallet_balances_for_rounds (gw : Gateway) (party_id : string)
    (first_round last_round step : Z) : M (list BalanceSample) :=
  batches <- lift (py_range first_round (last_round + 1) batch_size) ;;
  round_to_effective_time <-
    for_each (for_rounds_prefetch_batch gw last_round) batches ∅ ;;
  rounds <- lift (py_range first_round (last_round + 1) step) ;;
  for_each (fetch_sample gw party_id round_to_effective_time) rounds [].

(** Body of the [for entry in entries] loop of
    [get_wallet_balance_last_10_rounds]. *)
Definition last_10_index_entry (round_to_effective_time : gmap pykey json)
    (entry : dict) : res (gmap pykey json) :=
  let round_num := py_get entry "closed_round" in
  let eff_time :=
    py_or (py_or (py_get entry "closed_round_effective_at")
                 (py_get entry "effectiveAt"))
          (py_get entry "effective_at") in
  match round_num with
  | JNull => Ret round_to_effective_time
  | _ =>
      if truthy eff_time then index_set round_to_effective_time round_num eff_time
      else Ret round_to_effective_time
  end.

Definition last_10_fetch_sample (gw : Gateway) (party_id : string)
    (round_to_effective_time : gmap pykey json)
    (results : list BalanceSample) (round_num : Z) : M (list BalanceSample) :=
  balance_resp <- call_wallet_balance gw party_id (JNum round_num) ;;
  let wallet_balance := py_get balance_resp "wallet_balance" in
  let effective_time := index_get round_to_effective_time round_num in
  ret (results ++ [{| round := round_num;
                      effective_time := effective_time;
                      wallet_balance := wallet_balance |}]).

Definition get_wallet_balance_last_10_rounds (gw : Gateway) (party_id : string)
  : M (list BalanceSample) :=
  latest_data <- call_round_of_latest_data gw ;;
  match latest_round_of latest_data with
  | LatestNone => ret []
  | LatestOther => raise TypeError (* [latest_round - 9] *)
  | LatestInt latest_round =>
      let start_round := Z.max 0 (latest_round - 9) in
      entries <- call_round_totals gw start_round latest_round ;;
      round_to_effective_time <-
        for_each (fun m entry => lift (last_10_index_entry m entry)) entries ∅ ;;
      rounds <- lift (py_range start_round (latest_round + 1) 1) ;;
      for_each (last_10_fetch_sample gw party_id round_to_effective_time) rounds []
  end.

(** ** Python helpers of the exporters *)

(** [v.get(...)], [v.items()], [v[k] = ...]: [v] has to be a dict. *)
Definition as_dict (v : json) : res dict :=
  match v with
  | JDict d => Ret d
  | _ => Raise AttributeError
  end.

(** [len(v)] *)
Definition py_len (v : json) : res nat :=
  match v with
  | JList l => Ret (length l)
  | JDict d => Ret (length d)
  | JStr s => Ret (length (utf8_chars s))
  | _ => Raise TypeError
  end.

(** [items[k] = v]: an existing key keeps its position. *)
Fixpoint dict_set (items : dict) (k : string) (v : json) : dict :=
  match items with
  | [] => [(k, v)]
  | (k', v') :: rest =>
      if String.eqb k' k then (k, v) :: rest else (k', v') :: dict_set rest k v
  end.

(** [str(i)] in an f-string. *)
Definition str_of_nat (i : nat) : string := NilZero.string_of_uint (Nat.to_uint i).

(** The [for x in l] loop with an accumulator, without Gateway calls. *)
Fixpoint fold_res {A S} (body : S -> A -> res S) (l : list A) (s : S) : res S :=
  match l with
  | [] => Ret s
  | x :: l' => s' ← body s x; fold_res body l' s'
  end.

(** A written CSV file: the header line, when one was written, and the
    rows handed to [writerow]. *)
Record csv_file : Type := {
  header : option (list string);
  rows : list dict
}.

(** [csv.DictWriter.writerow]: a key outside [fieldnames] is a
    [ValueError].  Its message starts with the text below; the library
    appends the [repr] of the offending keys in the iteration order of a
    set, which no run fixes, so only that leading text is kept. *)
Definition writerow (fieldnames : list string) (row : dict) : res dict :=
  if forallb (fun kv => existsb (String.eqb kv.1) fieldnames) row then Ret row
  else Raise (ValueError "dict contains fields not in fieldnames").

(** ** export_all_round_party_totals_to_csv *)

(** Body of the [for rt in round_totals] loop. *)
Definition party_totals_index_entry (round_to_effective_time : gmap pykey json)
    (rt : dict) : res (gmap pykey json) :=
  let round_num := py_get rt "closed_round" in
  let eff_time :=
    py_or (py_or (py_get rt "closed_round_effective_at")
                 (py_get rt "effectiveAt"))
          (py_get rt "effective_at") in
  match round_num with
  | JNull => Ret round_to_effective_time
  | _ =>
      if truthy eff_time then index_set round_to_effective_time round_num eff_time
      else Ret round_to_effective_time
  end.

(** [entry["effective_time"] = round_to_effective_time.get(round_num)] *)
Definition party_totals_add_time (round_to_effective_time : gmap pykey json)
    (acc : list dict) (entry : json) : res (list dict) :=
  d ← as_dict entry;
  t ← index_get_json round_to_effective_time (py_get d "closed_round");
  Ret (acc ++ [dict_set d "effective_time" t]).

Definition party_totals_batch (gw : Gateway) (latest_round batch_size : Z)
    (f : csv_file) (batch_start : Z) : M csv_file :=
  let batch_end := Z.min (batch_start + batch_size - 1) latest_round in
  resp <- call_round_party_totals gw batch_start batch_end ;;
  let entries := py_get_default resp "entries" (JList []) in
  if negb (truthy entries) then ret f
  else
    round_totals <- call_round_totals gw batch_start batch_end ;;
    round_to_effective_time <-
      for_each (fun m rt => lift (party_totals_index_entry m rt)) round_totals ∅ ;;
    match entries with
    | JList l =>
        entries' <- lift (fold_res (party_totals_add_time round_to_effective_time) l []) ;;
        let fieldnames :=
          match header f with
          | Some fieldnames => fieldnames
          | None => match entries' with e :: _ => e.*1 | [] => [] end
          end in
        written <- lift (fold_res (fun acc e => r ← writerow fieldnames e; Ret (acc ++ [r]))
                                  entries' []) ;;
        ret {| header := Some fieldnames; rows := rows f ++ written |}
    | JDict _ | JStr _ => raise AttributeError
    | _ => raise TypeError
    end.

(** [None] stands for the early [return]: no file is opened. *)
Definition export_all_round_party_totals_to_csv (gw : Gateway)
    (start_round batch_size : Z) : M (option csv_file) :=
  latest_data <- call_round_of_latest_data gw ;;
  match latest_round_of latest_data with
  | LatestNone => ret None
  | LatestOther => raise TypeError (* [latest_round + 1] *)
  | LatestInt latest_round =>
      batches <- lift (py_range start_round (latest_round + 1) batch_size) ;;
      f <- for_each (party_totals_batch gw latest_round batch_size) batches
                    {| header := None; rows := [] |} ;;
      ret (Some f)
  end.

(** ** export_activities_after *)

(** [activity_date and activity_date < after_timestamp] *)
Definition date_before (activity_date : json) (after_timestamp : string) : res bool :=
  if truthy activity_date then
    match activity_date with
    | JStr s => Ret (String.ltb s after_timestamp)
    | _ => Raise TypeError (* [<] between a non-string and a string *)
    end
  else Ret false.

(** The accumulators of the first pass. *)
Record scan_state : Type := {
  max_receivers : nat;
  max_balance_changes : nat;
  all_flattened : list dict;
  total_scanned : nat
}.

Definition scan_init : scan_state :=
  {| max_receivers := 0; max_balance_changes := 0;
     all_flattened := []; total_scanned := 0 |}.

(** The [if transfer:] block of the first pass. *)
Definition count_transfer (st : scan_state) (activity : dict) : res scan_state :=
  let transfer := py_get activity "transfer" in
  if truthy transfer then
    t ← as_dict transfer;
    let receivers := py_get_default t "receivers" (JList []) in
    let balance_changes := py_get_default t "balance_changes" (JList []) in
    nr ← py_len receivers;
    nb ← py_len balance_changes;
    Ret {| max_receivers := Nat.max (max_receivers st) nr;
           max_balance_changes := Nat.max (max_balance_changes st) nb;
           all_flattened := all_flattened st;
           total_scanned := total_scanned st |}
  else Ret st.

(** [all_flattened.append(activity); total_scanned += 1] *)
Definition buffer_activity (st : scan_state) (activity : dict) : scan_state :=
  {| max_receivers := max_receivers st;
     max_balance_changes := max_balance_changes st;
     all_flattened := all_flattened st ++ [activity];
     total_scanned := S (total_scanned st) |}.

(** One iteration of [for idx, activity in enumerate(activities)]; the
    boolean is [stopped]. *)
Definition scan_activity (after_timestamp : string) (st : scan_state)
    (activity : json) : res (bool * scan_state) :=
  d ← as_dict activity;
  let activity_date := py_get d "date" in
  stop ← date_before activity_date after_timestamp;
  if stop : bool then Ret (true, st)
  else
    st' ← count_transfer st d;
    Ret (false, buffer_activity st' d).

Fixpoint scan_page (after_timestamp : string) (st : scan_state)
    (activities : list json) : res (bool * scan_state) :=
  match activities with
  | [] => Ret (false, st)
  | activity :: rest =>
      '(stopped, st') ← scan_activity after_timestamp st activity;
      if stopped : bool then Ret (true, st') else scan_page after_timestamp st' rest
  end.

(** The [while True] loop of the first pass. *)
Fixpoint scan_batches (fuel : nat) (gw : Gateway) (after_timestamp : string)
    (page_size : Z) (begin_after_id : json) (st : scan_state) : M scan_state :=
  match fuel with
  | O => out_of_fuel
  | S fuel' =>
      resp <- call_list_activity gw page_size begin_after_id ;;
      let activities := py_get_default resp "activities" (JList []) in
      if negb (truthy activities) then ret st
      else
        match activities with
        | JList l =>
            r <- lift (scan_page after_timestamp st l) ;;
            let stopped := fst r in
            let st := snd r in
            if stopped then ret st
            else
              last_activity <- lift (as_dict (List.last l JNull)) ;;
              let begin_after_id := py_get last_activity "event_id" in
              if negb (truthy begin_after_id) then ret st
              else
                before <- lift (date_before (py_get last_activity "date")
                                            after_timestamp) ;;
                if before : bool then ret st
                else scan_batches fuel' gw after_timestamp page_size begin_after_id st
        | JDict _ | JStr _ => raise AttributeError (* the elements are strings *)
        | _ => raise TypeError (* not iterable *)
        end
  end.

(** [sorted(set(...))] on strings. *)
Fixpoint insert_sorted (k : string) (l : list string) : list string :=
  match l with
  | [] => [k]
  | x :: rest =>
      match String.compare k x with
      | Lt => k :: l
      | Eq => l
      | Gt => x :: insert_sorted k rest
      end
  end.

Definition sorted_set (keys : list string) : list string :=
  fold_right insert_sorted [] keys.

Section StreamingFlattenExporter.

(** [json.dumps] *)
Variable json_dumps : json -> string.

(** [for sk, sv in sub.items(): items[f"{prefix}{sk}"] = sv] *)
Definition set_prefixed (prefix : string) (items : dict) (sub : dict) : dict :=
  fold_left (fun items kv => dict_set items (prefix +:+ kv.1) kv.2) sub items.

(** The [for i in range(max_n)] loop over one of the two lists. *)
Definition expand_list (name : string) (known : list string) (max_n : nat)
    (tv : list json) (items : dict) : dict :=
  fold_left
    (fun items i =>
       let prefix := "transfer_" +:+ name +:+ "_" +:+ str_of_nat i +:+ "_" in
       match tv !! i with
       | Some (JDict e) => set_prefixed prefix items e
       | _ => fold_left (fun items rk => dict_set items (prefix +:+ rk) JNull)
                        known items
       end)
    (seq 0 max_n) items.

Definition flatten_transfer_field (max_receivers max_balance_changes : nat)
    (items : dict) (tk : string) (tv : json) : dict :=
  match tv with
  | JList l =>
      if String.eqb tk "receivers" then
        dict_set (expand_list "receivers" ["party"; "amount"; "receiver_fee"]
                              max_receivers l items)
                 "transfer_receivers" (JStr (json_dumps tv))
      else if String.eqb tk "balance_changes" then
        dict_set (expand_list "balance_changes"
                    ["party"; "change_to_initial_amount_as_of_round_zero";
                     "change_to_holding_fees_rate"]
                    max_balance_changes l items)
                 "transfer_balance_changes" (JStr (json_dumps tv))
      else dict_set items ("transfer_" +:+ tk) tv
  | JDict sub => set_prefixed ("transfer_" +:+ tk +:+ "_") items sub
  | _ => dict_set items ("transfer_" +:+ tk) tv
  end.

Definition flatten_field (max_receivers max_balance_changes : nat)
    (items : dict) (k : string) (v : json) : dict :=
  match v with
  | JDict sub =>
      if String.eqb k "transfer" then
        fold_left (fun items kv =>
                     flatten_transfer_field max_receivers max_balance_changes
                                            items kv.1 kv.2)
                  sub items
      else set_prefixed (k +:+ "_") items sub
  | JList _ => dict_set items k (JStr (json_dumps v))
  | _ => dict_set items k v
  end.

Definition flatten (d : dict) (max_receivers max_balance_changes : nat) : dict :=
  fold_left (fun items kv => flatten_field max_receivers max_balance_changes
                                           items kv.1 kv.2)
            d [].

Definition get_all_fieldnames (st : scan_state) : list string :=
  sorted_set
    (concat (map (fun activity =>
                    (flatten activity (max_receivers st) (max_balance_changes st)).*1)
                 (all_flattened st))).

(** The [for activity in all_flattened] loop of the second pass. *)
Fixpoint write_rows (after_timestamp : string) (fieldnames : list string)
    (st : scan_state) (activities : list dict) : res (list dict) :=
  match activities with
  | [] => Ret []
  | activity :: rest =>
      before ← date_before (py_get activity "date") after_timestamp;
      if before : bool then Ret []
      else
        row ← writerow fieldnames
                (flatten activity (max_receivers st) (max_balance_changes st));
        written ← write_rows after_timestamp fieldnames st rest;
        Ret (row :: written)
  end.

Definition export_activities_after (fuel : nat) (gw : Gateway)
    (after_timestamp : string) (page_size : Z) : M csv_file :=
  st <- scan_batches fuel gw after_timestamp page_size (JStr "") scan_init ;;
  let fieldnames := get_all_fieldnames st in
  written <- lift (write_rows after_timestamp fieldnames st (all_flattened st)) ;;
  ret {| header := Some fieldnames; rows := written |}.

End StreamingFlattenExporter.

(** ** Reading the results *)

(** The windows requested from the round_totals endpoint, in call order. *)
Definition round_totals_windows (log : list call) : list (Z * Z) :=
  omap (fun c => match c with
                 | CallRoundTotals s e => Some (s, e)
                 | _ => None
                 end) log.

(** The (year, month) that the resolver sees when it probes a round. *)
Definition probe_period (fromisoformat : string -> option datetime)
    (gw : Gateway) (latest_round round_num : Z) : option (Z * Z) :=
  match result (get_effective_at_dt fromisoformat gw latest_round round_num) with
  | Ret (Some d) => Some (dt_year d, dt_month d)
  | _ => None
  end.

(** The (year, month) of a timestamp of a result. *)
Definition time_period (fromisoformat : string -> option datetime)
    (t : json) : option (Z * Z) :=
  match parse_effective_at fromisoformat t with
  | Some d => Some (dt_year d, dt_month d)
  | None => None
  end.

(** The records of the pages that a run requested, in request order. *)
Definition page_records (gw : Gateway) (c : call) : list json :=
  match c with
  | CallListActivity page_size cursor =>
      match py_get_default (list_activity gw page_size cursor) "activities" (JList []) with
      | JList l => l
      | _ => []
      end
  | _ => []
  end.

Definition scanned_feed (gw : Gateway) (log : list call) : list json :=
  concat (map (page_records gw) log).

(** [len] of one of the two lists of a record's [transfer], 0 without one. *)
Definition transfer_list_len (field : string) (activity : dict) : nat :=
  match py_get activity "transfer" with
  | JDict t =>
      match py_get_default t field (JList []) with
      | JList l => length l
      | JDict d => length d
      | JStr s => length (utf8_chars s)
      | _ => 0%nat
      end
  | _ => 0%nat
  end.

Definition max_list_len (field : string) (activities : list dict) : nat :=
  foldr Nat.max 0%nat (transfer_list_len field <$> activities).

(** ** The specification's reading of the timestamp synonyms and of the
    records counted by the exporter *)

(** Spec: of the three synonyms, "prefer the first present, in a fixed
    priority order". *)
Definition first_present_effective_at (entry : dict) : json :=
  if dict_has entry "closed_round_effective_at" then py_get entry "closed_round_effective_at"
  else if dict_has entry "effectiveAt" then py_get entry "effectiveAt"
  else py_get entry "effective_at".



(** What the [or] chain yields: the first truthy value, or the last one. *)
Fixpoint first_truthy (vs : list json) : json :=
  match vs with
  | [] => JNull
  | [v] => v
  | v :: rest => if truthy v then v else first_truthy rest
  end.

Definition synonym_values (entry : dict) : list json :=
  [py_get entry "closed_round_effective_at"; py_get entry "effectiveAt";
   py_get entry "effective_at"].

(** A [closed_round] that can be a dictionary key. *)
Definition hashable (v : json) : bool :=
  match v with
  | JList _ | JDict _ => false
  | _ => true
  end.

Definition hashable_round_totals (gw : Gateway) : Prop :=
  forall s e entry,
    entry ∈ list_round_totals gw s e -> hashable (py_get entry "closed_round") = true.

(** The rounds [a, a+step, a+2*step, ...] of [range(a, b + 1, step)]. *)
Definition stride_rounds (a b step : Z) : list Z :=
  (fun i => a + i * step) <$> seqZ 0 (range_len a (b + 1) step).

(** A record is kept by the cutoff test. *)
Definition not_before (after_timestamp : string) (activity : dict) : Prop :=
  date_before (py_get activity "date") after_timestamp = Ret false.

(** ** Views of the resolver used to state its properties *)

Section ResolverViews.

Variable fromisoformat : string -> option datetime.
Variable gw : Gateway.
Variables latest_round year month : Z.

(** The one request behind a single-round lookup. *)
Definition window_call (round_num : Z) : call :=
  CallRoundTotals (batch_start_of round_num) (batch_end_of latest_round round_num).

(** The value a single-round lookup yields. *)
Definition looked_up (round_num : Z) : json :=
  find_effective_at round_num
    (list_round_totals gw (batch_start_of round_num)
                          (batch_end_of latest_round round_num)).

(** How one probe of the first search moves the bounds and the candidate. *)
Definition first_step (left right : Z) (first : option Z) : Z * Z * option Z :=
  let mid := (left + right) / 2 in
  match parse_effective_at fromisoformat (looked_up mid) with
  | None => (mid + 1, right, first)
  | Some d =>
      if tuple_ltb (dt_year d, dt_month d) (year, month) then (mid + 1, right, first)
      else if tuple_ltb (year, month) (dt_year d, dt_month d) then (left, mid - 1, first)
      else (left, mid - 1, Some mid)
  end.

(** How one probe of the second search moves the bounds and the candidate. *)
Definition last_step (left right : Z) (last : Z) : Z * Z * Z :=
  let mid := (left + right) / 2 in
  match parse_effective_at fromisoformat (looked_up mid) with
  | None => (mid + 1, right, last)
  | Some d =>
      if tuple_ltb (year, month) (dt_year d, dt_month d) then (left, mid - 1, last)
      else if tuple_ltb (dt_year d, dt_month d) (year, month) then (mid + 1, right, last)
      else (mid + 1, right, mid)
  end.

(** A round of the ledger whose looked-up time lies in the target month. *)
Definition in_month (r : Z) : Prop :=
  0 <= r <= latest_round /\
  time_period fromisoformat (looked_up r) = Some (year, month).

(** Resolved periods do not decrease with the round number. *)
Definition periods_monotone : Prop :=
  forall r1 r2 p1 p2,
    0 <= r1 -> r1 <= r2 -> r2 <= latest_round ->
    probe_period fromisoformat gw latest_round r1 = Some p1 ->
    probe_period fromisoformat gw latest_round r2 = Some p2 ->
    tuple_ltb p2 p1 = false.

(** Below a round that does not resolve there are only rounds that do not
    resolve or that lie before the target month. *)
Definition unresolved_only_before : Prop :=
  forall r1 r2,
    0 <= r1 -> r1 < r2 -> r2 <= latest_round ->
    probe_period fromisoformat gw latest_round r2 = None ->
    match probe_period fromisoformat gw latest_round r1 with
    | None => True
    | Some p => tuple_ltb p (year, month) = true
    end.

(** Some round of the ledger resolves to the target month. *)
Definition month_has_round : Prop :=
  exists r, (0 <= r <= latest_round) /\
            probe_period fromisoformat gw latest_round r = Some (year, month).

End ResolverViews.

(** ** Sample Gateways *)

(** A Gateway answering from tables: the latest-round object, the
    round_totals entries (those whose [closed_round] lies in the requested
    range), wallet balances per round, and activity pages per cursor. *)
Definition in_range (s e : Z) (entry : dict) : bool :=
  match py_get entry "closed_round" with
  | JNum r => (s <=? r) && (r <=? e)
  | _ => false
  end.

Fixpoint lookup_page (pages : list (string * dict)) (cursor : json) : dict :=
  match pages with
  | [] => []
  | (c, resp) :: rest =>
      match cursor with
      | JStr s => if String.eqb s c then resp else lookup_page rest cursor
      | _ => lookup_page rest cursor
      end
  end.

Fixpoint lookup_balance (balances : list (Z * string)) (r : json) : dict :=
  match balances with
  | [] => []
  | (n, b) :: rest =>
      if json_eq_int r n then [("wallet_balance", JStr b)] else lookup_balance rest r
  end.

Definition table_gateway (latest : dict) (round_totals : list dict)
    (balances : list (Z * string)) (pages : list (string * dict)) : Gateway :=
  {| get_round_of_latest_data := latest;
     list_round_totals := fun s e => List.filter (in_range s e) round_totals;
     list_round_party_totals := fun _ _ => [];
     get_wallet_balance := fun _ r => lookup_balance balances r;
     list_activity := fun _ cursor => lookup_page pages cursor |}.

(** A reader of timestamps of the shape [YYYY-MM...], standing for
    [datetime.fromisoformat] in the examples. *)
Definition digit_of (c : ascii) : option Z :=
  let n := Z.of_N (N_of_ascii c) in
  if (48 <=? n) && (n <=? 57) then Some (n - 48) else None.

Definition sample_fromisoformat (s : string) : option datetime :=
  match s with
  | String y1 (String y2 (String y3 (String y4 (String "-" (String m1 (String m2 _)))))) =>
      y1 ← digit_of y1; y2 ← digit_of y2; y3 ← digit_of y3; y4 ← digit_of y4;
      m1 ← digit_of m1; m2 ← digit_of m2;
      Some {| dt_year := ((y1 * 10 + y2) * 10 + y3) * 10 + y4;
              dt_month := m1 * 10 + m2 |}
  | _ => None
  end.

(** A serializer standing for [json.dumps] in the examples: it only
    tells the kinds of values apart. *)
Definition sample_json_dumps (v : json) : string :=
  match v with
  | JNull => "null"
  | JBool true => "true"
  | JBool false => "false"
  | JNum _ => "<number>"
  | JStr s => s
  | JList _ => "<list>"
  | JDict _ => "<object>"
  end.

Definition round_entry (r : Z) (t : string) : dict :=
  [("closed_round", JNum r); ("closed_round_effective_at", JStr t)].

(** ** Sample data and views used by the statements *)

(** Round 0 lies in April 2024; rounds 1 and 2 have no entry. *)
Definition sparse_gateway : Gateway :=
  table_gateway [("round", JNum 2)] [round_entry 0 "2024-04-01T00:00:00Z"] [] [].

(** Rounds 0 and 1 both lie in April 2024. *)
Definition april_gateway : Gateway :=
  table_gateway [("round", JNum 1)]
                [round_entry 0 "2024-04-01T00:00:00Z";
                 round_entry 1 "2024-04-02T00:00:00Z"] [] [].

(** No latest round is reported. *)
Definition no_latest_gateway : Gateway := table_gateway [] [] [] [].

(** An entry whose first synonym is present but empty. *)
Definition empty_first_synonym_entry : dict :=
  [("closed_round", JNum 7); ("closed_round_effective_at", JStr "");
   ("effectiveAt", JStr "2024-04-01T00:00:00Z")].

(** A record without a [date] that carries a transfer. *)
Definition dateless_activity : dict :=
  [("event_id", JStr "e1");
   ("transfer", JDict [("receivers", JList [JDict [("party", JStr "bob")]])])].

(** A feed of that one record. *)
Definition dateless_gateway : Gateway :=
  table_gateway [] [] [] [("", [("activities", JList [JDict dateless_activity])])].



(** A feed whose first page is empty. *)
Definition empty_feed_gateway : Gateway :=
  table_gateway [] [] [] [("", [("activities", JList [])])].

(** The sample built for one round. *)
Definition sample_of (gw : Gateway) (party_id : string)
    (round_to_effective_time : gmap pykey json) (r : Z) : BalanceSample :=
  {| round := r;
     effective_time := index_get round_to_effective_time r;
     wallet_balance := py_get (get_wallet_balance gw party_id (JNum r)) "wallet_balance" |}.

(** The balance requests among the requests of a run. *)
Definition balance_requests (log : list call) : list (string * json) :=
  omap (fun c => match c with
                 | CallWalletBalance p r => Some (p, r)
                 | _ => None
                 end) log.

(** The party of the scenario: balance 100.0 at round 50, 150.0 at round 60. *)
Definition balances_gateway : Gateway :=
  table_gateway [] [] [(50, "100.0"); (60, "150.0")] [].

(** What one page adds to the accumulators of the first pass. *)
Definition page_summary (after_timestamp : string) (st st' : scan_state)
    (taken : list dict) : Prop :=
  all_flattened st' = all_flattened st ++ taken
  /\ max_receivers st'
     = Nat.max (max_receivers st) (max_list_len "receivers" taken)
  /\ max_balance_changes st'
     = Nat.max (max_balance_changes st) (max_list_len "balance_changes" taken)
  /\ Forall (not_before after_timestamp) taken.

(** The record on which a scan stopped, if any. *)
Definition stopped_at (after_timestamp : string) (rest : list json) : Prop :=
  exists d rest', rest = JDict d :: rest'
                  /\ date_before (py_get d "date") after_timestamp = Ret true.

(** A feed of one record, dated exactly at the cutoff, with one receiver. *)
Definition boundary_activity : dict :=
  [("date", JStr "2024-01-01T00:00:00Z"); ("event_id", JStr "e1");
   ("transfer", JDict [("receivers", JList [JDict [("party", JStr "bob")]])])].

Definition boundary_gateway : Gateway :=
  table_gateway [] [] [] [("", [("activities", JList [JDict boundary_activity])])].

(** The file written from the buffer of a completed first pass: one row
    per buffered record. *)
Definition file_of (json_dumps : json -> string) (st : scan_state) : csv_file :=
  {| header := Some (get_all_fieldnames json_dumps st);
     rows := (fun a => flatten json_dumps a (max_receivers st) (max_balance_changes st))
               <$> all_flattened st |}.

(** The feed of the scenario: record 0 is newer than the cutoff, the record
    after it is older, and a third record follows. *)
Definition newer_activity : dict :=
  [("date", JStr "2024-03-01T00:00:00Z"); ("event_id", JStr "e0")].

Definition older_activity : dict :=
  [("date", JStr "2023-12-01T00:00:00Z"); ("event_id", JStr "e1")].

Definition three_record_gateway (third : json) : Gateway :=
  table_gateway [] [] []
    [("", [("activities",
            JList [JDict newer_activity; JDict older_activity; third])])].

(** ** The month variants of the balance series *)

Record WalletBalanceForMonth : Type := {
  wbm_party_id : string;
  beginning_of_month_round : Z;
  beginning_of_month_time : json;
  beginning_of_month_balance : json;
  end_of_month_round : Z;
  end_of_month_time : json;
  end_of_month_balance : json
}.

(** Body of the [for entry in self.list_round_totals(...)] loop of
    [get_wallet_balances_for_all_rounds_in_month]. *)
Definition all_rounds_index_entry (round_to_effective_time : gmap pykey json)
    (entry : dict) : res (gmap pykey json) :=
  let round_num := py_get entry "closed_round" in
  let eff_time :=
    py_or (py_or (py_get entry "closed_round_effective_at")
                 (py_get entry "effectiveAt"))
          (py_get entry "effective_at") in
  match round_num with
  | JNull => Ret round_to_effective_time
  | _ =>
      if truthy eff_time then index_set round_to_effective_time round_num eff_time
      else Ret round_to_effective_time
  end.

Definition all_rounds_prefetch_batch (gw : Gateway) (end_round : Z)
    (round_to_effective_time : gmap pykey json) (batch_start : Z)
  : M (gmap pykey json) :=
  let batch_end := Z.min (batch_start + batch_size - 1) end_round in
  entries <- call_round_totals gw batch_start batch_end ;;
  for_each (fun m entry => lift (all_rounds_index_entry m entry))
           entries round_to_effective_time.

Definition all_rounds_fetch_sample (gw : Gateway) (party_id : string)
    (round_to_effective_time : gmap pykey json)
    (results : list BalanceSample) (r : Z) : M (list BalanceSample) :=
  let eff_time := index_get round_to_effective_time r in
  balance_resp <- call_wallet_balance gw party_id (JNum r) ;;
  let wallet_balance := py_get balance_resp "wallet_balance" in
  ret (results ++ [{| round := r;
                      effective_time := eff_time;
                      wallet_balance := wallet_balance |}]).

Section MonthVariants.

(** [datetime.fromisoformat], with [None] for a raised exception. *)
Variable fromisoformat : string -> option datetime.

(** One iteration of [for party_id in party_ids]. *)
Definition month_estimate_party (gw : Gateway) (rounds : FindRoundsForMonthResult)
    (result : list WalletBalanceForMonth) (party_id : string)
  : M (list WalletBalanceForMonth) :=
  begin_resp <- call_wallet_balance gw party_id (JNum (start_round rounds)) ;;
  let begin_balance := py_get begin_resp "wallet_balance" in
  end_resp <- call_wallet_balance gw party_id (JNum (end_round rounds)) ;;
  let end_balance := py_get end_resp "wallet_balance" in
  ret (result ++ [{| wbm_party_id := party_id;
                     beginning_of_month_round := start_round rounds;
                     beginning_of_month_time := start_time rounds;
                     beginning_of_month_balance := begin_balance;
                     end_of_month_round := end_round rounds;
                     end_of_month_time := end_time rounds;
                     end_of_month_balance := end_balance |}]).

(** The optional CSV file repeats [result] row by row and is left out. *)
Definition get_wallet_balances_for_month_from_rounds_estimate (gw : Gateway)
    (party_ids : list string) (year month : Z) : M (list WalletBalanceForMonth) :=
  rounds <- find_rounds_for_month fromisoformat gw year month ;;
  match rounds with
  | None => ret []
  | Some rounds => for_each (month_estimate_party gw rounds) party_ids []
  end.

(** The optional CSV file repeats [results] row by row and is left out. *)
Definition get_wallet_balances_for_all_rounds_in_month (gw : Gateway)
    (party_id : string) (year month step : Z) : M (list BalanceSample) :=
  rounds_info <- find_rounds_for_month fromisoformat gw year month ;;
  match rounds_info with
  | None => ret []
  | Some rounds_info =>
      let start_round := start_round rounds_info in
      let end_round := end_round rounds_info in
      batches <- lift (py_range start_round (end_round + 1) batch_size) ;;
      round_to_effective_time <-
        for_each (all_rounds_prefetch_batch gw end_round) batches ∅ ;;
      rounds <- lift (py_range start_round (end_round + 1) step) ;;
      for_each (all_rounds_fetch_sample gw party_id round_to_effective_time) rounds []
  end.

End MonthVariants.

(** ** list_all_validator_licenses *)

(** [all_licenses.extend(licenses)]: the elements an iteration yields. *)
Definition iter_elements (v : json) : res (list json) :=
  match v with
  | JList l => Ret l
  | JDict d => Ret (JStr <$> d.*1)
  | JStr s => Ret (JStr <$> utf8_chars s)
  | _ => Raise TypeError
  end.

(** The [while True] loop; [endpoint after limit] stands for
    [self.list_validator_licenses(after=..., limit=...)], and the requests
    issued are logged as (after, limit). *)
Fixpoint validator_licenses_loop (fuel : nat) (endpoint : json -> Z -> dict)
    (page_size : Z) (next_page_token : json) (all_licenses : list json)
  : res (list json) * list (json * Z) :=
  match fuel with
  | O => (OutOfFuel, [])
  | S fuel' =>
      let response := endpoint next_page_token page_size in
      let licenses := py_get_default response "validator_licenses" (JList []) in
      if negb (truthy licenses) then (Ret all_licenses, [(next_page_token, page_size)])
      else
        match iter_elements licenses with
        | Ret elements =>
            let all_licenses := all_licenses ++ elements in
            let next_page_token' := py_get response "next_page_token" in
            match next_page_token' with
            | JNull => (Ret all_licenses, [(next_page_token, page_size)])
            | _ =>
                let '(r, log) :=
                  validator_licenses_loop fuel' endpoint page_size next_page_token'
                                          all_licenses in
                (r, (next_page_token, page_size) :: log)
            end
        | Raise e => (Raise e, [(next_page_token, page_size)])
        | OutOfFuel => (OutOfFuel, [(next_page_token, page_size)])
        end
  end.

Definition list_all_validator_licenses (fuel : nat) (endpoint : json -> Z -> dict)
  : res (list json) * list (json * Z) :=
  validator_licenses_loop fuel endpoint 1000 JNull [].

(** ** Further views used by the statements *)

(** Number of halvings an interval of [n] rounds admits. *)
Definition halvings (n : Z) : Z := if n <=? 0 then 0 else Z.log2 n + 1.

(** The licenses of the page a request yields. *)
Definition page_licenses (endpoint : json -> Z -> dict) (request : json * Z)
  : list json :=
  match iter_elements
          (py_get_default (endpoint request.1 request.2) "validator_licenses" (JList []))
  with
  | Ret l => l
  | _ => []
  end.

(** The cursors of the requests of a scan follow the feed: each request
    after the first carries the [event_id] of the last record of the page
    before. *)
Fixpoint cursor_chain (gw : Gateway) (page_size : Z) (cursor : json)
    (log : list call) : Prop :=
  match log with
  | [] => True
  | c :: rest =>
      c = CallListActivity page_size cursor
      /\ match rest with
         | [] => True
         | _ :: _ =>
             exists l last_activity,
               py_get_default (list_activity gw page_size cursor) "activities" (JList [])
               = JList l
               /\ List.last l JNull = JDict last_activity
               /\ truthy (py_get last_activity "event_id") = true
               /\ cursor_chain gw page_size (py_get last_activity "event_id") rest
         end
  end.

(** Strictly increasing strings, as [sorted] leaves them. *)
Fixpoint strictly_sorted (keys : list string) : Prop :=
  match keys with
  | [] => True
  | x :: rest =>
      match rest with
      | [] => True
      | y :: _ => String.compare x y = Lt
      end
      /\ strictly_sorted rest
  end.

(** [isinstance(v, dict)] *)
Definition is_object (v : json) : bool :=
  match v with
  | JDict _ => true
  | _ => false
  end.

(** The cell [flatten] writes for a top-level field that is no object: a
    list as its JSON text, any other value as it is. *)
Definition flat_cell (json_dumps : json -> string) (v : json) : json :=
  match v with
  | JList _ => JStr (json_dumps v)
  | _ => v
  end.

(** A Gateway with timestamps for rounds 0 to 11, three balances, and a
    ledger at round 11. *)
Definition twelve_round_gateway : Gateway :=
  table_gateway [("round", JNum 11)]
    [round_entry 3 "2024-04-03T00:00:00Z"; round_entry 11 "2024-04-11T00:00:00Z"]
    [(2, "20.0"); (3, "30.0"); (11, "110.0")] [].

(** Two pages of licenses, then none. *)
Definition licenses_endpoint (after : json) (limit : Z) : dict :=
  match after with
  | JNull => [("validator_licenses", JList [JStr "l1"; JStr "l2"]);
              ("next_page_token", JNum 2)]
  | JNum 2 => [("validator_licenses", JList [JStr "l3"])]
  | _ => []
  end.

(** The timestamp a round -> time dictionary built from [entries] holds for
    round [r]: the last entry that names the round with a truthy timestamp
    wins. *)
Definition last_indexed_time (entries : list dict) (r : Z) : json :=
  foldl (fun acc entry =>
           if json_eq_int (py_get entry "closed_round") r && truthy (effective_at_of entry)
           then effective_at_of entry
           else acc)
        JNull entries.

(** The entries of all the windows the range series builder prefetches. *)
Definition prefetched_entries (gw : Gateway) (a b : Z) : list dict :=
  stride_rounds a b batch_size
    ≫= (fun batch_start =>
          list_round_totals gw batch_start (Z.min (batch_start + batch_size - 1) b)).

(** What holds of a party-totals file: without a header it has no row;
    with one, the header names [effective_time] and every row has an
    [effective_time] and no key outside the header. *)
Definition party_totals_file_ok (f : csv_file) : Prop :=
  match header f with
  | None => rows f = []
  | Some fieldnames =>
      "effective_time" ∈ fieldnames
      /\ Forall (fun row => "effective_time" ∈ row.*1
                            /\ forall k, k ∈ row.*1 -> k ∈ fieldnames)
                (rows f)
  end.

(** A ledger at round 1 with one party-totals entry per window and the
    timestamp of round 0. *)
Definition party_totals_gateway : Gateway :=
  {| get_round_of_latest_data := [("round", JNum 1)];
     list_round_totals := fun _ _ => [round_entry 0 "2024-04-01T00:00:00Z"];
     list_round_party_totals := fun s _ =>
       [("entries", JList [JDict [("closed_round", JNum s); ("party", JStr "alice")]])];
     get_wallet_balance := fun _ _ => [];
     list_activity := fun _ _ => [] |}.

(** ** get_holdings_summary_for_month

    The two endpoints the summary uses are kept in a record of their own;
    an exception, whichever it is, is [None]. *)

Record HoldingsGateway : Type := {
  get_acs_snapshot_timestamp : string -> Z -> dict;
  get_holdings_summary_at_time : Z -> json -> list string -> dict
}.

Inductive holdings_call : Type :=
| CallAcsSnapshotTimestamp (before : string) (migration_id : Z)
| CallHoldingsSummaryAtTime (migration_id : Z) (record_time : json)
                            (owner_party_ids : list string).

(** [f"{z:0{width}d}"] *)
Fixpoint zeros (n : nat) : string :=
  match n with
  | O => ""
  | S n' => "0" +:+ zeros n'
  end.

Definition format_0d (width : nat) (z : Z) : string :=
  let digits := str_of_nat (Z.abs_nat z) in
  if z <? 0 then "-" +:+ zeros (width - 1 - String.length digits) +:+ digits
  else zeros (width - String.length digits) +:+ digits.

(** [calendar.isleap], [calendar.mdays] and [calendar.monthrange(...)[1]];
    [None] for the [IllegalMonthError]. *)
Definition isleap (year : Z) : bool :=
  (year `mod` 4 =? 0) && (negb (year `mod` 100 =? 0) || (year `mod` 400 =? 0)).

Definition mdays (month : Z) : Z :=
  match month with
  | 1 => 31 | 2 => 28 | 3 => 31 | 4 => 30 | 5 => 31 | 6 => 30
  | 7 => 31 | 8 => 31 | 9 => 30 | 10 => 31 | 11 => 30 | 12 => 31
  | _ => 0
  end.

Definition monthrange_days (year month : Z) : option Z :=
  if (1 <=? month) && (month <=? 12)
  then Some (mdays month + (if (month =? 2) && isleap year then 1 else 0))
  else None.

(** [begin_time] and [end_time_query] of [process_month]. *)
Definition month_begin_time (year month : Z) : string :=
  format_0d 4 year +:+ "-" +:+ format_0d 2 month +:+ "-01T00:00:00.000000Z".

Definition month_end_time_query (year month : Z) : option string :=
  last_day ← monthrange_days year month;
  Some (format_0d 4 year +:+ "-" +:+ format_0d 2 month +:+ "-"
        +:+ format_0d 2 last_day +:+ "T23:59:59.000000Z").

(** [self.get_acs_snapshot_timestamp(before, migration_id).get("record_time")] *)
Definition snapshot_record_time (gw : HoldingsGateway) (before : string)
    (migration_id : Z) : json :=
  py_get (get_acs_snapshot_timestamp gw before migration_id) "record_time".

(** The loop of [extract_holdings]: [result[s["party_id"]] =
    s.get("total_coin_holdings")]. *)
Fixpoint extract_holdings_loop (summaries : list json) (result : gmap pykey json)
  : option (gmap pykey json) :=
  match summaries with
  | [] => Some result
  | JDict s :: rest =>
      match dict_get s "party_id" with
      | Some party =>
          match hash_key party with
          | Ret k =>
              extract_holdings_loop rest (<[k := py_get s "total_coin_holdings"]> result)
          | _ => None
          end
      | None => None
      end
  | _ :: _ => None
  end.

Definition extract_holdings (summary : dict) : option (gmap pykey json) :=
  match iter_elements (py_get_default summary "summaries" (JList [])) with
  | Ret summaries => extract_holdings_loop summaries ∅
  | _ => None
  end.

Record HoldingsSummaryForMonth : Type := {
  hs_party_id : string;
  hs_beginning_of_month_time : string;
  hs_beginning_of_month_snapshot_time : json;
  hs_beginning_of_month_balance : json;
  hs_end_of_month_time : string;
  hs_end_of_month_snapshot_time : json;
  hs_end_of_month_balance : json;
  hs_year : Z;
  hs_month : Z
}.

Definition process_month (gw : HoldingsGateway) (migration_id : Z)
    (party_ids : list string) (year month : Z)
  : option (list HoldingsSummaryForMonth) * list holdings_call :=
  let begin_time := month_begin_time year month in
  match month_end_time_query year month with
  | None => (None, [])
  | Some end_time_query =>
      let begin_time_snapshot := snapshot_record_time gw begin_time migration_id in
      let end_time_snapshot := snapshot_record_time gw end_time_query migration_id in
      let snapshot_calls :=
        [CallAcsSnapshotTimestamp begin_time migration_id;
         CallAcsSnapshotTimestamp end_time_query migration_id] in
      if negb (truthy end_time_snapshot) then (Some [], snapshot_calls)
      else
        let begin_summary :=
          get_holdings_summary_at_time gw migration_id (JStr begin_time) party_ids in
        let end_summary :=
          get_holdings_summary_at_time gw migration_id end_time_snapshot party_ids in
        let log :=
          snapshot_calls
          ++ [CallHoldingsSummaryAtTime migration_id (JStr begin_time) party_ids;
              CallHoldingsSummaryAtTime migration_id end_time_snapshot party_ids] in
        match extract_holdings begin_summary with
        | None => (None, log)
        | Some begin_balances =>
            match extract_holdings end_summary with
            | None => (None, log)
            | Some end_balances =>
                (Some ((fun party_id =>
                          {| hs_party_id := party_id;
                             hs_beginning_of_month_time := begin_time;
                             hs_beginning_of_month_snapshot_time := begin_time_snapshot;
                             hs_beginning_of_month_balance :=
                               default JNull (begin_balances !! Some (inr party_id));
                             hs_end_of_month_time := end_time_query;
                             hs_end_of_month_snapshot_time := end_time_snapshot;
                             hs_end_of_month_balance :=
                               default JNull (end_balances !! Some (inr party_id));
                             hs_year := year;
                             hs_month := month |}) <$> party_ids),
                 log)
            end
        end
  end.

(** The [for (y, m) in months] loop. *)
Fixpoint holdings_months (gw : HoldingsGateway) (migration_id : Z)
    (party_ids : list string) (months : list (Z * Z))
    (all_results : list HoldingsSummaryForMonth)
  : option (list HoldingsSummaryForMonth) * list holdings_call :=
  match months with
  | [] => (Some all_results, [])
  | (y, m) :: rest =>
      match process_month gw migration_id party_ids y m with
      | (Some rows, log) =>
          let '(r, log') :=
            holdings_months gw migration_id party_ids rest (all_results ++ rows) in
          (r, log ++ log')
      | (None, log) => (None, log)
      end
  end.

(** The optional CSV file repeats [all_results] row by row and is left out. *)
Definition get_holdings_summary_for_month (gw : HoldingsGateway) (migration_id : Z)
    (party_ids : list string) (months : list (Z * Z))
  : option (list HoldingsSummaryForMonth) * list holdings_call :=
  holdings_months gw migration_id party_ids months [].

(** The requests of one month of a completed summary. *)
Definition month_requests (gw : HoldingsGateway) (migration_id : Z)
    (party_ids : list string) (ym : Z * Z) : list holdings_call :=
  match month_end_time_query ym.1 ym.2 with
  | None => []
  | Some end_time_query =>
      [CallAcsSnapshotTimestamp (month_begin_time ym.1 ym.2) migration_id;
       CallAcsSnapshotTimestamp end_time_query migration_id]
      ++ (if truthy (snapshot_record_time gw end_time_query migration_id)
          then [CallHoldingsSummaryAtTime migration_id
                  (JStr (month_begin_time ym.1 ym.2)) party_ids;
                CallHoldingsSummaryAtTime migration_id
                  (snapshot_record_time gw end_time_query migration_id) party_ids]
          else [])
  end.

(** The month has an end-of-month snapshot. *)
Definition has_end_snapshot (gw : HoldingsGateway) (migration_id : Z)
    (ym : Z * Z) : bool :=
  match month_end_time_query ym.1 ym.2 with
  | None => false
  | Some end_time_query => truthy (snapshot_record_time gw end_time_query migration_id)
  end.

(** Snapshots exist up to the end of February 2024; one party holds coin. *)
Definition february_holdings_gateway : HoldingsGateway :=
  {| get_acs_snapshot_timestamp := fun before _ =>
       if String.leb before "2024-02-29T23:59:59.000000Z"
       then [("record_time", JStr "2024-02-29T20:00:00.000000Z")]
       else [];
     get_holdings_summary_at_time := fun _ _ _ =>
       [("summaries",
         JList [JDict [("party_id", JStr "alice");
                       ("total_coin_holdings", JStr "5.0")]])] |}.

(** ** The activity feed, as paging presents it *)

(** [resp.get("activities", [])] of the page asked for with a cursor. *)
Definition activities_at (gw : Gateway) (page_size : Z) (cursor : json) : json :=
  py_get_default (list_activity gw page_size cursor) "activities" (JList []).








(** * Facts *)

(** ** Tuples and probes *)

Lemma tuple_ltb_irrefl (a : Z * Z) : tuple_ltb a a = false.
Proof.
  unfold tuple_ltb. rewrite !Z.ltb_irrefl, andb_false_r. reflexivity.
Qed.

Lemma tuple_ltb_trichotomy (a b : Z * Z) :
  tuple_ltb a b = false -> tuple_ltb b a = false -> a = b.
Proof.
  destruct a as [a1 a2], b as [b1 b2]. unfold tuple_ltb. simpl.
  intros H1 H2.
  apply orb_false_iff in H1 as [H1 H1'], H2 as [H2 H2'].
  apply Z.ltb_ge in H1, H2.
  assert (a1 = b1) as -> by lia.
  rewrite Z.eqb_refl in H1', H2'. simpl in *.
  apply Z.ltb_ge in H1', H2'. f_equal. lia.
Qed.

Lemma midpoint_bounds (left right : Z) :
  left <= right -> left <= (left + right) / 2 <= right.
Proof. intros. Z.to_euclidean_division_equations. lia. Qed.

(** A truthy string is not empty, and only strings parse. *)
Lemma parse_effective_at_Some fromisoformat (t : json) (d : datetime) :
  parse_effective_at fromisoformat t = Some d ->
  exists s, t = JStr s /\ s <> "" /\ fromisoformat (replace_Z s) = Some d.
Proof.
  unfold parse_effective_at.
  destruct (truthy t) eqn:Ht; [|discriminate].
  destruct t; try discriminate. intros H.
  exists s. split; [reflexivity|]. split; [|exact H].
  intros ->. discriminate Ht.
Qed.

Section ResolverFacts.

Variable fromisoformat : string -> option datetime.
Variable gw : Gateway.
Variables latest_round year month : Z.

Local Abbreviation window_call := (window_call latest_round).
Local Abbreviation looked_up := (looked_up gw latest_round).
Local Abbreviation first_step := (first_step fromisoformat gw latest_round year month).
Local Abbreviation last_step := (last_step fromisoformat gw latest_round year month).
Local Abbreviation in_month := (in_month fromisoformat gw latest_round year month).

Lemma get_effective_at_eq (r : Z) :
  get_effective_at gw latest_round r = (Ret (looked_up r), [window_call r]).
Proof. reflexivity. Qed.

Lemma get_effective_at_dt_eq (r : Z) :
  get_effective_at_dt fromisoformat gw latest_round r
  = (Ret (parse_effective_at fromisoformat (looked_up r)), [window_call r]).
Proof. reflexivity. Qed.

Lemma probe_period_eq (r : Z) :
  probe_period fromisoformat gw latest_round r
  = time_period fromisoformat (looked_up r).
Proof.
  unfold probe_period, time_period. rewrite get_effective_at_dt_eq. simpl.
  destruct (parse_effective_at fromisoformat (looked_up r)); reflexivity.
Qed.

Lemma search_first_unfold (fuel : nat) (left right : Z) (first : option Z) :
  left <= right ->
  search_first fromisoformat (S fuel) gw latest_round year month left right first
  = (_ <- get_effective_at_dt fromisoformat gw latest_round ((left + right) / 2) ;;
     let '(l, r, f) := first_step left right first in
     search_first fromisoformat fuel gw latest_round year month l r f).
Proof.
  intros Hle. apply Z.leb_le in Hle. cbn [search_first]. rewrite Hle.
  rewrite get_effective_at_dt_eq. unfold first_step, bind.
  destruct (parse_effective_at fromisoformat (looked_up ((left + right) / 2)));
    [|reflexivity].
  repeat match goal with |- context [if ?b then _ else _] => destruct b end;
    reflexivity.
Qed.

(** The [while] rule of the first search: an invariant over the bounds,
    the candidate and the requests issued so far is carried to the exit,
    and the loop does exit. *)
Lemma search_first_rule (Inv : Z -> Z -> option Z -> list call -> Prop) :
  (forall left right first log,
      Inv left right first log -> left <= right ->
      let '(l, r, f) := first_step left right first in
      Inv l r f (log ++ [window_call ((left + right) / 2)])) ->
  forall fuel left right first log0,
    (Z.to_nat (right - left + 1) <= fuel)%nat ->
    Inv left right first log0 ->
    exists res log l r,
      search_first fromisoformat fuel gw latest_round year month left right first
      = (Ret res, log)
      /\ Inv l r res (log0 ++ log) /\ r < l.
Proof.
  intros Hstep fuel. induction fuel as [|fuel IH]; intros left right first log0 Hfuel HI.
  - exists first, [], left, right. simpl.
    destruct (left <=? right) eqn:E; [apply Z.leb_le in E; lia|].
    apply Z.leb_gt in E. rewrite app_nil_r. auto.
  - destruct (Z_le_gt_dec left right) as [Hle|Hgt].
    + rewrite search_first_unfold by exact Hle.
      rewrite get_effective_at_dt_eq.
      specialize (Hstep left right first log0 HI Hle).
      pose proof (midpoint_bounds left right Hle) as Hmid.
      assert (Hshrink : forall l r f, first_step left right first = (l, r, f) ->
                                      (Z.to_nat (r - l + 1) <= fuel)%nat).
      { unfold first_step. intros l r f.
        destruct (parse_effective_at _ _);
          repeat match goal with |- context [if ?b then _ else _] => destruct b end;
          intros [= <- <- <-]; lia. }
      destruct (first_step left right first) as [[l r] f].
      destruct (IH l r f _ (Hshrink l r f eq_refl) Hstep) as (res & log & l' & r' & Heq & HI' & Hlt).
      exists res, (window_call ((left + right) / 2) :: log), l', r'.
      simpl. rewrite Heq. split; [reflexivity|]. split; [|exact Hlt].
      rewrite <- app_assoc in HI'. exact HI'.
    + exists first, [], left, right. simpl.
      destruct (left <=? right) eqn:E; [apply Z.leb_le in E; lia|].
      rewrite app_nil_r. split; [reflexivity|]. split; [exact HI|lia].
Qed.

Lemma search_last_unfold (fuel : nat) (left right last : Z) :
  left <= right ->
  search_last fromisoformat (S fuel) gw latest_round year month left right last
  = (_ <- get_effective_at_dt fromisoformat gw latest_round ((left + right) / 2) ;;
     let '(l, r, f) := last_step left right last in
     search_last fromisoformat fuel gw latest_round year month l r f).
Proof.
  intros Hle. apply Z.leb_le in Hle. cbn [search_last]. rewrite Hle.
  rewrite get_effective_at_dt_eq. unfold last_step, bind.
  destruct (parse_effective_at fromisoformat (looked_up ((left + right) / 2)));
    [|reflexivity].
  repeat match goal with |- context [if ?b then _ else _] => destruct b end;
    reflexivity.
Qed.

(** The [while] rule of the second search. *)
Lemma search_last_rule (Inv : Z -> Z -> Z -> list call -> Prop) :
  (forall left right last log,
      Inv left right last log -> left <= right ->
      let '(l, r, f) := last_step left right last in
      Inv l r f (log ++ [window_call ((left + right) / 2)])) ->
  forall fuel left right last log0,
    (Z.to_nat (right - left + 1) <= fuel)%nat ->
    Inv left right last log0 ->
    exists res log l r,
      search_last fromisoformat fuel gw latest_round year month left right last
      = (Ret res, log)
      /\ Inv l r res (log0 ++ log) /\ r < l.
Proof.
  intros Hstep fuel. induction fuel as [|fuel IH]; intros left right last log0 Hfuel HI.
  - exists last, [], left, right. simpl.
    destruct (left <=? right) eqn:E; [apply Z.leb_le in E; lia|].
    apply Z.leb_gt in E. rewrite app_nil_r. auto.
  - destruct (Z_le_gt_dec left right) as [Hle|Hgt].
    + rewrite search_last_unfold by exact Hle.
      rewrite get_effective_at_dt_eq.
      specialize (Hstep left right last log0 HI Hle).
      pose proof (midpoint_bounds left right Hle) as Hmid.
      assert (Hshrink : forall l r f, last_step left right last = (l, r, f) ->
                                      (Z.to_nat (r - l + 1) <= fuel)%nat).
      { unfold last_step. intros l r f.
        destruct (parse_effective_at _ _);
          repeat match goal with |- context [if ?b then _ else _] => destruct b end;
          intros [= <- <- <-]; lia. }
      destruct (last_step left right last) as [[l r] f].
      destruct (IH l r f _ (Hshrink l r f eq_refl) Hstep) as (res & log & l' & r' & Heq & HI' & Hlt).
      exists res, (window_call ((left + right) / 2) :: log), l', r'.
      simpl. rewrite Heq. split; [reflexivity|]. split; [|exact Hlt].
      rewrite <- app_assoc in HI'. exact HI'.
    + exists last, [], left, right. simpl.
      destruct (left <=? right) eqn:E; [apply Z.leb_le in E; lia|].
      rewrite app_nil_r. split; [reflexivity|]. split; [exact HI|lia].
Qed.

(** The first search ends, asks only for windows, and its candidate is a
    probed round of the target month. *)
Lemma search_first_sound :
  exists res log,
    search_first fromisoformat (search_fuel latest_round) gw latest_round year month
                 0 latest_round None = (Ret res, log)
    /\ Forall (fun c => exists r, c = window_call r) log
    /\ (forall m, res = Some m -> in_month m /\ window_call m ∈ log).
Proof.
  destruct (search_first_rule
              (fun left right first log =>
                 0 <= left /\ right <= latest_round
                 /\ Forall (fun c => exists r, c = window_call r) log
                 /\ (forall m, first = Some m -> in_month m /\ window_call m ∈ log)))
    with (fuel := search_fuel latest_round) (left := 0) (right := latest_round)
         (first := @None Z) (log0 := @nil call)
    as (res & log & l & r & Heq & (_ & _ & Hlog & Hres) & _).
  - intros left right first log (Hl & Hr & Hlog & Hfirst) Hle.
    pose proof (midpoint_bounds left right Hle) as Hmid.
    assert (Hlog' : Forall (fun c => exists r, c = window_call r)
                           (log ++ [window_call ((left + right) / 2)])).
    { apply Forall_app. split; [exact Hlog|]. repeat constructor. eauto. }
    assert (Hkeep : forall m, first = Some m ->
              in_month m /\ window_call m ∈ log ++ [window_call ((left + right) / 2)]).
    { intros m Hm. destruct (Hfirst m Hm). split; [assumption|].
      apply elem_of_app. auto. }
    unfold first_step.
    destruct (parse_effective_at fromisoformat (looked_up ((left + right) / 2)))
      as [d|] eqn:Hparse.
    + destruct (tuple_ltb (dt_year d, dt_month d) (year, month)) eqn:Hlt.
      { repeat split; try lia; auto; apply Hkeep; auto. }
      destruct (tuple_ltb (year, month) (dt_year d, dt_month d)) eqn:Hgt.
      { repeat split; try lia; auto; apply Hkeep; auto. }
      split; [lia|]. split; [lia|]. split; [exact Hlog'|].
      intros m [= <-]. split.
      * split; [lia|]. unfold time_period. rewrite Hparse. f_equal.
        apply tuple_ltb_trichotomy; assumption.
      * apply elem_of_app. right. apply list_elem_of_singleton. reflexivity.
    + repeat split; try lia; auto; apply Hkeep; auto.
  - unfold search_fuel. lia.
  - split; [lia|]. split; [lia|]. split; [constructor|]. intros m [=].
  - exists res, log. simpl in *. auto.
Qed.

(** Under the ordering assumptions the first search does not miss the
    month. *)
Lemma search_first_finds :
  periods_monotone fromisoformat gw latest_round ->
  unresolved_only_before fromisoformat gw latest_round year month ->
  month_has_round fromisoformat gw latest_round year month ->
  exists m log,
    search_first fromisoformat (search_fuel latest_round) gw latest_round year month
                 0 latest_round None = (Ret (Some m), log).
Proof.
  intros Hmono Hunres (r0 & Hr0 & Hp0).
  destruct (search_first_rule
              (fun left right first (_ : list call) =>
                 0 <= left /\ right <= latest_round
                 /\ (first <> None
                     \/ exists r, left <= r <= right
                          /\ probe_period fromisoformat gw latest_round r
                             = Some (year, month))))
    with (fuel := search_fuel latest_round) (left := 0) (right := latest_round)
         (first := @None Z) (log0 := @nil call)
    as (res & log & l & r & Heq & (_ & _ & Hres) & Hexit).
  - intros left right first log (Hl & Hr & Hinv) Hle.
    pose proof (midpoint_bounds left right Hle) as Hmid.
    set (mid := (left + right) / 2) in *.
    pose proof (probe_period_eq mid) as Hprobe. unfold time_period in Hprobe.
    unfold first_step. fold mid.
    destruct (parse_effective_at fromisoformat (looked_up mid)) as [d|] eqn:Hparse.
    + destruct (tuple_ltb (dt_year d, dt_month d) (year, month)) eqn:Hlt.
      { split; [lia|]. split; [lia|].
        destruct Hinv as [Hf|(r1 & Hr1 & Hp1)]; [left; exact Hf|].
        right. exists r1. split; [|exact Hp1].
        destruct (Z_le_gt_dec r1 mid) as [Hle1|Hgt1]; [|lia].
        pose proof (Hmono r1 mid _ _ ltac:(lia) Hle1 ltac:(lia) Hp1 Hprobe) as Hc.
        congruence. }
      destruct (tuple_ltb (year, month) (dt_year d, dt_month d)) eqn:Hgt.
      { split; [lia|]. split; [lia|].
        destruct Hinv as [Hf|(r1 & Hr1 & Hp1)]; [left; exact Hf|].
        right. exists r1. split; [|exact Hp1].
        destruct (Z_le_gt_dec mid r1) as [Hle1|Hgt1]; [|lia].
        pose proof (Hmono mid r1 _ _ ltac:(lia) Hle1 ltac:(lia) Hprobe Hp1) as Hc.
        congruence. }
      split; [lia|]. split; [lia|]. left. discriminate.
    + split; [lia|]. split; [lia|].
      destruct Hinv as [Hf|(r1 & Hr1 & Hp1)]; [left; exact Hf|].
      right. exists r1. split; [|exact Hp1].
      destruct (Z_le_gt_dec r1 mid) as [Hle1|Hgt1]; [|lia].
      assert (r1 <> mid) by (intros ->; congruence).
      pose proof (Hunres r1 mid ltac:(lia) ltac:(lia) ltac:(lia) Hprobe) as Hc.
      rewrite Hp1, tuple_ltb_irrefl in Hc. discriminate.
  - unfold search_fuel. lia.
  - split; [lia|]. split; [lia|]. right. exists r0. split; [lia|exact Hp0].
  - destruct Hres as [Hres|(r1 & Hr1 & _)]; [|lia].
    destruct res as [m|]; [|congruence]. exists m, log. exact Heq.
Qed.

(** The second search ends, asks only for windows, and ends on a
    round of the target month that is not below its seed. *)
Lemma search_last_sound (first : Z) :
  in_month first ->
  exists res log,
    search_last fromisoformat (search_fuel latest_round) gw latest_round year month
                first latest_round first = (Ret res, log)
    /\ Forall (fun c => exists r, c = window_call r) log
    /\ first <= res /\ in_month res.
Proof.
  intros Hfirst. pose proof Hfirst as [Hrange _].
  destruct (search_last_rule
              (fun left right last log =>
                 first <= left /\ right <= latest_round
                 /\ Forall (fun c => exists r, c = window_call r) log
                 /\ first <= last /\ in_month last))
    with (fuel := search_fuel latest_round) (left := first) (right := latest_round)
         (last := first) (log0 := @nil call)
    as (res & log & l & r & Heq & (_ & _ & Hlog & Hle & Hin) & _).
  - intros left right last log (Hl & Hr & Hlog & Hlast & Hin) Hle.
    pose proof (midpoint_bounds left right Hle) as Hmid.
    assert (Hlog' : Forall (fun c => exists r, c = window_call r)
                           (log ++ [window_call ((left + right) / 2)])).
    { apply Forall_app. split; [exact Hlog|]. repeat constructor. eauto. }
    unfold last_step.
    destruct (parse_effective_at fromisoformat (looked_up ((left + right) / 2)))
      as [d|] eqn:Hparse.
    + destruct (tuple_ltb (year, month) (dt_year d, dt_month d)) eqn:Hgt.
      { repeat split; try lia; auto; apply Hin. }
      destruct (tuple_ltb (dt_year d, dt_month d) (year, month)) eqn:Hlt.
      { repeat split; try lia; auto; apply Hin. }
      split; [lia|]. split; [lia|]. split; [exact Hlog'|]. split; [lia|].
      split; [lia|]. unfold time_period. rewrite Hparse. f_equal.
      apply tuple_ltb_trichotomy; assumption.
    + repeat split; try lia; auto; apply Hin.
  - unfold search_fuel. lia.
  - split; [lia|]. split; [lia|]. split; [constructor|]. split; [lia|exact Hfirst].
  - exists res, log. simpl in *. auto.
Qed.

(** The whole run of [find_rounds_for_month] on a ledger whose latest
    round is known. *)
Lemma find_rounds_for_month_run :
  latest_round_of (get_round_of_latest_data gw) = LatestInt latest_round ->
  exists first log1,
    search_first fromisoformat (search_fuel latest_round) gw latest_round year month
                 0 latest_round None = (Ret first, log1)
    /\ Forall (fun c => exists r, c = window_call r) log1
    /\ match first with
       | None =>
           find_rounds_for_month fromisoformat gw year month
           = (Ret None, CallRoundOfLatestData :: log1)
       | Some f =>
           in_month f /\ window_call f ∈ log1
           /\ exists l log2,
               Forall (fun c => exists r, c = window_call r) log2
               /\ f <= l /\ in_month l
               /\ find_rounds_for_month fromisoformat gw year month
                  = (Ret (Some {| start_round := f; start_time := looked_up f;
                                  end_round := l; end_time := looked_up l |}),
                     CallRoundOfLatestData
                       :: log1 ++ log2 ++ [window_call f; window_call l])
       end.
Proof.
  intros Hlatest.
  destruct search_first_sound as (first & log1 & Heq1 & Hlog1 & Hfirst).
  exists first, log1. split; [exact Heq1|]. split; [exact Hlog1|].
  unfold find_rounds_for_month, call_round_of_latest_data, bind, ret. cbv beta.
  rewrite Hlatest, Heq1.
  destruct first as [f|]; [|simpl; rewrite app_nil_r; reflexivity].
  destruct (Hfirst f eq_refl) as [Hin Helem].
  split; [exact Hin|]. split; [exact Helem|].
  destruct (search_last_sound f Hin) as (l & log2 & Heq2 & Hlog2 & Hle & Hinl).
  exists l, log2. split; [exact Hlog2|]. split; [exact Hle|]. split; [exact Hinl|].
  rewrite Heq2, !get_effective_at_eq. simpl. reflexivity.
Qed.

End ResolverFacts.

Lemma small_round_cases (r n : Z) :
  0 <= r <= n -> n <= 2 -> r = 0 \/ r = 1 \/ r = 2.
Proof. lia. Qed.

(** ** The month resolver *)

(** C1, as stated, fails: on a ledger whose only resolvable round is round
    0 (in the target month, so that the resolved times are trivially
    ordered), both probes of the first search hit rounds without a time,
    move right, and the resolver answers [None]. *)
Lemma find_rounds_for_month_misses_sparse_month :
  latest_round_of (get_round_of_latest_data sparse_gateway) = LatestInt 2
  /\ periods_monotone sample_fromisoformat sparse_gateway 2
  /\ month_has_round sample_fromisoformat sparse_gateway 2 2024 4
  /\ result (find_rounds_for_month sample_fromisoformat sparse_gateway 2024 4)
     = Ret None.
Proof.
  split; [reflexivity|]. split; [|split; [|reflexivity]].
  - intros r1 r2 p1 p2 H0 H12 H2 Hp1 Hp2.
    destruct (small_round_cases r1 2 ltac:(lia) ltac:(lia)) as [-> | [-> | ->]];
      destruct (small_round_cases r2 2 ltac:(lia) ltac:(lia)) as [-> | [-> | ->]];
      vm_compute in Hp1, Hp2; try discriminate; try lia.
    injection Hp1 as <-. injection Hp2 as <-. reflexivity.
  - exists 0. split; [lia|reflexivity].
Qed.

(** C1 (amended): on a ledger whose latest round is known, whose resolved
    periods do not decrease with the round number, and where no round
    without a resolvable time lies above a round of the target month or
    later, if some round in [0, latest_round] resolves to the target month
    then [find_rounds_for_month] returns a result with
    [start_round <= end_round], both within [0, latest_round], and both
    times in the target month. *)
Theorem find_rounds_for_month_finds_month
    (fromisoformat : string -> option datetime) (gw : Gateway)
    (latest_round year month : Z) :
  latest_round_of (get_round_of_latest_data gw) = LatestInt latest_round ->
  periods_monotone fromisoformat gw latest_round ->
  unresolved_only_before fromisoformat gw latest_round year month ->
  month_has_round fromisoformat gw latest_round year month ->
  exists r,
    result (find_rounds_for_month fromisoformat gw year month) = Ret (Some r)
    /\ 0 <= start_round r /\ start_round r <= end_round r
    /\ end_round r <= latest_round
    /\ time_period fromisoformat (start_time r) = Some (year, month)
    /\ time_period fromisoformat (end_time r) = Some (year, month).
Proof.
  intros Hlatest Hmono Hunres Hhas.
  destruct (find_rounds_for_month_run fromisoformat gw latest_round year month Hlatest)
    as (first & log1 & Heq1 & _ & Hrun).
  destruct (search_first_finds fromisoformat gw latest_round year month
              Hmono Hunres Hhas) as (m & log & Heq).
  rewrite Heq in Heq1. injection Heq1 as <- <-.
  destruct Hrun as ([Hm Htm] & _ & l & log2 & _ & Hle & [Hl Htl] & Hfind).
  eexists. rewrite Hfind. simpl.
  split; [reflexivity|]. simpl. repeat split; try lia; assumption.
Qed.

Lemma find_rounds_for_month_finds_month_witness :
  exists r,
    result (find_rounds_for_month sample_fromisoformat april_gateway 2024 4)
    = Ret (Some r)
    /\ 0 <= start_round r /\ start_round r <= end_round r /\ end_round r <= 1
    /\ time_period sample_fromisoformat (start_time r) = Some (2024, 4)
    /\ time_period sample_fromisoformat (end_time r) = Some (2024, 4).
Proof.
  apply (find_rounds_for_month_finds_month sample_fromisoformat april_gateway 1 2024 4).
  - reflexivity.
  - intros r1 r2 p1 p2 H0 H12 H2 Hp1 Hp2.
    destruct (small_round_cases r1 1 ltac:(lia) ltac:(lia)) as [-> | [-> | ->]];
      destruct (small_round_cases r2 1 ltac:(lia) ltac:(lia)) as [-> | [-> | ->]];
      vm_compute in Hp1, Hp2; try discriminate; try lia;
      injection Hp1 as <-; injection Hp2 as <-; reflexivity.
  - intros r1 r2 H0 H12 H2 Hp2.
    destruct (small_round_cases r2 1 ltac:(lia) ltac:(lia)) as [-> | [-> | ->]];
      vm_compute in Hp2; try discriminate; lia.
  - exists 0. split; [lia|reflexivity].
Defined.

(** C9: whenever [find_rounds_for_month] returns a result, its
    [start_time] and [end_time] are non-empty strings (never [None]): a
    round is recorded only after its time resolved and parsed, and the
    final lookups ask the same deterministic Gateway again. *)
Theorem find_rounds_for_month_times_present
    (fromisoformat : string -> option datetime) (gw : Gateway)
    (year month : Z) (r : FindRoundsForMonthResult) :
  result (find_rounds_for_month fromisoformat gw year month) = Ret (Some r) ->
  exists s e,
    start_time r = JStr s /\ s <> "" /\ end_time r = JStr e /\ e <> "".
Proof.
  intros Hres.
  destruct (latest_round_of (get_round_of_latest_data gw)) as [|latest_round|] eqn:Hlatest.
  - unfold find_rounds_for_month, call_round_of_latest_data, bind in Hres.
    rewrite Hlatest in Hres. discriminate Hres.
  - destruct (find_rounds_for_month_run fromisoformat gw latest_round year month Hlatest)
      as (first & log1 & _ & _ & Hrun).
    destruct first as [f|]; [|rewrite Hrun in Hres; discriminate Hres].
    destruct Hrun as ([_ Htf] & _ & l & log2 & _ & _ & [_ Htl] & Hfind).
    rewrite Hfind in Hres. injection Hres as <-. simpl.
    unfold time_period in Htf, Htl.
    destruct (parse_effective_at fromisoformat (looked_up gw latest_round f))
      as [df|] eqn:Hpf; [|discriminate].
    destruct (parse_effective_at fromisoformat (looked_up gw latest_round l))
      as [dl|] eqn:Hpl; [|discriminate].
    apply parse_effective_at_Some in Hpf as (s & Hs & Hne & _).
    apply parse_effective_at_Some in Hpl as (e & He & Hnee & _).
    exists s, e. auto.
  - unfold find_rounds_for_month, call_round_of_latest_data, bind in Hres.
    rewrite Hlatest in Hres. discriminate Hres.
Qed.

Lemma find_rounds_for_month_times_present_witness :
  exists s e,
    JStr "2024-04-01T00:00:00Z" = JStr s /\ s <> ""
    /\ JStr "2024-04-02T00:00:00Z" = JStr e /\ e <> "".
Proof.
  exact (find_rounds_for_month_times_present sample_fromisoformat april_gateway 2024 4
           {| start_round := 0; start_time := JStr "2024-04-01T00:00:00Z";
              end_round := 1; end_time := JStr "2024-04-02T00:00:00Z" |}
           eq_refl).
Defined.

(** ** Requests issued by the resolver *)

Lemma round_totals_windows_app (l1 l2 : list call) :
  round_totals_windows (l1 ++ l2) = round_totals_windows l1 ++ round_totals_windows l2.
Proof. unfold round_totals_windows. apply omap_app. Qed.

Lemma round_totals_windows_latest (l : list call) :
  round_totals_windows (CallRoundOfLatestData :: l) = round_totals_windows l.
Proof. reflexivity. Qed.

Lemma round_totals_windows_window (s e : Z) (l : list call) :
  round_totals_windows (CallRoundTotals s e :: l) = (s, e) :: round_totals_windows l.
Proof. reflexivity. Qed.

(** C4, as stated, fails: on the two-round ledger the resolver issues five
    round_totals requests, all for the one window (0, 1). *)
Lemma find_rounds_for_month_fetches_window_again :
  round_totals_windows
    (calls (find_rounds_for_month sample_fromisoformat april_gateway 2024 4))
  = [(0, 1); (0, 1); (0, 1); (0, 1); (0, 1)]
  /\ length (round_totals_windows
       (calls (find_rounds_for_month sample_fromisoformat april_gateway 2024 4)))
     <> length (remove_dups (round_totals_windows
       (calls (find_rounds_for_month sample_fromisoformat april_gateway 2024 4)))).
Proof. split; [reflexivity|]. vm_compute. discriminate. Qed.

(** C4 (amended): the resolver keeps no window cache.  Every single-round
    lookup issues exactly one round_totals request, for the 200-aligned
    window [floor(r/200)*200, min(that+199, latest_round)] of the probed
    round; every request of every run, whatever its outcome, is the
    latest-round query or such a window; and whenever a result is returned,
    the window of [start_round] has been requested at least twice. *)
Theorem find_rounds_for_month_requests
    (fromisoformat : string -> option datetime) (gw : Gateway) (year month : Z) :
  (forall latest_round q,
     calls (get_effective_at gw latest_round q)
     = [CallRoundTotals (batch_start_of q) (batch_end_of latest_round q)])
  /\ Forall (fun c => c = CallRoundOfLatestData
                      \/ exists latest_round q,
                           latest_round_of (get_round_of_latest_data gw)
                           = LatestInt latest_round
                           /\ c = window_call latest_round q)
            (calls (find_rounds_for_month fromisoformat gw year month))
  /\ (forall latest_round r,
        latest_round_of (get_round_of_latest_data gw) = LatestInt latest_round ->
        result (find_rounds_for_month fromisoformat gw year month) = Ret (Some r) ->
        exists l1 l2 l3,
          round_totals_windows
            (calls (find_rounds_for_month fromisoformat gw year month))
          = l1 ++ (batch_start_of (start_round r),
                   batch_end_of latest_round (start_round r))
               :: l2 ++ (batch_start_of (start_round r),
                         batch_end_of latest_round (start_round r)) :: l3).
Proof.
  split; [intros latest_round q; reflexivity|].
  split.
  - destruct (latest_round_of (get_round_of_latest_data gw)) as [|latest_round|]
      eqn:Hlatest.
    + unfold find_rounds_for_month, call_round_of_latest_data, bind, ret, calls.
      cbv beta. rewrite Hlatest. cbn [snd app].
      constructor; [left; reflexivity|constructor].
    + destruct (find_rounds_for_month_run fromisoformat gw latest_round year month
                  Hlatest) as (first & log1 & _ & Hlog1 & Hrun).
      assert (Hwindow : forall log,
                 Forall (fun c => exists q, c = window_call latest_round q) log ->
                 Forall (fun c => c = CallRoundOfLatestData
                                  \/ exists latest_round' q,
                                       LatestInt latest_round = LatestInt latest_round'
                                       /\ c = window_call latest_round' q) log).
      { intros log Hlog. eapply Forall_impl; [exact Hlog|].
        intros c (q & ->). right. exists latest_round, q. auto. }
      destruct first as [f|].
      * destruct Hrun as (_ & _ & l & log2 & Hlog2 & _ & _ & Hfind).
        rewrite Hfind. unfold calls. cbn [snd].
        constructor; [left; reflexivity|].
        apply Forall_app. split; [exact (Hwindow _ Hlog1)|].
        apply Forall_app. split; [exact (Hwindow _ Hlog2)|].
        apply Hwindow. constructor; [eauto|]. constructor; [eauto|]. constructor.
      * rewrite Hrun. unfold calls. cbn [snd].
        constructor; [left; reflexivity|exact (Hwindow _ Hlog1)].
    + unfold find_rounds_for_month, call_round_of_latest_data, bind, raise, calls.
      cbv beta. rewrite Hlatest. cbn [snd app].
      constructor; [left; reflexivity|constructor].
  - intros latest_round r Hlatest Hres.
    destruct (find_rounds_for_month_run fromisoformat gw latest_round year month Hlatest)
      as (first & log1 & _ & Hlog1 & Hrun).
    destruct first as [f|]; [|rewrite Hrun in Hres; discriminate Hres].
    destruct Hrun as (_ & Helem & l & log2 & Hlog2 & _ & _ & Hfind).
    rewrite Hfind in Hres |- *. injection Hres as <-.
    unfold calls. cbn [snd start_round].
    apply list_elem_of_split in Helem as (a & b & ->).
    exists (round_totals_windows a),
           (round_totals_windows b ++ round_totals_windows log2),
           [(batch_start_of l, batch_end_of latest_round l)].
    unfold window_call.
    rewrite round_totals_windows_latest, !round_totals_windows_app,
      !round_totals_windows_window.
    rewrite <- !app_assoc. reflexivity.
Qed.

Lemma find_rounds_for_month_requests_witness :
  (forall latest_round q,
     calls (get_effective_at april_gateway latest_round q)
     = [CallRoundTotals (batch_start_of q) (batch_end_of latest_round q)])
  /\ Forall (fun c => c = CallRoundOfLatestData
                      \/ exists latest_round q,
                           latest_round_of (get_round_of_latest_data april_gateway)
                           = LatestInt latest_round
                           /\ c = window_call latest_round q)
            (calls (find_rounds_for_month sample_fromisoformat april_gateway 2024 4))
  /\ exists l1 l2 l3,
       round_totals_windows
         (calls (find_rounds_for_month sample_fromisoformat april_gateway 2024 4))
       = l1 ++ (batch_start_of 0, batch_end_of 1 0)
            :: l2 ++ (batch_start_of 0, batch_end_of 1 0) :: l3.
Proof.
  destruct (find_rounds_for_month_requests sample_fromisoformat april_gateway 2024 4)
    as (Hlookup & Hall & Htwice).
  split; [exact Hlookup|]. split; [exact Hall|].
  exact (Htwice 1 {| start_round := 0; start_time := JStr "2024-04-01T00:00:00Z";
                     end_round := 1; end_time := JStr "2024-04-02T00:00:00Z" |}
                eq_refl eq_refl).
Defined.

(** ** Operations that need the latest round *)

(** C5, as stated, fails: without a latest round [find_rounds_for_month]
    returns [None] and [export_all_round_party_totals_to_csv] returns
    without a file; neither raises. *)
Lemma no_latest_round_is_not_always_raised :
  latest_round_of (get_round_of_latest_data no_latest_gateway) = LatestNone
  /\ result (find_rounds_for_month sample_fromisoformat no_latest_gateway 2024 4)
     = Ret None
  /\ result (export_all_round_party_totals_to_csv no_latest_gateway 0 50)
     = Ret None.
Proof. repeat split. Qed.

(** C5 (amended): when the latest-round query yields no round number,
    [get_latest_wallet_balance] raises [ValueError("Could not determine
    latest round")], while [find_rounds_for_month] returns [None] and
    [export_all_round_party_totals_to_csv] returns without opening a
    file; each of them has issued the latest-round query only. *)
Theorem no_latest_round_outcomes
    (fromisoformat : string -> option datetime) (gw : Gateway)
    (party_id : string) (year month start_round batch_size : Z) :
  py_get (get_round_of_latest_data gw) "round" = JNull ->
  get_latest_wallet_balance gw party_id
  = (Raise (ValueError "Could not determine latest round"), [CallRoundOfLatestData])
  /\ find_rounds_for_month fromisoformat gw year month
     = (Ret None, [CallRoundOfLatestData])
  /\ export_all_round_party_totals_to_csv gw start_round batch_size
     = (Ret None, [CallRoundOfLatestData]).
Proof.
  intros Hnone.
  unfold get_latest_wallet_balance, find_rounds_for_month,
    export_all_round_party_totals_to_csv, call_round_of_latest_data, bind,
    latest_round_of.
  rewrite Hnone. repeat split.
Qed.

Lemma no_latest_round_outcomes_witness :
  get_latest_wallet_balance no_latest_gateway "alice"
  = (Raise (ValueError "Could not determine latest round"), [CallRoundOfLatestData])
  /\ find_rounds_for_month sample_fromisoformat no_latest_gateway 2024 4
     = (Ret None, [CallRoundOfLatestData])
  /\ export_all_round_party_totals_to_csv no_latest_gateway 0 50
     = (Ret None, [CallRoundOfLatestData]).
Proof.
  exact (no_latest_round_outcomes sample_fromisoformat no_latest_gateway "alice"
           2024 4 0 50 eq_refl).
Defined.

(** ** The timestamp synonyms *)

Lemma effective_at_of_first_truthy (entry : dict) :
  effective_at_of entry = first_truthy (synonym_values entry).
Proof.
  unfold effective_at_of, py_or, synonym_values. simpl.
  destruct (truthy (py_get entry "closed_round_effective_at")) eqn:E1.
  - rewrite E1. reflexivity.
  - reflexivity.
Qed.

(** Where every synonym that is present holds a truthy value, the first
    truthy synonym is the first present one. *)
Lemma effective_at_of_first_present (entry : dict) :
  (forall k, dict_has entry k = true -> truthy (py_get entry k) = true) ->
  effective_at_of entry = first_present_effective_at entry.
Proof.
  intros Hok.
  assert (Habsent : forall k, dict_has entry k = false -> py_get entry k = JNull).
  { intros k Hk. unfold dict_has in Hk. apply bool_decide_eq_false in Hk.
    unfold py_get. destruct (dict_get entry k); [|reflexivity].
    exfalso. apply Hk. eauto. }
  unfold effective_at_of, first_present_effective_at, py_or.
  destruct (dict_has entry "closed_round_effective_at") eqn:E1.
  - rewrite (Hok _ E1). simpl. rewrite (Hok _ E1). reflexivity.
  - rewrite (Habsent _ E1). simpl.
    destruct (dict_has entry "effectiveAt") eqn:E2.
    + rewrite (Hok _ E2). reflexivity.
    + rewrite (Habsent _ E2). reflexivity.
Qed.

(** C7, as stated, fails: the first present synonym of this entry is the
    empty [closed_round_effective_at], yet the lookup of the resolver and
    the prefetch of the range series both take [effectiveAt]. *)
Lemma effective_at_skips_present_empty_synonym :
  dict_has empty_first_synonym_entry "closed_round_effective_at" = true
  /\ first_present_effective_at empty_first_synonym_entry = JStr ""
  /\ find_effective_at 7 [empty_first_synonym_entry] = JStr "2024-04-01T00:00:00Z"
  /\ for_rounds_index_entry ∅ empty_first_synonym_entry
     = Ret {[ Some (inl 7) := JStr "2024-04-01T00:00:00Z" ]}
  /\ find_effective_at 7 [empty_first_synonym_entry]
     <> first_present_effective_at empty_first_synonym_entry.
Proof. repeat split. discriminate. Qed.

(** C7 (amended): for every round_totals entry the effective timestamp is
    the first truthy value among [closed_round_effective_at], [effectiveAt],
    [effective_at], in this order (a synonym that is present but null or
    empty is skipped; the last one is taken when none is truthy); the
    lookup of the month resolver, the prefetch of the range series, the
    prefetch of the last ten rounds and the one of the party-totals export
    all use this value, and none records a falsy one. *)
Theorem effective_at_priority_everywhere
    (entry : dict) (r : Z) (m : gmap pykey json) :
  py_get entry "closed_round" = JNum r ->
  let t := first_truthy (synonym_values entry) in
  find_effective_at r [entry] = (if truthy t then t else JNull)
  /\ for_rounds_index_entry m entry
     = Ret (if truthy t then <[Some (inl r) := t]> m else m)
  /\ last_10_index_entry m entry
     = Ret (if truthy t then <[Some (inl r) := t]> m else m)
  /\ party_totals_index_entry m entry
     = Ret (if truthy t then <[Some (inl r) := t]> m else m).
Proof.
  intros Hround t.
  pose proof (effective_at_of_first_truthy entry) as Heff. fold t in Heff.
  unfold for_rounds_index_entry, last_10_index_entry, party_totals_index_entry.
  fold (effective_at_of entry). simpl. rewrite Hround, Heff. simpl.
  rewrite Z.eqb_refl. simpl.
  destruct (truthy t); repeat split.
Qed.

Lemma effective_at_priority_everywhere_witness :
  let t := first_truthy (synonym_values empty_first_synonym_entry) in
  find_effective_at 7 [empty_first_synonym_entry] = (if truthy t then t else JNull)
  /\ for_rounds_index_entry ∅ empty_first_synonym_entry
     = Ret (if truthy t then <[Some (inl 7) := t]> ∅ else ∅)
  /\ last_10_index_entry ∅ empty_first_synonym_entry
     = Ret (if truthy t then <[Some (inl 7) := t]> ∅ else ∅)
  /\ party_totals_index_entry ∅ empty_first_synonym_entry
     = Ret (if truthy t then <[Some (inl 7) := t]> ∅ else ∅).
Proof.
  exact (effective_at_priority_everywhere empty_first_synonym_entry 7 ∅ eq_refl).
Defined.

(** ** The activity exporter: records without a date, empty feeds *)

Lemma date_before_falsy (activity_date : json) (after_timestamp : string) :
  truthy activity_date = false ->
  date_before activity_date after_timestamp = Ret false.
Proof. intros H. unfold date_before. rewrite H. reflexivity. Qed.

(** The first pass counts the two lists of a record as [transfer_list_len]
    measures them. *)
Lemma count_transfer_maxima (st st' : scan_state) (activity : dict) :
  count_transfer st activity = Ret st' ->
  max_receivers st' = Nat.max (max_receivers st) (transfer_list_len "receivers" activity)
  /\ max_balance_changes st'
     = Nat.max (max_balance_changes st) (transfer_list_len "balance_changes" activity)
  /\ all_flattened st' = all_flattened st
  /\ total_scanned st' = total_scanned st.
Proof.
  unfold count_transfer, transfer_list_len.
  destruct (truthy (py_get activity "transfer")) eqn:Ht.
  - destruct (py_get activity "transfer") as [| | | | |t]; try discriminate.
    simpl.
    destruct (py_get_default t "receivers" (JList [])) as [| | |s1|l1|d1];
      try discriminate;
      destruct (py_get_default t "balance_changes" (JList [])) as [| | |s2|l2|d2];
      try discriminate; simpl; intros [= <-]; simpl; auto.
  - intros [= <-].
    destruct (py_get activity "transfer") as [| | | | |t]; try (repeat split; lia).
    destruct t; [|discriminate]. simpl. repeat split; lia.
Qed.

Section ExporterFacts.

Variable json_dumps : json -> string.

(** C8: when the first page of the feed holds no record, the export ends
    without an error after that one request and writes a file that has a
    header line without columns and no data row. *)
Theorem empty_feed_writes_header_only
    (fuel : nat) (gw : Gateway) (after_timestamp : string) (page_size : Z) :
  py_get_default (list_activity gw page_size (JStr "")) "activities" (JList [])
  = JList [] ->
  export_activities_after json_dumps (S fuel) gw after_timestamp page_size
  = (Ret {| header := Some []; rows := [] |},
     [CallListActivity page_size (JStr "")]).
Proof.
  intros Hempty.
  unfold export_activities_after. cbn [scan_batches].
  unfold call_list_activity, bind. cbv beta. rewrite Hempty. reflexivity.
Qed.

End ExporterFacts.

Lemma empty_feed_writes_header_only_witness :
  export_activities_after sample_json_dumps 1 empty_feed_gateway
                          "2024-01-01T00:00:00Z" 1000
  = (Ret {| header := Some []; rows := [] |}, [CallListActivity 1000 (JStr "")]).
Proof.
  exact (empty_feed_writes_header_only sample_json_dumps 0 empty_feed_gateway
           "2024-01-01T00:00:00Z" 1000 eq_refl).
Defined.

(** ** The range series builder *)

Lemma range_len_stride (a b step : Z) :
  1 <= step ->
  range_len a (b + 1) step = (if a <=? b then 1 + (b - a) / step else 0).
Proof.
  intros Hstep. unfold range_len.
  replace (0 <? step) with true by (symmetry; apply Z.ltb_lt; lia).
  replace (step <? 0) with false by (symmetry; apply Z.ltb_ge; lia).
  simpl. destruct (a <=? b) eqn:E.
  - apply Z.leb_le in E.
    replace (a <? b + 1) with true by (symmetry; apply Z.ltb_lt; lia).
    f_equal. f_equal. lia.
  - apply Z.leb_gt in E.
    replace (a <? b + 1) with false by (symmetry; apply Z.ltb_ge; lia).
    reflexivity.
Qed.

(** The rounds of the stride are those of [[a, b]] at a multiple of [step]
    from [a]: [b] itself only when [b - a] is such a multiple. *)
Lemma elem_of_stride_rounds (a b step r : Z) :
  1 <= step ->
  r ∈ stride_rounds a b step <-> a <= r <= b /\ (r - a) `mod` step = 0.
Proof.
  intros Hstep. unfold stride_rounds. rewrite range_len_stride by exact Hstep.
  rewrite list_elem_of_fmap. split.
  - intros (i & -> & Hi). apply elem_of_seqZ in Hi.
    destruct (a <=? b) eqn:E; [apply Z.leb_le in E|lia].
    assert (i <= (b - a) / step) as Hle by lia.
    assert (i * step <= b - a).
    { apply Z.le_trans with ((b - a) / step * step); [nia|].
      rewrite Z.mul_comm. apply Z.mul_div_le. lia. }
    split; [nia|].
    replace (a + i * step - a) with (i * step) by lia.
    apply Z_mod_mult.
  - intros (Hr & Hmod).
    exists ((r - a) / step).
    assert (Hexact : r - a = step * ((r - a) / step)).
    { apply Z_div_exact_full_2; lia. }
    split; [lia|].
    apply elem_of_seqZ.
    destruct (a <=? b) eqn:E; [apply Z.leb_le in E|apply Z.leb_gt in E; lia].
    split; [apply Z.div_pos; lia|].
    assert ((r - a) / step <= (b - a) / step) by (apply Z.div_le_mono; lia).
    lia.
Qed.

Lemma NoDup_stride_rounds (a b step : Z) :
  1 <= step -> NoDup (stride_rounds a b step).
Proof.
  intros Hstep. unfold stride_rounds.
  apply NoDup_fmap_2; [|apply NoDup_seqZ].
  intros i j Hij. nia.
Qed.

Lemma py_range_stride (a b step : Z) :
  1 <= step -> py_range a (b + 1) step = Ret (stride_rounds a b step).
Proof.
  intros Hstep. unfold py_range.
  replace (step =? 0) with false by (symmetry; apply Z.eqb_neq; lia).
  reflexivity.
Qed.

Lemma for_each_fetch_sample (gw : Gateway) (party_id : string)
    (m : gmap pykey json) (rounds : list Z) (results : list BalanceSample) :
  for_each (fetch_sample gw party_id m) rounds results
  = (Ret (results ++ (sample_of gw party_id m <$> rounds)),
     (fun r => CallWalletBalance party_id (JNum r)) <$> rounds).
Proof.
  revert results. induction rounds as [|r rounds IH]; intros results.
  - simpl. rewrite app_nil_r. reflexivity.
  - cbn [for_each]. unfold fetch_sample at 1, call_wallet_balance, bind, ret.
    cbv beta. rewrite IH. simpl. rewrite <- app_assoc. reflexivity.
Qed.

Lemma for_rounds_index_entry_hashable (m : gmap pykey json) (entry : dict) :
  hashable (py_get entry "closed_round") = true ->
  exists m', for_rounds_index_entry m entry = Ret m'.
Proof.
  intros Hh. unfold for_rounds_index_entry, index_set.
  destruct (py_get entry "closed_round"); try discriminate; simpl;
    try destruct (truthy _); eauto.
Qed.

Lemma for_each_index_entries (entries : list dict) (m : gmap pykey json) :
  Forall (fun entry => hashable (py_get entry "closed_round") = true) entries ->
  exists m',
    for_each (fun m entry => lift (for_rounds_index_entry m entry)) entries m
    = (Ret m', []).
Proof.
  intros Hall. revert m. induction Hall as [|entry entries Hh _ IH]; intros m.
  - exists m. reflexivity.
  - destruct (for_rounds_index_entry_hashable m entry Hh) as (m1 & Hm1).
    destruct (IH m1) as (m' & Hm').
    exists m'. cbn [for_each]. rewrite Hm1.
    change (lift (Ret m1)) with (Ret m1, @nil call).
    unfold bind. rewrite Hm'. reflexivity.
Qed.

Lemma for_each_prefetch_batches (gw : Gateway) (last_round : Z)
    (batches : list Z) (m : gmap pykey json) :
  hashable_round_totals gw ->
  exists m',
    for_each (for_rounds_prefetch_batch gw last_round) batches m
    = (Ret m',
       (fun batch_start =>
          CallRoundTotals batch_start (Z.min (batch_start + batch_size - 1) last_round))
         <$> batches).
Proof.
  intros Hgw. revert m. induction batches as [|bs batches IH]; intros m.
  - exists m. reflexivity.
  - destruct (for_each_index_entries
                (list_round_totals gw bs (Z.min (bs + batch_size - 1) last_round)) m)
      as (m1 & Hm1).
    { apply Forall_forall. intros entry Hin. eapply Hgw. exact Hin. }
    destruct (IH m1) as (m' & Hm').
    exists m'. cbn [for_each].
    unfold for_rounds_prefetch_batch at 1, call_round_totals, bind. cbv beta.
    rewrite Hm1, Hm'. reflexivity.
Qed.

Lemma fmap_round_sample_of (gw : Gateway) (party_id : string)
    (m : gmap pykey json) (rounds : list Z) :
  round <$> (sample_of gw party_id m <$> rounds) = rounds.
Proof.
  induction rounds as [|r rs IH]; [reflexivity|].
  cbn [fmap list_fmap]. simpl. f_equal. exact IH.
Qed.

Lemma balance_requests_prefetch (last_round : Z) (batches : list Z) :
  balance_requests
    ((fun batch_start =>
        CallRoundTotals batch_start (Z.min (batch_start + batch_size - 1) last_round))
       <$> batches) = [].
Proof. induction batches as [|x xs IH]; [reflexivity|exact IH]. Qed.

Lemma balance_requests_fetch (gw : Gateway) (party_id : string)
    (m : gmap pykey json) (rounds : list Z) :
  balance_requests ((fun r => CallWalletBalance party_id (JNum r)) <$> rounds)
  = (fun s => (party_id, JNum (round s))) <$> (sample_of gw party_id m <$> rounds).
Proof.
  induction rounds as [|r rs IH]; [reflexivity|].
  cbn [fmap list_fmap]. simpl. f_equal. exact IH.
Qed.

(** C6: for a stride [step >= 1] over [[a, b]], on a Gateway whose
    round_totals entries carry hashable round numbers, the builder returns
    exactly one sample per round of [a, a+step, a+2*step, ...] up to [b], in
    this order ([b] itself exactly when [b - a] is a multiple of [step]);
    each sample carries the balance the Gateway reports for its round, and
    one balance request is issued per sample. *)
Theorem get_wallet_balances_for_rounds_stride
    (gw : Gateway) (party_id : string) (a b step : Z) :
  1 <= step ->
  hashable_round_totals gw ->
  exists samples,
    result (get_wallet_balances_for_rounds gw party_id a b step) = Ret samples
    /\ round <$> samples = stride_rounds a b step
    /\ NoDup (round <$> samples)
    /\ (forall r, r ∈ (round <$> samples)
                  <-> a <= r <= b /\ (r - a) `mod` step = 0)
    /\ (b ∈ (round <$> samples) <-> a <= b /\ (b - a) `mod` step = 0)
    /\ Forall (fun s => wallet_balance s
                        = py_get (get_wallet_balance gw party_id (JNum (round s)))
                                 "wallet_balance") samples
    /\ balance_requests (calls (get_wallet_balances_for_rounds gw party_id a b step))
       = (fun s => (party_id, JNum (round s))) <$> samples.
Proof.
  intros Hstep Hgw.
  destruct (for_each_prefetch_batches gw b (stride_rounds a b batch_size) ∅ Hgw)
    as (m & Hm).
  assert (Hrun : get_wallet_balances_for_rounds gw party_id a b step
                 = (Ret (sample_of gw party_id m <$> stride_rounds a b step),
                    ((fun batch_start =>
                        CallRoundTotals batch_start
                          (Z.min (batch_start + batch_size - 1) b))
                       <$> stride_rounds a b batch_size)
                    ++ ((fun r => CallWalletBalance party_id (JNum r))
                          <$> stride_rounds a b step))).
  { unfold get_wallet_balances_for_rounds.
    rewrite (py_range_stride a b batch_size) by (unfold batch_size; lia).
    rewrite (py_range_stride a b step) by exact Hstep.
    unfold lift, bind. cbv beta. rewrite Hm, for_each_fetch_sample.
    simpl. reflexivity. }
  exists (sample_of gw party_id m <$> stride_rounds a b step).
  assert (Hrounds : round <$> (sample_of gw party_id m <$> stride_rounds a b step)
                    = stride_rounds a b step).
  { apply fmap_round_sample_of. }
  rewrite Hrun. unfold result, calls. cbn [fst snd]. rewrite Hrounds.
  split; [reflexivity|]. split; [reflexivity|].
  split; [apply NoDup_stride_rounds; exact Hstep|].
  split; [intros r; apply elem_of_stride_rounds; exact Hstep|].
  split.
  { rewrite elem_of_stride_rounds by exact Hstep. split; intros H; [|split]; lia. }
  split.
  { apply Forall_fmap. apply Forall_forall. intros r _. reflexivity. }
  unfold balance_requests. rewrite omap_app.
  fold (balance_requests
          ((fun batch_start =>
              CallRoundTotals batch_start (Z.min (batch_start + batch_size - 1) b))
             <$> stride_rounds a b batch_size)).
  fold (balance_requests
          ((fun r => CallWalletBalance party_id (JNum r)) <$> stride_rounds a b step)).
  rewrite balance_requests_prefetch, (balance_requests_fetch gw party_id m).
  reflexivity.
Qed.

(** The scenario of C6: step 10 over [50, 60] yields the two samples. *)
Lemma get_wallet_balances_for_rounds_scenario :
  result (get_wallet_balances_for_rounds balances_gateway "alice" 50 60 10)
  = Ret [ {| round := 50; effective_time := JNull; wallet_balance := JStr "100.0" |};
          {| round := 60; effective_time := JNull; wallet_balance := JStr "150.0" |} ].
Proof. reflexivity. Qed.

Lemma get_wallet_balances_for_rounds_stride_witness :
  exists samples,
    result (get_wallet_balances_for_rounds balances_gateway "alice" 50 60 10)
    = Ret samples
    /\ round <$> samples = stride_rounds 50 60 10
    /\ NoDup (round <$> samples)
    /\ (forall r, r ∈ (round <$> samples)
                  <-> 50 <= r <= 60 /\ (r - 50) `mod` 10 = 0)
    /\ (60 ∈ (round <$> samples) <-> 50 <= 60 /\ (60 - 50) `mod` 10 = 0)
    /\ Forall (fun s => wallet_balance s
                        = py_get (get_wallet_balance balances_gateway "alice"
                                    (JNum (round s))) "wallet_balance") samples
    /\ balance_requests
         (calls (get_wallet_balances_for_rounds balances_gateway "alice" 50 60 10))
       = (fun s => ("alice", JNum (round s))) <$> samples.
Proof.
  apply (get_wallet_balances_for_rounds_stride balances_gateway "alice" 50 60 10).
  - lia.
  - intros s e entry Hin. simpl in Hin. inversion Hin.
Defined.

(** ** The activity exporter: what the first pass buffers *)

Lemma elem_of_insert_sorted (k x : string) (l : list string) :
  x ∈ l \/ x = k -> x ∈ insert_sorted k l.
Proof.
  induction l as [|y l IH]; intros Hx.
  - destruct Hx as [Hx | ->]; [inversion Hx|]. simpl. left.
  - simpl. destruct (String.compare k y) eqn:Hcmp.
    + apply String.compare_eq_iff in Hcmp. subst y.
      destruct Hx as [Hx | ->]; [exact Hx|left].
    + destruct Hx as [Hx | ->]; [right; exact Hx|left].
    + destruct Hx as [Hx | ->].
      * apply elem_of_cons in Hx as [-> | Hx]; [left|]. right. apply IH. auto.
      * right. apply IH. auto.
Qed.

Lemma elem_of_sorted_set (x : string) (keys : list string) :
  x ∈ keys -> x ∈ sorted_set keys.
Proof.
  unfold sorted_set. induction keys as [|k keys IH]; intros Hx.
  - inversion Hx.
  - simpl. apply elem_of_insert_sorted.
    apply elem_of_cons in Hx as [-> | Hx]; auto.
Qed.

Lemma writerow_ok (fieldnames : list string) (row : dict) :
  (forall k, k ∈ row.*1 -> k ∈ fieldnames) ->
  writerow fieldnames row = Ret row.
Proof.
  intros Hkeys. unfold writerow.
  replace (forallb _ row) with true; [reflexivity|].
  symmetry. apply forallb_forall. intros [k v] Hin.
  apply existsb_exists. exists k. split.
  - apply list_elem_of_In. apply Hkeys.
    apply list_elem_of_fmap. exists (k, v). split; [reflexivity|].
    apply list_elem_of_In. exact Hin.
  - apply String.eqb_refl.
Qed.

Lemma max_list_len_cons (field : string) (d : dict) (l : list dict) :
  max_list_len field (d :: l)
  = Nat.max (transfer_list_len field d) (max_list_len field l).
Proof. reflexivity. Qed.

Lemma max_list_len_app (field : string) (l1 l2 : list dict) :
  max_list_len field (l1 ++ l2)
  = Nat.max (max_list_len field l1) (max_list_len field l2).
Proof.
  induction l1 as [|d l1 IH]; [reflexivity|].
  rewrite <- app_comm_cons, !max_list_len_cons, IH. apply Nat.max_assoc.
Qed.

Lemma page_summary_refl (after_timestamp : string) (st : scan_state) :
  page_summary after_timestamp st st [].
Proof.
  unfold page_summary. rewrite app_nil_r. simpl. rewrite !Nat.max_0_r.
  repeat split. constructor.
Qed.

Lemma page_summary_trans (after_timestamp : string) (st1 st2 st3 : scan_state)
    (taken1 taken2 : list dict) :
  page_summary after_timestamp st1 st2 taken1 ->
  page_summary after_timestamp st2 st3 taken2 ->
  page_summary after_timestamp st1 st3 (taken1 ++ taken2).
Proof.
  intros (Ha1 & Hr1 & Hb1 & Hf1) (Ha2 & Hr2 & Hb2 & Hf2).
  unfold page_summary.
  rewrite Ha2, Ha1, Hr2, Hr1, Hb2, Hb1, !max_list_len_app, !Nat.max_assoc, app_assoc.
  repeat split. apply Forall_app. auto.
Qed.

Lemma scan_activity_cases (after_timestamp : string) (st st' : scan_state)
    (x : json) (stopped : bool) :
  scan_activity after_timestamp st x = Ret (stopped, st') ->
  exists d, x = JDict d
    /\ ((stopped = true /\ st' = st
         /\ date_before (py_get d "date") after_timestamp = Ret true)
        \/ (stopped = false /\ page_summary after_timestamp st st' [d])).
Proof.
  unfold scan_activity. destruct x as [| | | | |d]; try discriminate. simpl.
  intros H. exists d. split; [reflexivity|].
  destruct (date_before (py_get d "date") after_timestamp) as [[|]| |] eqn:Hdate;
    try discriminate.
  - simpl in H. injection H as <- <-. left. auto.
  - simpl in H. destruct (count_transfer st d) as [st1| |] eqn:Hcount; try discriminate.
    simpl in H. injection H as <- <-. right. split; [reflexivity|].
    destruct (count_transfer_maxima st st1 d Hcount) as (H1 & H2 & H3 & _).
    unfold page_summary, buffer_activity.
    cbn [max_receivers max_balance_changes all_flattened].
    rewrite !max_list_len_cons.
    change (max_list_len "receivers" []) with 0%nat.
    change (max_list_len "balance_changes" []) with 0%nat.
    rewrite H1, H2, H3, !Nat.max_0_r.
    repeat split. constructor; [exact Hdate|constructor].
Qed.

(** One page: the records before the first one dated before the cutoff
    are buffered and counted, and nothing else is. *)
Lemma scan_page_spec (after_timestamp : string) (l : list json) :
  forall (st st' : scan_state) (stopped : bool),
    scan_page after_timestamp st l = Ret (stopped, st') ->
    exists taken rest,
      l = (JDict <$> taken) ++ rest
      /\ page_summary after_timestamp st st' taken
      /\ (if stopped then stopped_at after_timestamp rest else rest = []).
Proof.
  induction l as [|x l IH]; intros st st' stopped H.
  - simpl in H. injection H as <- <-. exists [], []. split; [reflexivity|].
    split; [apply page_summary_refl|reflexivity].
  - cbn [scan_page] in H.
    destruct (scan_activity after_timestamp st x) as [[b st1]| |] eqn:Hx;
      try discriminate.
    destruct (scan_activity_cases _ _ _ _ _ Hx) as (d & -> & Hcase).
    simpl in H. destruct Hcase as [(-> & -> & Hold) | (-> & Hsum)].
    + injection H as <- <-. exists [], (JDict d :: l). split; [reflexivity|].
      split; [apply page_summary_refl|]. exists d, l. auto.
    + destruct (IH _ _ _ H) as (taken & rest & -> & Hsum' & Hrest).
      exists (d :: taken), rest. split; [reflexivity|]. split; [|exact Hrest].
      exact (page_summary_trans _ _ _ _ [d] taken Hsum Hsum').
Qed.

(** Conversely, a page whose first record dated before the cutoff follows
    records that scan without stopping stops there, whatever comes after. *)
Lemma scan_page_stops (after_timestamp : string) (pre post : list json)
    (old : dict) :
  date_before (py_get old "date") after_timestamp = Ret true ->
  forall st st1,
    scan_page after_timestamp st pre = Ret (false, st1) ->
    scan_page after_timestamp st (pre ++ JDict old :: post) = Ret (true, st1).
Proof.
  intros Hold. induction pre as [|x pre IH]; intros st st1 H.
  - simpl in H. injection H as <-. cbn [app scan_page]. unfold scan_activity.
    simpl. rewrite Hold. reflexivity.
  - cbn [app scan_page] in H |- *.
    destruct (scan_activity after_timestamp st x) as [[b st2]| |]; try discriminate.
    simpl in H |- *. destruct b; [discriminate|]. apply IH. exact H.
Qed.

(** ** The activity exporter: the whole first pass *)

Lemma scanned_feed_cons (gw : Gateway) (c : call) (log : list call) :
  scanned_feed gw (c :: log) = page_records gw c ++ scanned_feed gw log.
Proof. reflexivity. Qed.

Lemma page_records_falsy (gw : Gateway) (page_size : Z) (cursor : json) :
  truthy (py_get_default (list_activity gw page_size cursor) "activities" (JList []))
  = false ->
  page_records gw (CallListActivity page_size cursor) = [].
Proof.
  unfold page_records.
  destruct (py_get_default _ _ _) as [| | | |l|]; try reflexivity.
  destruct l; [reflexivity|discriminate].
Qed.

(** The first pass buffers and counts exactly the records of the pages it
    requested that come before the first record dated before the cutoff. *)
Lemma scan_batches_spec (gw : Gateway) (after_timestamp : string) (page_size : Z)
    (fuel : nat) :
  forall (cursor : json) (st st' : scan_state) (log : list call),
    scan_batches fuel gw after_timestamp page_size cursor st = (Ret st', log) ->
    exists taken rest,
      scanned_feed gw log = (JDict <$> taken) ++ rest
      /\ page_summary after_timestamp st st' taken
      /\ (rest = [] \/ stopped_at after_timestamp rest).
Proof.
  induction fuel as [|fuel IH]; intros cursor st st' log H; [discriminate H|].
  cbn [scan_batches] in H. unfold call_list_activity, bind in H. cbv beta in H.
  pose proof (page_records_falsy gw page_size cursor) as Hfalsy.
  assert (Hrec : forall l,
             py_get_default (list_activity gw page_size cursor) "activities" (JList [])
             = JList l ->
             page_records gw (CallListActivity page_size cursor) = l).
  { intros l Hl. unfold page_records. rewrite Hl. reflexivity. }
  destruct (py_get_default (list_activity gw page_size cursor) "activities" (JList []))
    as [| | | |l|d] eqn:Hact.
  all: try (destruct (truthy _) eqn:Ht in H; cbn in H; [discriminate H|];
            injection H as <- <-; exists [], []; rewrite scanned_feed_cons;
            rewrite Hfalsy by first [exact Ht | reflexivity];
            split; [reflexivity|]; split; [apply page_summary_refl|left; reflexivity]).
  destruct (truthy (JList l)) eqn:Ht; cbn [negb] in H.
  - unfold lift, bind, ret in H. cbv beta in H.
    destruct (scan_page after_timestamp st l) as [[stopped st1]| |] eqn:Hpage;
      try discriminate H.
    destruct (scan_page_spec _ _ _ _ _ Hpage) as (taken & rest & Hl & Hsum & Hrest).
    cbn [fst snd] in H.
    destruct stopped.
    + injection H as <- <-. exists taken, rest.
      rewrite scanned_feed_cons, (Hrec l eq_refl). simpl. rewrite app_nil_r.
      split; [exact Hl|]. split; [exact Hsum|right; exact Hrest].
    + subst rest. rewrite app_nil_r in Hl.
      assert (Hdone : exists taken rest,
                  scanned_feed gw [CallListActivity page_size cursor]
                  = (JDict <$> taken) ++ rest
                  /\ page_summary after_timestamp st st1 taken
                  /\ (rest = [] \/ stopped_at after_timestamp rest)).
      { exists taken, [].
        rewrite scanned_feed_cons, (Hrec l eq_refl). simpl. rewrite !app_nil_r.
        split; [exact Hl|]. split; [exact Hsum|left; reflexivity]. }
      destruct (as_dict (List.last l JNull)) as [last_activity| |]; try discriminate H.
      destruct (truthy (py_get last_activity "event_id")); cbn [negb] in H.
      * destruct (date_before (py_get last_activity "date") after_timestamp)
          as [[|]| |]; try discriminate H.
        -- injection H as <- <-. exact Hdone.
        -- destruct (scan_batches fuel gw after_timestamp page_size
                       (py_get last_activity "event_id") st1) as [r log2] eqn:Hnext.
           cbn in H. injection H as -> <-.
           destruct (IH _ _ _ _ Hnext) as (taken2 & rest2 & Hfeed2 & Hsum2 & Hrest2).
           exists (taken ++ taken2), rest2.
           rewrite scanned_feed_cons, (Hrec l eq_refl), Hfeed2, Hl.
           rewrite fmap_app, <- app_assoc.
           split; [reflexivity|]. split; [|exact Hrest2].
           exact (page_summary_trans _ _ _ _ _ _ Hsum Hsum2).
      * injection H as <- <-. exact Hdone.
  - cbn in H. injection H as <- <-. exists [], []. rewrite scanned_feed_cons.
    rewrite Hfalsy by reflexivity.
    split; [reflexivity|]. split; [apply page_summary_refl|left; reflexivity].
Qed.

(** The first pass also counts a record dated exactly at the cutoff. *)
Lemma first_pass_counts_record_at_cutoff :
  scan_batches 2 boundary_gateway "2024-01-01T00:00:00Z" 1000 (JStr "") scan_init
  = (Ret {| max_receivers := 1; max_balance_changes := 0;
            all_flattened := [boundary_activity]; total_scanned := 1 |},
     [CallListActivity 1000 (JStr ""); CallListActivity 1000 (JStr "e1")]).
Proof. reflexivity. Qed.


(** The first pass from its initial state. *)
Lemma first_pass_summary
    (fuel : nat) (gw : Gateway) (after_timestamp : string) (page_size : Z)
    (st : scan_state) (log : list call) :
  scan_batches fuel gw after_timestamp page_size (JStr "") scan_init = (Ret st, log) ->
  max_receivers st = max_list_len "receivers" (all_flattened st)
  /\ max_balance_changes st = max_list_len "balance_changes" (all_flattened st)
  /\ Forall (not_before after_timestamp) (all_flattened st)
  /\ exists rest,
       scanned_feed gw log = (JDict <$> all_flattened st) ++ rest
       /\ (rest = [] \/ stopped_at after_timestamp rest).
Proof.
  intros Hscan.
  destruct (scan_batches_spec _ _ _ _ _ _ _ _ Hscan)
    as (taken & rest & Hfeed & (Hall & Hr & Hb & Hkept) & Hrest).
  simpl in Hall, Hr, Hb. subst taken.
  repeat split; try assumption. exists rest. auto.
Qed.


(** *** The first pass follows the feed *)












(** ** The activity exporter: the second pass and the cutoff *)

Section ExportFacts.

Variable json_dumps : json -> string.

Local Abbreviation file_of := (file_of json_dumps).

Lemma write_rows_all (after_timestamp : string) (fieldnames : list string)
    (st : scan_state) (activities : list dict) :
  Forall (not_before after_timestamp) activities ->
  (forall a k, a ∈ activities ->
               k ∈ (flatten json_dumps a (max_receivers st) (max_balance_changes st)).*1 ->
               k ∈ fieldnames) ->
  write_rows json_dumps after_timestamp fieldnames st activities
  = Ret ((fun a => flatten json_dumps a (max_receivers st) (max_balance_changes st))
           <$> activities).
Proof.
  intros Hkept. induction Hkept as [|a activities Ha _ IH]; intros Hkeys.
  - reflexivity.
  - cbn [write_rows]. unfold not_before in Ha. rewrite Ha. simpl.
    rewrite writerow_ok by (intros k Hk; eapply Hkeys; [left|exact Hk]).
    simpl. rewrite IH by (intros a' k Ha' Hk; eapply Hkeys; [right; exact Ha'|exact Hk]).
    reflexivity.
Qed.

Lemma export_of_scan (fuel : nat) (gw : Gateway) (after_timestamp : string)
    (page_size : Z) (st : scan_state) (log : list call) :
  scan_batches fuel gw after_timestamp page_size (JStr "") scan_init = (Ret st, log) ->
  export_activities_after json_dumps fuel gw after_timestamp page_size
  = (Ret (file_of st), log).
Proof.
  intros Hscan.
  destruct (first_pass_summary _ _ _ _ _ _ Hscan) as (_ & _ & Hkept & _).
  unfold export_activities_after, bind. rewrite Hscan.
  rewrite (write_rows_all after_timestamp _ st (all_flattened st) Hkept).
  - unfold lift, ret, file_of. rewrite !app_nil_r. reflexivity.
  - intros a k Ha Hk. unfold get_all_fieldnames. apply elem_of_sorted_set.
    apply list_elem_of_In, in_concat.
    exists ((flatten json_dumps a (max_receivers st) (max_balance_changes st)).*1).
    split; [|apply list_elem_of_In; exact Hk].
    apply in_map_iff. exists a. split; [reflexivity|].
    apply list_elem_of_In. exact Ha.
Qed.

(** A completed export, over any number of pages: its rows are those of
    the records of the requested pages that precede the first record dated
    before the cutoff, one row each, in feed order. *)
Lemma export_rows_are_kept_prefix (fuel : nat) (gw : Gateway)
    (after_timestamp : string) (page_size : Z) (f : csv_file) (log : list call) :
  export_activities_after json_dumps fuel gw after_timestamp page_size = (Ret f, log) ->
  exists st rest,
    f = file_of st
    /\ scanned_feed gw log = (JDict <$> all_flattened st) ++ rest
    /\ Forall (not_before after_timestamp) (all_flattened st)
    /\ (rest = [] \/ stopped_at after_timestamp rest).
Proof.
  intros Hexport.
  destruct (scan_batches fuel gw after_timestamp page_size (JStr "") scan_init)
    as [[st| |] log1] eqn:Hscan;
    try (unfold export_activities_after, bind in Hexport; rewrite Hscan in Hexport;
         discriminate Hexport).
  rewrite (export_of_scan _ _ _ _ _ _ Hscan) in Hexport.
  injection Hexport as <- <-.
  destruct (first_pass_summary _ _ _ _ _ _ Hscan) as (_ & _ & Hkept & rest & Hfeed & Hrest).
  exists st, rest. auto.
Qed.

(** C2: when a record of a page is dated before the cutoff and the records
    before it scan without stopping, the first pass ends right there
    without a further request: neither that record nor any record after it
    enters the buffer, whatever they are; on the first page of an export the
    file then holds one row per record before it and nothing else. *)
Theorem scan_stops_at_cutoff
    (fuel : nat) (gw : Gateway) (after_timestamp : string) (page_size : Z)
    (cursor : json) (st st1 : scan_state) (pre post : list json) (old : dict) :
  py_get_default (list_activity gw page_size cursor) "activities" (JList [])
  = JList (pre ++ JDict old :: post) ->
  scan_page after_timestamp st pre = Ret (false, st1) ->
  date_before (py_get old "date") after_timestamp = Ret true ->
  scan_batches (S fuel) gw after_timestamp page_size cursor st
  = (Ret st1, [CallListActivity page_size cursor])
  /\ (exists taken, pre = JDict <$> taken
                    /\ all_flattened st1 = all_flattened st ++ taken)
  /\ (cursor = JStr "" -> st = scan_init ->
      export_activities_after json_dumps (S fuel) gw after_timestamp page_size
      = (Ret (file_of st1), [CallListActivity page_size (JStr "")])
      /\ JDict <$> all_flattened st1 = pre
      /\ length (rows (file_of st1)) = length pre).
Proof.
  intros Hpage Hpre Hold.
  assert (Hscan : scan_batches (S fuel) gw after_timestamp page_size cursor st
                  = (Ret st1, [CallListActivity page_size cursor])).
  { cbn [scan_batches]. unfold call_list_activity, bind. cbv beta.
    rewrite Hpage.
    replace (truthy (JList (pre ++ JDict old :: post))) with true
      by (destruct pre; reflexivity).
    cbn [negb]. rewrite (scan_page_stops _ _ _ _ Hold _ _ Hpre). reflexivity. }
  destruct (scan_page_spec _ _ _ _ _ Hpre) as (taken & rest & Hl & (Hall & _) & ->).
  rewrite app_nil_r in Hl.
  split; [exact Hscan|]. split; [exists taken; auto|].
  intros -> ->. simpl in Hall.
  split; [apply export_of_scan; exact Hscan|].
  split; [rewrite Hall; symmetry; exact Hl|].
  unfold file_of. cbn [rows]. rewrite length_fmap, Hall, Hl, length_fmap. reflexivity.
Qed.

End ExportFacts.

(** The scenario of C2: exactly one row, that of record 0, is written, after
    one request, whatever the third record is: it is never examined. *)
Lemma export_activities_after_scenario (third : json) :
  export_activities_after sample_json_dumps 1 (three_record_gateway third)
                          "2024-01-01T00:00:00Z" 1000
  = (Ret {| header := Some ["date"; "event_id"]; rows := [newer_activity] |},
     [CallListActivity 1000 (JStr "")]).
Proof. reflexivity. Qed.

Lemma scan_stops_at_cutoff_witness :
  scan_batches 1 (three_record_gateway JNull) "2024-01-01T00:00:00Z" 1000
               (JStr "") scan_init
  = (Ret (buffer_activity scan_init newer_activity),
     [CallListActivity 1000 (JStr "")])
  /\ (exists taken, [JDict newer_activity] = JDict <$> taken
                    /\ all_flattened (buffer_activity scan_init newer_activity)
                       = all_flattened scan_init ++ taken)
  /\ (JStr "" = JStr "" -> scan_init = scan_init ->
      export_activities_after sample_json_dumps 1 (three_record_gateway JNull)
                              "2024-01-01T00:00:00Z" 1000
      = (Ret (file_of sample_json_dumps (buffer_activity scan_init newer_activity)),
         [CallListActivity 1000 (JStr "")])
      /\ JDict <$> all_flattened (buffer_activity scan_init newer_activity)
         = [JDict newer_activity]
      /\ length (rows (file_of sample_json_dumps
                         (buffer_activity scan_init newer_activity)))
         = length [JDict newer_activity]).
Proof.
  exact (scan_stops_at_cutoff sample_json_dumps 0 (three_record_gateway JNull)
           "2024-01-01T00:00:00Z" 1000 (JStr "") scan_init
           (buffer_activity scan_init newer_activity)
           [JDict newer_activity] [JNull] older_activity
           eq_refl eq_refl eq_refl).
Defined.

(** ** The activity exporter: records without a date *)

Lemma scan_page_app (after_timestamp : string) (pre l : list json) :
  forall st st1,
    scan_page after_timestamp st pre = Ret (false, st1) ->
    scan_page after_timestamp st (pre ++ l) = scan_page after_timestamp st1 l.
Proof.
  induction pre as [|x pre IH]; intros st st1 H.
  - simpl in H. injection H as <-. reflexivity.
  - cbn [app scan_page] in H |- *.
    destruct (scan_activity after_timestamp st x) as [[b st2]| |]; try discriminate.
    simpl in H |- *. destruct b; [discriminate|]. apply IH. exact H.
Qed.

Lemma scan_page_keeps (after_timestamp : string) (activity : dict)
    (pre post : list json) (st st1 st2 : scan_state) :
  date_before (py_get activity "date") after_timestamp = Ret false ->
  scan_page after_timestamp st pre = Ret (false, st1) ->
  count_transfer st1 activity = Ret st2 ->
  scan_page after_timestamp st (pre ++ JDict activity :: post)
  = scan_page after_timestamp (buffer_activity st2 activity) post.
Proof.
  intros Hkeep Hpre Hcount. rewrite (scan_page_app _ _ _ _ _ Hpre).
  cbn [scan_page]. unfold scan_activity. simpl. rewrite Hkeep. simpl.
  rewrite Hcount. reflexivity.
Qed.

Lemma scan_batches_first_call (fuel : nat) (gw : Gateway) (after_timestamp : string)
    (page_size : Z) (cursor : json) (st : scan_state) :
  exists r log,
    scan_batches (S fuel) gw after_timestamp page_size cursor st
    = (r, CallListActivity page_size cursor :: log).
Proof.
  cbn [scan_batches]. unfold call_list_activity, bind at 1. cbv beta.
  match goal with
  | |- exists _ _, (let (_, _) := ?m in _) = _ => destruct m as [outcome rest]
  end.
  exists outcome, rest. reflexivity.
Qed.

(** After a page that ends, without a stop, in a kept record that has an
    [event_id], the first pass asks for the next page with it. *)
Lemma scan_batches_next_page (fuel : nat) (gw : Gateway) (after_timestamp : string)
    (page_size : Z) (cursor : json) (activity : dict) (pre : list json)
    (st st1 st2 : scan_state) :
  date_before (py_get activity "date") after_timestamp = Ret false ->
  activities_at gw page_size cursor = JList (pre ++ [JDict activity]) ->
  scan_page after_timestamp st pre = Ret (false, st1) ->
  count_transfer st1 activity = Ret st2 ->
  truthy (py_get activity "event_id") = true ->
  scan_batches (S fuel) gw after_timestamp page_size cursor st
  = (let '(r, log) :=
       scan_batches fuel gw after_timestamp page_size (py_get activity "event_id")
                    (buffer_activity st2 activity) in
     (r, CallListActivity page_size cursor :: log)).
Proof.
  intros Hkeep Hpage Hpre Hcount Hid.
  cbn [scan_batches]. unfold call_list_activity, bind at 1. cbv beta.
  fold (activities_at gw page_size cursor). rewrite Hpage.
  replace (truthy (JList (pre ++ [JDict activity]))) with true
    by (destruct pre; reflexivity).
  cbn [negb].
  rewrite (scan_page_keeps _ _ _ [] _ _ _ Hkeep Hpre Hcount).
  cbn [scan_page]. unfold lift, bind at 1. cbn [fst snd].
  rewrite last_last. cbn [as_dict]. unfold bind at 1.
  rewrite Hid. cbn [negb]. rewrite Hkeep. unfold bind at 1.
  destruct (scan_batches fuel gw after_timestamp page_size
              (py_get activity "event_id") (buffer_activity st2 activity))
    as [r log].
  reflexivity.
Qed.

(** Where a record that is kept sits among the records read: the records
    before it are the buffered records before it. *)
Lemma kept_record_position (after_timestamp : string) (activity : dict)
    (pre post rest : list json) :
  date_before (py_get activity "date") after_timestamp = Ret false ->
  forall kept,
    (JDict <$> kept) ++ rest = pre ++ JDict activity :: post ->
    rest = [] \/ stopped_at after_timestamp rest ->
    Forall (fun x => forall d, x = JDict d ->
                     date_before (py_get d "date") after_timestamp <> Ret true) pre ->
    exists kept_pre kept_post,
      kept = kept_pre ++ activity :: kept_post
      /\ pre = JDict <$> kept_pre
      /\ post = (JDict <$> kept_post) ++ rest.
Proof.
  intros Hkeep. induction pre as [|x pre IH]; intros kept Heq Hrest Hpre.
  - destruct kept as [|k kept].
    + cbn [fmap list_fmap app] in Heq.
      destruct Hrest as [-> | (d & rest' & -> & Hold)]; [discriminate|].
      injection Heq as -> _. congruence.
    + cbn [fmap list_fmap app] in Heq. injection Heq as -> Heq.
      exists [], kept. auto.
  - apply Forall_cons in Hpre as [Hx Hpre].
    destruct kept as [|k kept].
    + cbn [fmap list_fmap app] in Heq.
      destruct Hrest as [-> | (d & rest' & -> & Hold)]; [discriminate|].
      injection Heq as <- _. exfalso. exact (Hx d eq_refl Hold).
    + cbn [fmap list_fmap app] in Heq. injection Heq as <- Heq.
      destruct (IH kept Heq Hrest Hpre) as (kp & kpost & -> & -> & ->).
      exists (k :: kp), kpost. auto.
Qed.

Lemma transfer_list_len_le_max (field : string) (activity : dict)
    (before after : list dict) :
  (transfer_list_len field activity
   <= max_list_len field (before ++ activity :: after))%nat.
Proof. rewrite max_list_len_app, max_list_len_cons. lia. Qed.

Section DatelessFacts.

Variable json_dumps : json -> string.

(** C10: a record whose [date] is missing, [None] or empty never triggers
    the cutoff test, whatever the cutoff.  In the first pass, wherever it
    stands on a page whose earlier records were scanned without a stop, it
    is appended to the buffer, its transfer lists are counted, and the scan
    goes on with the records after it; when it is the last record of its
    page and has an [event_id], the next page is requested with that
    [event_id].  In a completed export in which no record read before it is
    dated before the cutoff, it is in the buffer at its place in the feed,
    the file holds its row at that place, the two maxima are at least the
    lengths of its two lists, and the records after it are buffered up to
    the first one dated before the cutoff. *)
Theorem dateless_record_is_kept (activity : dict) :
  py_get activity "date" = JNull \/ py_get activity "date" = JStr "" ->
  forall after_timestamp : string,
    date_before (py_get activity "date") after_timestamp = Ret false
    /\ (forall st st1 st2 pre post,
          scan_page after_timestamp st pre = Ret (false, st1) ->
          count_transfer st1 activity = Ret st2 ->
          exists st3,
            scan_page after_timestamp st (pre ++ JDict activity :: post)
            = scan_page after_timestamp st3 post
            /\ all_flattened st3 = all_flattened st1 ++ [activity]
            /\ max_receivers st3
               = Nat.max (max_receivers st1) (transfer_list_len "receivers" activity)
            /\ max_balance_changes st3
               = Nat.max (max_balance_changes st1)
                         (transfer_list_len "balance_changes" activity))
    /\ (forall fuel gw page_size cursor st st1 st2 pre,
          activities_at gw page_size cursor = JList (pre ++ [JDict activity]) ->
          scan_page after_timestamp st pre = Ret (false, st1) ->
          count_transfer st1 activity = Ret st2 ->
          truthy (py_get activity "event_id") = true ->
          exists st3 r log,
            all_flattened st3 = all_flattened st1 ++ [activity]
            /\ scan_batches (S fuel) gw after_timestamp page_size
                            (py_get activity "event_id") st3
               = (r, CallListActivity page_size (py_get activity "event_id") :: log)
            /\ scan_batches (S (S fuel)) gw after_timestamp page_size cursor st
               = (r, CallListActivity page_size cursor
                       :: CallListActivity page_size (py_get activity "event_id")
                       :: log))
    /\ (forall fuel gw page_size f log pre post,
          export_activities_after json_dumps fuel gw after_timestamp page_size
          = (Ret f, log) ->
          scanned_feed gw log = pre ++ JDict activity :: post ->
          Forall (fun x => forall d, x = JDict d ->
                           date_before (py_get d "date") after_timestamp <> Ret true)
                 pre ->
          exists st kept_pre kept_post rest,
            pre = JDict <$> kept_pre
            /\ post = (JDict <$> kept_post) ++ rest
            /\ (rest = [] \/ stopped_at after_timestamp rest)
            /\ all_flattened st = kept_pre ++ activity :: kept_post
            /\ header f = Some (get_all_fieldnames json_dumps st)
            /\ rows f
               = ((fun a => flatten json_dumps a (max_receivers st)
                                    (max_balance_changes st)) <$> kept_pre)
                 ++ flatten json_dumps activity (max_receivers st)
                            (max_balance_changes st)
                 :: ((fun a => flatten json_dumps a (max_receivers st)
                                       (max_balance_changes st)) <$> kept_post)
            /\ (transfer_list_len "receivers" activity <= max_receivers st)%nat
            /\ (transfer_list_len "balance_changes" activity
                <= max_balance_changes st)%nat).
Proof.
  intros Hdate after_timestamp.
  assert (Hkeep : date_before (py_get activity "date") after_timestamp = Ret false).
  { apply date_before_falsy. destruct Hdate as [-> | ->]; reflexivity. }
  split; [exact Hkeep|]. split; [|split].
  - intros st st1 st2 pre post Hpre Hcount.
    exists (buffer_activity st2 activity).
    destruct (count_transfer_maxima st1 st2 activity Hcount) as (Hr & Hb & Hall & _).
    split; [exact (scan_page_keeps _ _ _ _ _ _ _ Hkeep Hpre Hcount)|].
    cbn [buffer_activity all_flattened max_receivers max_balance_changes].
    rewrite Hall. auto.
  - intros fuel gw page_size cursor st st1 st2 pre Hpage Hpre Hcount Hid.
    exists (buffer_activity st2 activity).
    destruct (scan_batches_first_call fuel gw after_timestamp page_size
                (py_get activity "event_id") (buffer_activity st2 activity))
      as (r & log & Hnext).
    exists r, log.
    destruct (count_transfer_maxima st1 st2 activity Hcount) as (_ & _ & Hall & _).
    split; [cbn [buffer_activity all_flattened]; rewrite Hall; reflexivity|].
    split; [exact Hnext|].
    rewrite (scan_batches_next_page (S fuel) gw after_timestamp page_size cursor
               activity pre st st1 st2 Hkeep Hpage Hpre Hcount Hid).
    rewrite Hnext. reflexivity.
  - intros fuel gw page_size f log pre post Hexport Hfeed Hpre.
    destruct (scan_batches fuel gw after_timestamp page_size (JStr "") scan_init)
      as [[st| |] log0] eqn:Hscan;
      try (unfold export_activities_after, bind in Hexport; rewrite Hscan in Hexport;
           discriminate Hexport).
    rewrite (export_of_scan json_dumps _ _ _ _ _ _ Hscan) in Hexport.
    injection Hexport as <- <-.
    destruct (first_pass_summary _ _ _ _ _ _ Hscan)
      as (Hr & Hb & Hkept & rest & Hscanned & Hrest).
    rewrite Hfeed in Hscanned. symmetry in Hscanned.
    destruct (kept_record_position after_timestamp activity pre post rest Hkeep
                (all_flattened st) Hscanned Hrest Hpre)
      as (kept_pre & kept_post & Hall & -> & ->).
    exists st, kept_pre, kept_post, rest.
    split; [reflexivity|]. split; [reflexivity|]. split; [exact Hrest|].
    split; [exact Hall|]. split; [reflexivity|].
    split; [unfold file_of; cbn [rows]; rewrite Hall, fmap_app; reflexivity|].
    rewrite Hr, Hb, Hall. split; apply transfer_list_len_le_max.
Qed.

End DatelessFacts.

Lemma dateless_record_is_kept_witness :
  date_before (py_get dateless_activity "date") "2024-01-01T00:00:00Z" = Ret false
  /\ (forall post,
        exists st3,
          scan_page "2024-01-01T00:00:00Z" scan_init
                    ([] ++ JDict dateless_activity :: post)
          = scan_page "2024-01-01T00:00:00Z" st3 post
          /\ all_flattened st3 = all_flattened scan_init ++ [dateless_activity]
          /\ max_receivers st3
             = Nat.max (max_receivers scan_init)
                       (transfer_list_len "receivers" dateless_activity)
          /\ max_balance_changes st3
             = Nat.max (max_balance_changes scan_init)
                       (transfer_list_len "balance_changes" dateless_activity))
  /\ (exists st3 r log,
        all_flattened st3 = all_flattened scan_init ++ [dateless_activity]
        /\ scan_batches 1 dateless_gateway "2024-01-01T00:00:00Z" 1000
                        (py_get dateless_activity "event_id") st3
           = (r, CallListActivity 1000 (py_get dateless_activity "event_id") :: log)
        /\ scan_batches 2 dateless_gateway "2024-01-01T00:00:00Z" 1000 (JStr "")
                        scan_init
           = (r, CallListActivity 1000 (JStr "")
                   :: CallListActivity 1000 (py_get dateless_activity "event_id")
                   :: log))
  /\ (exists st kept_pre kept_post rest,
        [] = JDict <$> kept_pre
        /\ [] = (JDict <$> kept_post) ++ rest
        /\ (rest = [] \/ stopped_at "2024-01-01T00:00:00Z" rest)
        /\ all_flattened st = kept_pre ++ dateless_activity :: kept_post
        /\ header (file_of sample_json_dumps
                     {| max_receivers := 1; max_balance_changes := 0;
                        all_flattened := [dateless_activity]; total_scanned := 1 |})
           = Some (get_all_fieldnames sample_json_dumps st)
        /\ rows (file_of sample_json_dumps
                   {| max_receivers := 1; max_balance_changes := 0;
                      all_flattened := [dateless_activity]; total_scanned := 1 |})
           = ((fun a => flatten sample_json_dumps a (max_receivers st)
                                (max_balance_changes st)) <$> kept_pre)
             ++ flatten sample_json_dumps dateless_activity (max_receivers st)
                        (max_balance_changes st)
             :: ((fun a => flatten sample_json_dumps a (max_receivers st)
                                   (max_balance_changes st)) <$> kept_post)
        /\ (transfer_list_len "receivers" dateless_activity <= max_receivers st)%nat
        /\ (transfer_list_len "balance_changes" dateless_activity
            <= max_balance_changes st)%nat).
Proof.
  destruct (dateless_record_is_kept sample_json_dumps dateless_activity
              (or_introl eq_refl) "2024-01-01T00:00:00Z")
    as (Hnever & Hpage & Hnext & Hfile).
  split; [exact Hnever|]. split; [|split].
  - intros post.
    exact (Hpage scan_init scan_init
             {| max_receivers := 1; max_balance_changes := 0;
                all_flattened := []; total_scanned := 0 |}
             [] post eq_refl eq_refl).
  - exact (Hnext 0%nat dateless_gateway 1000 (JStr "") scan_init scan_init
             {| max_receivers := 1; max_balance_changes := 0;
                all_flattened := []; total_scanned := 0 |}
             [] eq_refl eq_refl eq_refl eq_refl).
  - exact (Hfile 2%nat dateless_gateway 1000
             (file_of sample_json_dumps
                {| max_receivers := 1; max_balance_changes := 0;
                   all_flattened := [dateless_activity]; total_scanned := 1 |})
             [CallListActivity 1000 (JStr ""); CallListActivity 1000 (JStr "e1")]
             [] [] eq_refl eq_refl (List.Forall_nil _)).
Defined.

(** * Further properties of the code *)

(** ** The month resolver: what a result means, and its cost *)

(** X1: whatever the order of the ledger's timestamps, a result of
    [find_rounds_for_month] names two rounds of [0, latest_round], the first
    not above the second, whose looked-up times it reports and which both
    lie in the target month. *)
Theorem find_rounds_for_month_result_in_month
    (fromisoformat : string -> option datetime) (gw : Gateway)
    (latest_round year month : Z) (r : FindRoundsForMonthResult) :
  latest_round_of (get_round_of_latest_data gw) = LatestInt latest_round ->
  result (find_rounds_for_month fromisoformat gw year month) = Ret (Some r) ->
  0 <= start_round r /\ start_round r <= end_round r /\ end_round r <= latest_round
  /\ start_time r = looked_up gw latest_round (start_round r)
  /\ end_time r = looked_up gw latest_round (end_round r)
  /\ time_period fromisoformat (start_time r) = Some (year, month)
  /\ time_period fromisoformat (end_time r) = Some (year, month).
Proof.
  intros Hlatest Hres.
  destruct (find_rounds_for_month_run fromisoformat gw latest_round year month Hlatest)
    as (first & log1 & _ & _ & Hrun).
  destruct first as [f|]; [|rewrite Hrun in Hres; discriminate Hres].
  destruct Hrun as ([Hf Htf] & _ & l & log2 & _ & Hle & [Hl Htl] & Hfind).
  rewrite Hfind in Hres. injection Hres as <-. simpl.
  repeat split; try lia; assumption.
Qed.

Lemma find_rounds_for_month_result_in_month_witness :
  0 <= 0 /\ 0 <= 1 /\ 1 <= 1
  /\ JStr "2024-04-01T00:00:00Z" = looked_up april_gateway 1 0
  /\ JStr "2024-04-02T00:00:00Z" = looked_up april_gateway 1 1
  /\ time_period sample_fromisoformat (JStr "2024-04-01T00:00:00Z") = Some (2024, 4)
  /\ time_period sample_fromisoformat (JStr "2024-04-02T00:00:00Z") = Some (2024, 4).
Proof.
  exact (find_rounds_for_month_result_in_month sample_fromisoformat april_gateway
           1 2024 4
           {| start_round := 0; start_time := JStr "2024-04-01T00:00:00Z";
              end_round := 1; end_time := JStr "2024-04-02T00:00:00Z" |}
           eq_refl eq_refl).
Defined.

(** X2: when no round of [0, latest_round] resolves to the target month
    (a month before the ledger's start, a future month, an empty ledger),
    [find_rounds_for_month] returns [None]. *)
Theorem find_rounds_for_month_none_without_round
    (fromisoformat : string -> option datetime) (gw : Gateway)
    (latest_round year month : Z) :
  latest_round_of (get_round_of_latest_data gw) = LatestInt latest_round ->
  (forall q, 0 <= q <= latest_round ->
             probe_period fromisoformat gw latest_round q <> Some (year, month)) ->
  result (find_rounds_for_month fromisoformat gw year month) = Ret None.
Proof.
  intros Hlatest Hnone.
  destruct (find_rounds_for_month_run fromisoformat gw latest_round year month Hlatest)
    as (first & log1 & _ & _ & Hrun).
  destruct first as [f|]; [|rewrite Hrun; reflexivity].
  destruct Hrun as ([Hf Htf] & _). exfalso.
  apply (Hnone f Hf). rewrite probe_period_eq. exact Htf.
Qed.

Lemma find_rounds_for_month_none_without_round_witness :
  result (find_rounds_for_month sample_fromisoformat april_gateway 2023 12) = Ret None.
Proof.
  apply (find_rounds_for_month_none_without_round sample_fromisoformat april_gateway
           1 2023 12).
  - reflexivity.
  - intros q Hq.
    destruct (small_round_cases q 1 Hq ltac:(lia)) as [-> | [-> | ->]];
      vm_compute; discriminate.
Defined.

Lemma halvings_nonneg (n : Z) : 0 <= halvings n.
Proof.
  unfold halvings. destruct (n <=? 0); [lia|].
  pose proof (Z.log2_nonneg n). lia.
Qed.

Lemma halvings_mono (a b : Z) : a <= b -> halvings a <= halvings b.
Proof.
  intros Hab. unfold halvings.
  destruct (a <=? 0) eqn:Ea; destruct (b <=? 0) eqn:Eb;
    try apply Z.leb_le in Ea; try apply Z.leb_le in Eb;
    try apply Z.leb_gt in Ea; try apply Z.leb_gt in Eb; try lia.
  - pose proof (Z.log2_nonneg b). lia.
  - pose proof (Z.log2_le_mono a b Hab). lia.
Qed.

Lemma halvings_half (n m : Z) : 1 <= n -> m <= n / 2 -> halvings m + 1 <= halvings n.
Proof.
  intros Hn Hm. unfold halvings.
  destruct (n <=? 0) eqn:En; [apply Z.leb_le in En; lia|].
  destruct (m <=? 0) eqn:Em.
  - pose proof (Z.log2_nonneg n). lia.
  - apply Z.leb_gt in Em.
    assert (2 * m <= n) by (Z.to_euclidean_division_equations; lia).
    pose proof (Z.log2_double m ltac:(lia)) as Hd.
    pose proof (Z.log2_le_mono (2 * m) n ltac:(lia)). lia.
Qed.

Section ResolverCost.

Variable fromisoformat : string -> option datetime.
Variable gw : Gateway.
Variables latest_round year month : Z.

Lemma search_first_calls (fuel : nat) (left right : Z) (first : option Z) :
  (Z.to_nat (right - left + 1) <= fuel)%nat ->
  exists res log,
    search_first fromisoformat fuel gw latest_round
                 year month left right first = (Ret res, log)
    /\ Z.of_nat (length log) <= halvings (right - left + 1).
Proof.
  intros Hfuel.
  destruct (search_first_rule fromisoformat gw latest_round year month
              (fun l r (_ : option Z) log =>
                 Z.of_nat (length log) + halvings (r - l + 1)
                 <= halvings (right - left + 1)))
    with (fuel := fuel) (left := left) (right := right)
         (first := first) (log0 := @nil call)
    as (res & log & l & r & Heq & Hinv & _).
  - intros l r f log Hinv Hle.
    pose proof (midpoint_bounds l r Hle) as Hmid.
    assert (Hhalf : forall l' r', (l' = (l + r) / 2 + 1 /\ r' = r)
                                  \/ (l' = l /\ r' = (l + r) / 2 - 1) ->
                halvings (r' - l' + 1) + 1 <= halvings (r - l + 1)).
    { intros l' r' Hcase. apply halvings_half; [lia|].
      destruct Hcase as [[-> ->] | [-> ->]]; Z.to_euclidean_division_equations; lia. }
    unfold first_step.
    destruct (parse_effective_at _ _);
      repeat match goal with |- context [if ?b then _ else _] => destruct b end;
      rewrite length_app; simpl;
      match goal with
      | |- context [halvings (?r' - ?l' + 1)] =>
          pose proof (Hhalf l' r' ltac:(auto))
      end; lia.
  - exact Hfuel.
  - simpl. lia.
  - exists res, log. split; [exact Heq|].
    simpl in Hinv. pose proof (halvings_nonneg (r - l + 1)). lia.
Qed.

Lemma search_last_calls (fuel : nat) (left right last : Z) :
  (Z.to_nat (right - left + 1) <= fuel)%nat ->
  exists res log,
    search_last fromisoformat fuel gw latest_round
                year month left right last = (Ret res, log)
    /\ Z.of_nat (length log) <= halvings (right - left + 1).
Proof.
  intros Hfuel.
  destruct (search_last_rule fromisoformat gw latest_round year month
              (fun l r (_ : Z) log =>
                 Z.of_nat (length log) + halvings (r - l + 1)
                 <= halvings (right - left + 1)))
    with (fuel := fuel) (left := left) (right := right)
         (last := last) (log0 := @nil call)
    as (res & log & l & r & Heq & Hinv & _).
  - intros l r f log Hinv Hle.
    pose proof (midpoint_bounds l r Hle) as Hmid.
    assert (Hhalf : forall l' r', (l' = (l + r) / 2 + 1 /\ r' = r)
                                  \/ (l' = l /\ r' = (l + r) / 2 - 1) ->
                halvings (r' - l' + 1) + 1 <= halvings (r - l + 1)).
    { intros l' r' Hcase. apply halvings_half; [lia|].
      destruct Hcase as [[-> ->] | [-> ->]]; Z.to_euclidean_division_equations; lia. }
    unfold last_step.
    destruct (parse_effective_at _ _);
      repeat match goal with |- context [if ?b then _ else _] => destruct b end;
      rewrite length_app; simpl;
      match goal with
      | |- context [halvings (?r' - ?l' + 1)] =>
          pose proof (Hhalf l' r' ltac:(auto))
      end; lia.
  - exact Hfuel.
  - simpl. lia.
  - exists res, log. split; [exact Heq|].
    simpl in Hinv. pose proof (halvings_nonneg (r - l + 1)). lia.
Qed.

(** X3: on a ledger whose latest round is known, [find_rounds_for_month]
    returns after at most 2 * (floor(log2(latest_round + 1)) + 1) + 3 Gateway
    requests: the latest-round query, one request per probe of the two
    binary searches, and the two final lookups. *)
Theorem find_rounds_for_month_request_bound :
  latest_round_of (get_round_of_latest_data gw) = LatestInt latest_round ->
  (exists out, result (find_rounds_for_month fromisoformat gw year month) = Ret out)
  /\ Z.of_nat (length (calls (find_rounds_for_month fromisoformat gw year month)))
     <= 2 * halvings (latest_round + 1) + 3.
Proof.
  intros Hlatest.
  destruct (find_rounds_for_month_run fromisoformat gw latest_round year month Hlatest)
    as (first & log1 & Heq1 & _ & Hrun).
  destruct (search_first_calls (search_fuel latest_round) 0 latest_round None)
    as (first' & log1' & Heq1' & Hb1); [unfold search_fuel; lia|].
  rewrite Heq1 in Heq1'. injection Heq1' as <- <-.
  replace (latest_round - 0 + 1) with (latest_round + 1) in Hb1 by lia.
  pose proof (halvings_nonneg (latest_round + 1)) as Hnn.
  unfold find_rounds_for_month, call_round_of_latest_data, bind, ret. cbv beta.
  rewrite Hlatest, Heq1.
  destruct first as [f|].
  - destruct Hrun as ([[Hf0 Hf1] _] & _).
    destruct (search_last_calls (search_fuel latest_round) f latest_round f)
      as (l & log2 & Heq2 & Hb2); [unfold search_fuel; lia|].
    pose proof (halvings_mono (latest_round - f + 1) (latest_round + 1) ltac:(lia)).
    rewrite Heq2, !get_effective_at_eq. unfold result, calls. cbn [fst snd].
    split; [eauto|].
    cbn [app]. rewrite !length_cons, !length_app. cbn [length]. lia.
  - unfold result, calls. cbn [fst snd]. split; [eauto|].
    cbn [app]. rewrite !length_cons, !length_app. cbn [length]. lia.
Qed.

End ResolverCost.

Lemma find_rounds_for_month_request_bound_witness :
  (exists out,
      result (find_rounds_for_month sample_fromisoformat april_gateway 2024 4) = Ret out)
  /\ Z.of_nat (length (calls (find_rounds_for_month sample_fromisoformat
                                                    april_gateway 2024 4)))
     <= 2 * halvings (1 + 1) + 3.
Proof.
  exact (find_rounds_for_month_request_bound sample_fromisoformat april_gateway
           1 2024 4 eq_refl).
Defined.

(** ** The single-round lookup *)

(** X4: for a round of [0, latest_round], the one window that
    [get_effective_at] requests starts at a multiple of 200, holds at most
    200 rounds, ends no later than [latest_round] and contains the round;
    rounds with the same quotient by 200 ask for the same window. *)
Theorem get_effective_at_window (gw : Gateway) (latest_round r : Z) :
  0 <= r <= latest_round ->
  exists s e,
    calls (get_effective_at gw latest_round r) = [CallRoundTotals s e]
    /\ s `mod` 200 = 0 /\ 0 <= s /\ s <= r /\ r <= e /\ e <= latest_round
    /\ e - s <= 199
    /\ (forall r', r' / 200 = r / 200 ->
                   calls (get_effective_at gw latest_round r') = [CallRoundTotals s e]).
Proof.
  intros Hr.
  exists (r / 200 * 200), (Z.min (r / 200 * 200 + 200 - 1) latest_round).
  split; [reflexivity|].
  split; [apply Z_mod_mult|].
  assert (r / 200 * 200 <= r /\ r < r / 200 * 200 + 200 /\ 0 <= r / 200 * 200)
    as (H1 & H2 & H3) by (Z.to_euclidean_division_equations; lia).
  repeat split; try lia.
  intros r' Hq. unfold get_effective_at, call_round_totals, bind, ret, calls, batch_size.
  cbv beta. cbn [snd app]. rewrite Hq. reflexivity.
Qed.

Lemma get_effective_at_window_witness :
  exists s e,
    calls (get_effective_at april_gateway 1000 450) = [CallRoundTotals s e]
    /\ s `mod` 200 = 0 /\ 0 <= s /\ s <= 450 /\ 450 <= e /\ e <= 1000
    /\ e - s <= 199
    /\ (forall r', r' / 200 = 450 / 200 ->
                   calls (get_effective_at april_gateway 1000 r')
                   = [CallRoundTotals s e]).
Proof.
  apply (get_effective_at_window april_gateway 1000 450). lia.
Defined.

(** X5: a single-round lookup never fails: it yields [None] when no entry
    of the window carries the round number, and otherwise [None] or the
    truthy time of the first entry of the window that carries the round
    number and has a truthy time. *)
Theorem find_effective_at_outcome (round_num : Z) (entries : list dict) :
  ((forall entry, entry ∈ entries ->
                  json_eq_int (py_get entry "closed_round") round_num = false) ->
   find_effective_at round_num entries = JNull)
  /\ (find_effective_at round_num entries = JNull
      \/ exists before entry after,
           entries = before ++ entry :: after
           /\ json_eq_int (py_get entry "closed_round") round_num = true
           /\ truthy (effective_at_of entry) = true
           /\ find_effective_at round_num entries = effective_at_of entry
           /\ Forall (fun e => json_eq_int (py_get e "closed_round") round_num
                               && truthy (effective_at_of e) = false) before).
Proof.
  induction entries as [|entry entries [IH1 IH2]].
  - split; [reflexivity|left; reflexivity].
  - cbn [find_effective_at]. split.
    + intros Hno. rewrite (Hno entry) by left. simpl.
      apply IH1. intros e He. apply Hno. right. exact He.
    + destruct (json_eq_int (py_get entry "closed_round") round_num
                && truthy (effective_at_of entry)) eqn:Hhit.
      * right. apply andb_true_iff in Hhit as [Heq Htruthy].
        exists [], entry, entries. repeat split; auto.
      * destruct IH2 as [Hnull | (before & e & after & -> & Heq & Ht & Hfind & Hbefore)].
        -- left. exact Hnull.
        -- right. exists (entry :: before), e, after. repeat split; auto.
Qed.

(** ** The range series builder: edges and prefetch *)

Lemma py_range_nonzero (a b step : Z) :
  step <> 0 -> py_range a (b + 1) step = Ret (stride_rounds a b step).
Proof.
  intros Hstep. unfold py_range.
  replace (step =? 0) with false by (symmetry; apply Z.eqb_neq; exact Hstep).
  reflexivity.
Qed.

(** The requests of the prefetch loop. *)
Lemma prefetch_windows_eq (a b : Z) :
  round_totals_windows
    ((fun batch_start =>
        CallRoundTotals batch_start (Z.min (batch_start + batch_size - 1) b))
       <$> stride_rounds a b batch_size)
  = (fun batch_start => (batch_start, Z.min (batch_start + 199) b))
      <$> stride_rounds a b batch_size.
Proof.
  induction (stride_rounds a b batch_size) as [|x xs IH]; [reflexivity|].
  cbn [fmap list_fmap]. rewrite round_totals_windows_window.
  cbn [fmap list_fmap] in IH. rewrite IH. unfold batch_size.
  replace (x + 200 - 1) with (x + 199) by lia. reflexivity.
Qed.

Lemma round_totals_windows_balance (party_id : string) (rounds : list Z) :
  round_totals_windows ((fun r => CallWalletBalance party_id (JNum r)) <$> rounds) = [].
Proof. induction rounds as [|r rs IH]; [reflexivity|exact IH]. Qed.

Lemma for_rounds_index_entry_get (m m' : gmap pykey json) (entry : dict) (r : Z) :
  for_rounds_index_entry m entry = Ret m' ->
  index_get m' r
  = if json_eq_int (py_get entry "closed_round") r && truthy (effective_at_of entry)
    then effective_at_of entry
    else index_get m r.
Proof.
  unfold for_rounds_index_entry, index_set, index_get. fold (effective_at_of entry).
  destruct (py_get entry "closed_round") as [|b|n|s|l|d]; cbn [json_eq_int andb].
  - intros [= <-]. reflexivity.
  - destruct (truthy (effective_at_of entry)); cbn [hash_key mbind res_bind];
      intros [= <-]; [|rewrite andb_false_r; reflexivity].
    rewrite andb_true_r. destruct (Z.eqb_spec (Z.b2z b) r) as [->|Hne].
    + rewrite lookup_insert_eq. reflexivity.
    + rewrite lookup_insert_ne by congruence. reflexivity.
  - destruct (truthy (effective_at_of entry)); cbn [hash_key mbind res_bind];
      intros [= <-]; [|rewrite andb_false_r; reflexivity].
    rewrite andb_true_r. destruct (Z.eqb_spec n r) as [->|Hne].
    + rewrite lookup_insert_eq. reflexivity.
    + rewrite lookup_insert_ne by congruence. reflexivity.
  - destruct (truthy (effective_at_of entry)); cbn [hash_key mbind res_bind];
      intros [= <-]; [|reflexivity].
    rewrite lookup_insert_ne by congruence. reflexivity.
  - destruct (truthy (effective_at_of entry)); cbn [hash_key mbind res_bind];
      intros [= <-]. reflexivity.
  - destruct (truthy (effective_at_of entry)); cbn [hash_key mbind res_bind];
      intros [= <-]. reflexivity.
Qed.

Lemma for_each_index_entries_get (entries : list dict) (m m' : gmap pykey json)
    (log : list call) (r : Z) :
  for_each (fun m entry => lift (for_rounds_index_entry m entry)) entries m
  = (Ret m', log) ->
  index_get m' r
  = foldl (fun acc entry =>
             if json_eq_int (py_get entry "closed_round") r
                && truthy (effective_at_of entry)
             then effective_at_of entry
             else acc)
          (index_get m r) entries.
Proof.
  revert m log. induction entries as [|entry entries IH]; intros m log.
  - intros [= <- _]. reflexivity.
  - cbn [for_each foldl].
    destruct (for_rounds_index_entry m entry) as [m1| e |] eqn:Hm1;
      unfold lift, bind; try discriminate.
    destruct (for_each _ entries m1) as [r1 log1] eqn:Hrest.
    intros [= -> _]. rewrite (IH m1 log1 Hrest).
    rewrite (for_rounds_index_entry_get m m1 entry r Hm1). reflexivity.
Qed.

Lemma for_each_prefetch_batches_get (gw : Gateway) (last_round : Z)
    (batches : list Z) (m m' : gmap pykey json) (log : list call) (r : Z) :
  for_each (for_rounds_prefetch_batch gw last_round) batches m = (Ret m', log) ->
  index_get m' r
  = foldl (fun acc entry =>
             if json_eq_int (py_get entry "closed_round") r
                && truthy (effective_at_of entry)
             then effective_at_of entry
             else acc)
          (index_get m r)
          (batches ≫= (fun batch_start =>
                         list_round_totals gw batch_start
                           (Z.min (batch_start + batch_size - 1) last_round))).
Proof.
  revert m log. induction batches as [|bs batches IH]; intros m log.
  - intros [= <- _]. reflexivity.
  - cbn [for_each]. unfold for_rounds_prefetch_batch at 1, call_round_totals.
    unfold bind at 1 2. cbv beta.
    destruct (for_each _ (list_round_totals gw bs _) m) as [[m1| e |] log1] eqn:Hm1;
      try discriminate.
    destruct (for_each _ batches m1) as [r1 log2] eqn:Hrest.
    intros [= -> _].
    rewrite (IH m1 log2 Hrest).
    rewrite (for_each_index_entries_get _ m m1 log1 r Hm1).
    change (?l ≫= ?f) with (mbind f l). cbn [mbind list_bind].
    rewrite foldl_app. reflexivity.
Qed.

(** A run of the builder with a stride that is not zero. *)
Lemma get_wallet_balances_for_rounds_run
    (gw : Gateway) (party_id : string) (a b step : Z) :
  step <> 0 ->
  hashable_round_totals gw ->
  exists m,
    get_wallet_balances_for_rounds gw party_id a b step
    = (Ret (sample_of gw party_id m <$> stride_rounds a b step),
       ((fun batch_start =>
           CallRoundTotals batch_start (Z.min (batch_start + batch_size - 1) b))
          <$> stride_rounds a b batch_size)
       ++ ((fun r => CallWalletBalance party_id (JNum r)) <$> stride_rounds a b step))
    /\ forall r, index_get m r = last_indexed_time (prefetched_entries gw a b) r.
Proof.
  intros Hstep Hgw.
  destruct (for_each_prefetch_batches gw b (stride_rounds a b batch_size) ∅ Hgw)
    as (m & Hm).
  exists m. split.
  - unfold get_wallet_balances_for_rounds.
    rewrite (py_range_nonzero a b batch_size) by (unfold batch_size; lia).
    rewrite (py_range_nonzero a b step) by exact Hstep.
    unfold lift, bind. cbv beta. rewrite Hm, for_each_fetch_sample.
    simpl. reflexivity.
  - intros r. rewrite (for_each_prefetch_batches_get _ _ _ _ _ _ r Hm). reflexivity.
Qed.

(** X6: over an empty range ([last_round < first_round]) with a stride
    [step >= 1] the builder returns no sample and issues no Gateway request
    at all. *)
Theorem get_wallet_balances_for_rounds_empty_range
    (gw : Gateway) (party_id : string) (a b step : Z) :
  1 <= step -> b < a ->
  get_wallet_balances_for_rounds gw party_id a b step = (Ret [], []).
Proof.
  intros Hstep Hab.
  assert (Hempty : forall s, 1 <= s -> stride_rounds a b s = []).
  { intros s Hs. unfold stride_rounds. rewrite range_len_stride by exact Hs.
    replace (a <=? b) with false by (symmetry; apply Z.leb_gt; lia). reflexivity. }
  unfold get_wallet_balances_for_rounds.
  rewrite (py_range_nonzero a b batch_size) by (unfold batch_size; lia).
  rewrite (py_range_nonzero a b step) by lia.
  rewrite (Hempty batch_size) by (unfold batch_size; lia).
  rewrite (Hempty step) by exact Hstep. reflexivity.
Qed.

Lemma get_wallet_balances_for_rounds_empty_range_witness :
  get_wallet_balances_for_rounds balances_gateway "alice" 60 50 10 = (Ret [], []).
Proof.
  apply (get_wallet_balances_for_rounds_empty_range balances_gateway "alice" 60 50 10);
    lia.
Defined.

(** X7: a stride of zero is rejected with a [ValueError], but only after
    the timestamp prefetch has issued its round_totals requests; no balance
    is requested. *)
Theorem get_wallet_balances_for_rounds_zero_step
    (gw : Gateway) (party_id : string) (a b : Z) :
  hashable_round_totals gw ->
  get_wallet_balances_for_rounds gw party_id a b 0
  = (Raise (ValueError "range() arg 3 must not be zero"),
     (fun batch_start =>
        CallRoundTotals batch_start (Z.min (batch_start + batch_size - 1) b))
       <$> stride_rounds a b batch_size).
Proof.
  intros Hgw.
  destruct (for_each_prefetch_batches gw b (stride_rounds a b batch_size) ∅ Hgw)
    as (m & Hm).
  unfold get_wallet_balances_for_rounds.
  rewrite (py_range_nonzero a b batch_size) by (unfold batch_size; lia).
  unfold lift, bind. cbv beta. rewrite Hm. simpl. rewrite app_nil_r. reflexivity.
Qed.

Lemma get_wallet_balances_for_rounds_zero_step_witness :
  get_wallet_balances_for_rounds balances_gateway "alice" 50 60 0
  = (Raise (ValueError "range() arg 3 must not be zero"),
     (fun batch_start =>
        CallRoundTotals batch_start (Z.min (batch_start + batch_size - 1) 60))
       <$> stride_rounds 50 60 batch_size).
Proof.
  apply (get_wallet_balances_for_rounds_zero_step balances_gateway "alice" 50 60).
  intros s e entry Hin. simpl in Hin. inversion Hin.
Defined.

(** X8: the timestamp prefetch of the builder does not depend on the
    stride: it requests the windows [bs, min(bs + 199, last_round)] for
    bs = first_round, first_round + 200, ..., and every round of
    [first_round, last_round] lies in exactly one of them. *)
Theorem get_wallet_balances_for_rounds_prefetch_windows
    (gw : Gateway) (party_id : string) (a b step : Z) :
  step <> 0 ->
  hashable_round_totals gw ->
  round_totals_windows (calls (get_wallet_balances_for_rounds gw party_id a b step))
  = (fun batch_start => (batch_start, Z.min (batch_start + 199) b))
      <$> stride_rounds a b 200
  /\ (forall r, a <= r <= b ->
        exists w,
          w ∈ round_totals_windows
                (calls (get_wallet_balances_for_rounds gw party_id a b step))
          /\ w.1 <= r <= w.2
          /\ forall w',
               w' ∈ round_totals_windows
                      (calls (get_wallet_balances_for_rounds gw party_id a b step)) ->
               w'.1 <= r <= w'.2 -> w' = w).
Proof.
  intros Hstep Hgw.
  destruct (get_wallet_balances_for_rounds_run gw party_id a b step Hstep Hgw)
    as (m & Hrun & _).
  rewrite Hrun. unfold calls. cbn [snd].
  rewrite round_totals_windows_app, prefetch_windows_eq, round_totals_windows_balance,
    app_nil_r.
  unfold batch_size. split; [reflexivity|].
  intros r Hr.
  set (bs := a + (r - a) / 200 * 200).
  assert (Hbs : bs <= r < bs + 200 /\ a <= bs)
    by (unfold bs; Z.to_euclidean_division_equations; lia).
  exists (bs, Z.min (bs + 199) b). split; [|split].
  - apply list_elem_of_fmap. exists bs. split; [reflexivity|].
    apply elem_of_stride_rounds; [lia|]. split; [lia|].
    unfold bs. replace (a + (r - a) / 200 * 200 - a) with ((r - a) / 200 * 200) by lia.
    apply Z_mod_mult.
  - simpl. lia.
  - intros w' Hw' Hin. apply list_elem_of_fmap in Hw' as (bs' & -> & Hbs').
    apply elem_of_stride_rounds in Hbs' as (Hrange & Hmod); [|lia].
    simpl in Hin.
    assert (bs' = bs); [|subst; reflexivity].
    apply Z.mod_divide in Hmod as [q Hq]; [|lia].
    unfold bs in *. Z.to_euclidean_division_equations. lia.
Qed.

Lemma get_wallet_balances_for_rounds_prefetch_windows_witness :
  round_totals_windows
    (calls (get_wallet_balances_for_rounds balances_gateway "alice" 50 60 10))
  = (fun batch_start => (batch_start, Z.min (batch_start + 199) 60))
      <$> stride_rounds 50 60 200
  /\ (forall r, 50 <= r <= 60 ->
        exists w,
          w ∈ round_totals_windows
                (calls (get_wallet_balances_for_rounds balances_gateway "alice" 50 60 10))
          /\ w.1 <= r <= w.2
          /\ forall w',
               w' ∈ round_totals_windows
                      (calls (get_wallet_balances_for_rounds balances_gateway "alice"
                                                             50 60 10)) ->
               w'.1 <= r <= w'.2 -> w' = w).
Proof.
  apply (get_wallet_balances_for_rounds_prefetch_windows balances_gateway "alice"
           50 60 10).
  - lia.
  - intros s e entry Hin. simpl in Hin. inversion Hin.
Defined.

(** ** The month variants of the balance series *)

Section MonthVariantFacts.

Variable fromisoformat : string -> option datetime.

Local Abbreviation find_rounds_for_month := (find_rounds_for_month fromisoformat).

Lemma for_each_month_estimate_party (gw : Gateway) (rounds : FindRoundsForMonthResult)
    (party_ids : list string) (acc : list WalletBalanceForMonth) :
  for_each (month_estimate_party gw rounds) party_ids acc
  = (Ret (acc ++ ((fun party_id =>
                     {| wbm_party_id := party_id;
                        beginning_of_month_round := start_round rounds;
                        beginning_of_month_time := start_time rounds;
                        beginning_of_month_balance :=
                          py_get (get_wallet_balance gw party_id (JNum (start_round rounds)))
                                 "wallet_balance";
                        end_of_month_round := end_round rounds;
                        end_of_month_time := end_time rounds;
                        end_of_month_balance :=
                          py_get (get_wallet_balance gw party_id (JNum (end_round rounds)))
                                 "wallet_balance" |}) <$> party_ids)),
     party_ids ≫= (fun party_id =>
                     [CallWalletBalance party_id (JNum (start_round rounds));
                      CallWalletBalance party_id (JNum (end_round rounds))])).
Proof.
  revert acc. induction party_ids as [|p party_ids IH]; intros acc.
  - simpl. rewrite app_nil_r. reflexivity.
  - cbn [for_each]. unfold month_estimate_party at 1, call_wallet_balance, bind, ret.
    cbv beta. rewrite IH. simpl. rewrite <- app_assoc. reflexivity.
Qed.

(** X9: the month estimate asks for balances only when the month resolves:
    with no rounds it returns the empty list after the resolver's requests
    alone; otherwise it returns one entry per party, in the order given,
    each carrying the resolved rounds and times, after exactly two balance
    requests per party (at the start round, then at the end round); a
    failure of the resolver is passed on. *)
Theorem get_wallet_balances_for_month_from_rounds_estimate_outcomes
    (gw : Gateway) (party_ids : list string) (year month : Z) :
  get_wallet_balances_for_month_from_rounds_estimate fromisoformat gw party_ids year month
  = match result (find_rounds_for_month gw year month) with
    | Ret None => (Ret [], calls (find_rounds_for_month gw year month))
    | Ret (Some rounds) =>
        (Ret ((fun party_id =>
                 {| wbm_party_id := party_id;
                    beginning_of_month_round := start_round rounds;
                    beginning_of_month_time := start_time rounds;
                    beginning_of_month_balance :=
                      py_get (get_wallet_balance gw party_id (JNum (start_round rounds)))
                             "wallet_balance";
                    end_of_month_round := end_round rounds;
                    end_of_month_time := end_time rounds;
                    end_of_month_balance :=
                      py_get (get_wallet_balance gw party_id (JNum (end_round rounds)))
                             "wallet_balance" |}) <$> party_ids),
         calls (find_rounds_for_month gw year month)
         ++ (party_ids ≫= (fun party_id =>
                             [CallWalletBalance party_id (JNum (start_round rounds));
                              CallWalletBalance party_id (JNum (end_round rounds))])))
    | Raise e => (Raise e, calls (find_rounds_for_month gw year month))
    | OutOfFuel => (OutOfFuel, calls (find_rounds_for_month gw year month))
    end.
Proof.
  unfold get_wallet_balances_for_month_from_rounds_estimate, result, calls.
  destruct (find_rounds_for_month gw year month) as [[[rounds|]| e |] log];
    cbn [fst snd]; unfold bind, ret.
  - rewrite for_each_month_estimate_party. reflexivity.
  - rewrite app_nil_r. reflexivity.
  - reflexivity.
  - reflexivity.
Qed.

(** X10: the month series is the range series over the resolved rounds:
    [get_wallet_balances_for_all_rounds_in_month] behaves as
    [find_rounds_for_month] followed, when the month resolves, by
    [get_wallet_balances_for_rounds] from the start round to the end round
    with the same stride, requests included; when the month does not
    resolve it returns the empty list. *)
Theorem get_wallet_balances_for_all_rounds_in_month_composes
    (gw : Gateway) (party_id : string) (year month step : Z) :
  get_wallet_balances_for_all_rounds_in_month fromisoformat gw party_id year month step
  = (rounds_info <- find_rounds_for_month gw year month ;;
     match rounds_info with
     | None => ret []
     | Some rounds_info =>
         get_wallet_balances_for_rounds gw party_id
           (start_round rounds_info) (end_round rounds_info) step
     end).
Proof.
  unfold get_wallet_balances_for_all_rounds_in_month, bind.
  destruct (find_rounds_for_month gw year month) as [[[rounds|]| e |] log];
    reflexivity.
Qed.

End MonthVariantFacts.

(** ** The balance series: timestamps of the samples *)

Lemma table_gateway_hashable (latest : dict) (round_totals : list dict)
    (balances : list (Z * string)) (pages : list (string * dict)) :
  hashable_round_totals (table_gateway latest round_totals balances pages).
Proof.
  intros s e entry Hin. cbn [list_round_totals table_gateway] in Hin.
  apply list_elem_of_In, filter_In in Hin as [_ Hr]. unfold in_range in Hr.
  destruct (py_get entry "closed_round"); try discriminate. reflexivity.
Qed.

(** X11: for a stride that is not zero, on a Gateway whose round_totals
    entries carry hashable round numbers, the timestamp of each sample of
    [get_wallet_balances_for_rounds] is the truthy timestamp of the LAST
    prefetched entry that names the sample's round, whichever window
    delivered it, and [None] when no prefetched entry names the round with
    a truthy timestamp. *)
Theorem get_wallet_balances_for_rounds_timestamps
    (gw : Gateway) (party_id : string) (a b step : Z) :
  step <> 0 ->
  hashable_round_totals gw ->
  result (get_wallet_balances_for_rounds gw party_id a b step)
  = Ret ((fun r =>
            {| round := r;
               effective_time := last_indexed_time (prefetched_entries gw a b) r;
               wallet_balance :=
                 py_get (get_wallet_balance gw party_id (JNum r)) "wallet_balance" |})
           <$> stride_rounds a b step).
Proof.
  intros Hstep Hgw.
  destruct (get_wallet_balances_for_rounds_run gw party_id a b step Hstep Hgw)
    as (m & Hrun & Hm).
  rewrite Hrun. unfold result. cbn [fst]. f_equal.
  apply list_fmap_ext. intros _ r _. unfold sample_of. rewrite Hm. reflexivity.
Qed.

Lemma get_wallet_balances_for_rounds_timestamps_witness :
  result (get_wallet_balances_for_rounds twelve_round_gateway "alice" 2 11 3)
  = Ret [ {| round := 2; effective_time := JNull; wallet_balance := JStr "20.0" |};
          {| round := 5; effective_time := JNull; wallet_balance := JNull |};
          {| round := 8; effective_time := JNull; wallet_balance := JNull |};
          {| round := 11; effective_time := JStr "2024-04-11T00:00:00Z";
             wallet_balance := JStr "110.0" |} ].
Proof.
  apply (get_wallet_balances_for_rounds_timestamps twelve_round_gateway "alice" 2 11 3).
  - lia.
  - apply table_gateway_hashable.
Defined.

Lemma stride_rounds_one (a b : Z) : stride_rounds a b 1 = seqZ a (b + 1 - a).
Proof.
  unfold stride_rounds, range_len. cbn [Z.ltb Z.compare andb].
  destruct (Z.ltb_spec a (b + 1)) as [Hlt|Hge].
  - rewrite Z.div_1_r. replace (1 + (b + 1 - 1 - a)) with (b + 1 - a) by lia.
    unfold seqZ. rewrite <- list_fmap_compose. apply list_fmap_ext.
    intros _ i _. simpl. lia.
  - unfold seqZ. replace (Z.to_nat (b + 1 - a)) with 0%nat by lia. reflexivity.
Qed.

(** X12: when the latest round is an integer [n] and the round_totals
    entries carry hashable round numbers, [get_wallet_balance_last_10_rounds]
    asks for the latest round, then once for the round_totals window
    [max(0, n - 9), n], then for one balance per round of that window in
    ascending order; it returns one sample per round, at most ten, each
    with the timestamp of the last entry of the window naming the round. *)
Theorem get_wallet_balance_last_10_rounds_window
    (gw : Gateway) (party_id : string) (n : Z) :
  latest_round_of (get_round_of_latest_data gw) = LatestInt n ->
  hashable_round_totals gw ->
  get_wallet_balance_last_10_rounds gw party_id
  = (Ret ((fun r =>
             {| round := r;
                effective_time :=
                  last_indexed_time (list_round_totals gw (Z.max 0 (n - 9)) n) r;
                wallet_balance :=
                  py_get (get_wallet_balance gw party_id (JNum r)) "wallet_balance" |})
            <$> seqZ (Z.max 0 (n - 9)) (n + 1 - Z.max 0 (n - 9))),
     CallRoundOfLatestData
       :: CallRoundTotals (Z.max 0 (n - 9)) n
       :: ((fun r => CallWalletBalance party_id (JNum r))
             <$> seqZ (Z.max 0 (n - 9)) (n + 1 - Z.max 0 (n - 9))))
  /\ (length (seqZ (Z.max 0 (n - 9)) (n + 1 - Z.max 0 (n - 9))) <= 10)%nat.
Proof.
  intros Hlatest Hgw. split; [|rewrite length_seqZ; lia].
  destruct (for_each_index_entries (list_round_totals gw (Z.max 0 (n - 9)) n) ∅)
    as (m & Hm).
  { apply Forall_forall. intros entry Hin. eapply Hgw. exact Hin. }
  unfold get_wallet_balance_last_10_rounds, call_round_of_latest_data, bind at 1.
  rewrite Hlatest. cbv zeta.
  rewrite (py_range_nonzero (Z.max 0 (n - 9)) n 1) by lia.
  rewrite stride_rounds_one.
  unfold call_round_totals, bind at 1. cbv beta.
  change (for_each (fun m entry => lift (last_10_index_entry m entry)))
    with (for_each (fun m entry => lift (for_rounds_index_entry m entry))).
  change (last_10_fetch_sample gw party_id) with (fetch_sample gw party_id).
  unfold bind at 1. rewrite Hm. unfold lift, bind. rewrite for_each_fetch_sample.
  cbn [app].
  f_equal. f_equal. apply list_fmap_ext. intros _ r _. unfold sample_of.
  rewrite (for_each_index_entries_get _ _ _ _ r Hm). reflexivity.
Qed.

Lemma get_wallet_balance_last_10_rounds_window_witness :
  get_wallet_balance_last_10_rounds twelve_round_gateway "alice"
  = (Ret ((fun r =>
             {| round := r;
                effective_time :=
                  last_indexed_time
                    (list_round_totals twelve_round_gateway (Z.max 0 (11 - 9)) 11) r;
                wallet_balance :=
                  py_get (get_wallet_balance twelve_round_gateway "alice" (JNum r))
                         "wallet_balance" |})
            <$> seqZ (Z.max 0 (11 - 9)) (11 + 1 - Z.max 0 (11 - 9))),
     CallRoundOfLatestData
       :: CallRoundTotals (Z.max 0 (11 - 9)) 11
       :: ((fun r => CallWalletBalance "alice" (JNum r))
             <$> seqZ (Z.max 0 (11 - 9)) (11 + 1 - Z.max 0 (11 - 9))))
  /\ (length (seqZ (Z.max 0 (11 - 9)) (11 + 1 - Z.max 0 (11 - 9))) <= 10)%nat.
Proof.
  apply (get_wallet_balance_last_10_rounds_window twelve_round_gateway "alice" 11).
  - reflexivity.
  - apply table_gateway_hashable.
Defined.

(** ** Listing all validator licenses *)

Lemma page_licenses_falsy (endpoint : json -> Z -> dict) (request : json * Z) :
  truthy (py_get_default (endpoint request.1 request.2) "validator_licenses" (JList []))
  = false ->
  page_licenses endpoint request = [].
Proof.
  unfold page_licenses.
  destruct (py_get_default _ _ _) as [|b|n|s|l|d]; try reflexivity.
  - destruct s; [reflexivity|discriminate].
  - destruct l; [reflexivity|discriminate].
  - destruct d; [reflexivity|discriminate].
Qed.

Lemma validator_licenses_loop_pages (fuel : nat) (endpoint : json -> Z -> dict)
    (page_size : Z) (next_page_token : json) (all_licenses licenses : list json)
    (log : list (json * Z)) :
  validator_licenses_loop fuel endpoint page_size next_page_token all_licenses
  = (Ret licenses, log) ->
  licenses = all_licenses ++ (log ≫= page_licenses endpoint)
  /\ Forall (fun request => request.2 = page_size) log
  /\ (exists rest, log = (next_page_token, page_size) :: rest)
  /\ (forall i request request',
        log !! i = Some request -> log !! S i = Some request' ->
        request'.1 = py_get (endpoint request.1 request.2) "next_page_token"
        /\ request'.1 <> JNull).
Proof.
  revert next_page_token all_licenses licenses log.
  induction fuel as [|fuel IH]; intros tok acc licenses log; [discriminate|].
  cbn [validator_licenses_loop].
  destruct (truthy (py_get_default (endpoint tok page_size) "validator_licenses"
                                   (JList []))) eqn:Htruthy; cbn [negb].
  2:{ intros [= <- <-]. repeat split.
      - change ([(tok, page_size)] ≫= page_licenses endpoint)
          with (page_licenses endpoint (tok, page_size) ++ []).
        rewrite (page_licenses_falsy endpoint (tok, page_size)) by exact Htruthy.
        rewrite app_nil_r. reflexivity.
      - constructor; [reflexivity|constructor].
      - eexists. reflexivity.
      - destruct i; simpl in *; discriminate.
      - destruct i; simpl in *; discriminate. }
  destruct (iter_elements (py_get_default (endpoint tok page_size) "validator_licenses"
                                          (JList []))) as [elements| e |] eqn:Hiter;
    try discriminate.
  assert (Hpage : page_licenses endpoint (tok, page_size) = elements).
  { unfold page_licenses. cbn [fst snd]. rewrite Hiter. reflexivity. }
  destruct (py_get (endpoint tok page_size) "next_page_token") as [|b|n|s|l|d] eqn:Htok.
  1:{ intros [= <- <-]. repeat split.
      - change ([(tok, page_size)] ≫= page_licenses endpoint)
          with (page_licenses endpoint (tok, page_size) ++ []).
        rewrite Hpage, app_nil_r. reflexivity.
      - constructor; [reflexivity|constructor].
      - eexists. reflexivity.
      - destruct i; simpl in *; discriminate.
      - destruct i; simpl in *; discriminate. }
  all: destruct (validator_licenses_loop fuel endpoint page_size _ (acc ++ elements))
         as [r log'] eqn:Hrest;
       intros [= -> <-];
       destruct (IH _ _ _ _ Hrest) as (Hlic & Hsizes & (rest & ->) & Hchain);
       (split; [|split; [|split]]);
       [ rewrite Hlic, <- app_assoc;
         change (((tok, page_size) :: ?l) ≫= page_licenses endpoint)
           with (page_licenses endpoint (tok, page_size)
                 ++ (l ≫= page_licenses endpoint));
         rewrite Hpage; reflexivity
       | constructor; [reflexivity|exact Hsizes]
       | eexists; reflexivity
       | intros [|i] request request' H1 H2;
         [ simpl in H1, H2; injection H1 as <-; injection H2 as <-;
           cbn [fst snd]; rewrite Htok; split; [reflexivity|discriminate]
         | exact (Hchain i request request' H1 H2) ] ].
Qed.

(** X13: when [list_all_validator_licenses] returns, its result is the
    concatenation, in order, of the licenses of the pages it requested;
    every request asks for 1000 licenses, the first one without a token, and
    each later one carries the (non-null) [next_page_token] of the response
    before it. *)
Theorem list_all_validator_licenses_pages (fuel : nat) (endpoint : json -> Z -> dict)
    (licenses : list json) (log : list (json * Z)) :
  list_all_validator_licenses fuel endpoint = (Ret licenses, log) ->
  licenses = log ≫= page_licenses endpoint
  /\ Forall (fun request => request.2 = 1000) log
  /\ (exists rest, log = (JNull, 1000) :: rest)
  /\ (forall i request request',
        log !! i = Some request -> log !! S i = Some request' ->
        request'.1 = py_get (endpoint request.1 request.2) "next_page_token"
        /\ request'.1 <> JNull).
Proof.
  intros Hrun. unfold list_all_validator_licenses in Hrun.
  apply validator_licenses_loop_pages in Hrun. exact Hrun.
Qed.

Lemma list_all_validator_licenses_pages_witness :
  [JStr "l1"; JStr "l2"; JStr "l3"]
  = [(JNull, 1000); (JNum 2, 1000)] ≫= page_licenses licenses_endpoint
  /\ Forall (fun request => request.2 = 1000) [(JNull, 1000); (JNum 2, 1000)]
  /\ (exists rest, [(JNull, 1000); (JNum 2, 1000)] = (JNull, 1000) :: rest)
  /\ (forall i request request',
        [(JNull, 1000); (JNum 2, 1000)] !! i = Some request ->
        [(JNull, 1000); (JNum 2, 1000)] !! S i = Some request' ->
        request'.1 = py_get (licenses_endpoint request.1 request.2) "next_page_token"
        /\ request'.1 <> JNull).
Proof.
  apply (list_all_validator_licenses_pages 5 licenses_endpoint).
  reflexivity.
Defined.

(** X14: the loop of [list_all_validator_licenses] has no guard of its
    own: on an endpoint that answers every request with a non-empty list
    of licenses and a token, it never returns, whatever the number of
    iterations allowed, and issues one request per iteration. *)
Theorem list_all_validator_licenses_needs_last_page
    (endpoint : json -> Z -> dict) (fuel : nat) :
  (forall after limit,
     (exists license rest,
        py_get_default (endpoint after limit) "validator_licenses" (JList [])
        = JList (license :: rest))
     /\ py_get (endpoint after limit) "next_page_token" <> JNull) ->
  (list_all_validator_licenses fuel endpoint).1 = OutOfFuel
  /\ length (list_all_validator_licenses fuel endpoint).2 = fuel.
Proof.
  intros Hpages. unfold list_all_validator_licenses.
  generalize (@nil json) as acc. generalize JNull as tok.
  induction fuel as [|fuel IH]; intros tok acc; [split; reflexivity|].
  cbn [validator_licenses_loop].
  destruct (Hpages tok 1000) as ((license & rest & Hlist) & Htok).
  rewrite Hlist. cbn [truthy negb iter_elements].
  specialize (IH (py_get (endpoint tok 1000) "next_page_token")
                 (acc ++ license :: rest)).
  destruct (py_get (endpoint tok 1000) "next_page_token"); [congruence|..];
    destruct (validator_licenses_loop fuel endpoint 1000 _ _) as [r log];
    cbn [fst snd length] in *; destruct IH as [-> ->]; split; reflexivity.
Qed.

Lemma list_all_validator_licenses_needs_last_page_witness :
  (list_all_validator_licenses 7
     (fun _ _ => [("validator_licenses", JList [JStr "l1"]);
                  ("next_page_token", JNum 1)])).1 = OutOfFuel
  /\ length (list_all_validator_licenses 7
               (fun _ _ => [("validator_licenses", JList [JStr "l1"]);
                            ("next_page_token", JNum 1)])).2 = 7%nat.
Proof.
  apply (list_all_validator_licenses_needs_last_page
           (fun _ _ => [("validator_licenses", JList [JStr "l1"]);
                        ("next_page_token", JNum 1)]) 7).
  intros after limit. split.
  - exists (JStr "l1"), []. reflexivity.
  - simpl. discriminate.
Defined.

(** ** The activity exporter: the header, the second pass and the cursors *)

Lemma insert_sorted_elem_of (k x : string) (l : list string) :
  x ∈ insert_sorted k l -> x ∈ l \/ x = k.
Proof.
  induction l as [|y l IH]; simpl.
  - intros Hx. apply list_elem_of_singleton in Hx. auto.
  - destruct (String.compare k y) eqn:Hcmp; intros Hx.
    + auto.
    + apply elem_of_cons in Hx as [-> | Hx]; auto.
    + apply elem_of_cons in Hx as [-> | Hx]; [left; left|].
      destruct (IH Hx) as [Hl | ->]; [left; right; exact Hl|auto].
Qed.

Lemma sorted_set_elem_of (x : string) (keys : list string) :
  x ∈ sorted_set keys -> x ∈ keys.
Proof.
  unfold sorted_set. induction keys as [|k keys IH]; simpl; intros Hx.
  - exact Hx.
  - apply insert_sorted_elem_of in Hx as [Hx | ->]; [right; auto|left].
Qed.

Lemma insert_sorted_sorted (k : string) (l : list string) :
  strictly_sorted l -> strictly_sorted (insert_sorted k l).
Proof.
  induction l as [|y l IH]; intros Hl.
  - simpl. auto.
  - cbn [insert_sorted]. destruct (String.compare k y) eqn:Hcmp.
    + exact Hl.
    + split; [exact Hcmp|exact Hl].
    + destruct Hl as [Hy Hl]. split; [|exact (IH Hl)].
      assert (Hyk : String.compare y k = Lt)
        by (rewrite String.compare_antisym, Hcmp; reflexivity).
      destruct l as [|z l]; [exact Hyk|].
      cbn [insert_sorted]. destruct (String.compare k z); assumption.
Qed.

Lemma sorted_set_sorted (keys : list string) : strictly_sorted (sorted_set keys).
Proof.
  unfold sorted_set. induction keys as [|k keys IH]; simpl; [exact I|].
  apply insert_sorted_sorted. exact IH.
Qed.

Lemma calls_scan_batches_cursor_chain (fuel : nat) (gw : Gateway)
    (after_timestamp : string) (page_size : Z) (cursor : json) (st : scan_state) :
  cursor_chain gw page_size cursor
    (calls (scan_batches fuel gw after_timestamp page_size cursor st)).
Proof.
  revert cursor st. induction fuel as [|fuel IH]; intros cursor st; [exact I|].
  cbn [scan_batches]. unfold calls, call_list_activity, bind at 1. cbv beta.
  destruct (py_get_default (list_activity gw page_size cursor) "activities" (JList []))
    as [| | | |l|d] eqn:Hact;
    try (destruct (truthy _); simpl; (split; [reflexivity|exact I])).
  destruct (truthy (JList l)); cbn [negb]; [|simpl; split; [reflexivity|exact I]].
  unfold lift, bind at 1.
  destruct (scan_page after_timestamp st l) as [[stopped st1]| e |];
    try (simpl; (split; [reflexivity|exact I])).
  cbn [fst snd]. destruct stopped; [simpl; split; [reflexivity|exact I]|].
  unfold bind at 1.
  destruct (as_dict (List.last l JNull)) as [last_activity| e |] eqn:Hlast;
    try (simpl; (split; [reflexivity|exact I])).
  destruct (truthy (py_get last_activity "event_id")) eqn:Hid; cbn [negb];
    [|simpl; split; [reflexivity|exact I]].
  unfold bind at 1.
  destruct (date_before (py_get last_activity "date") after_timestamp)
    as [[|]| e |]; try (simpl; (split; [reflexivity|exact I])).
  specialize (IH (py_get last_activity "event_id") st1).
  destruct (scan_batches fuel gw after_timestamp page_size
              (py_get last_activity "event_id") st1) as [r log].
  unfold calls in *. cbn [snd app] in *.
  split; [reflexivity|].
  destruct log as [|c log]; [exact I|].
  exists l, last_activity. split; [exact Hact|].
  split; [|split; [exact Hid|exact IH]].
  destruct (List.last l JNull); try discriminate Hlast.
  injection Hlast as ->. reflexivity.
Qed.

Section SecondPassFacts.

Variable json_dumps : json -> string.

(** X15: the header of the activity export is strictly increasing, hence
    free of duplicates, and holds exactly the keys that occur in the
    flattened form of some buffered record. *)
Theorem get_all_fieldnames_sorted_union (st : scan_state) :
  strictly_sorted (get_all_fieldnames json_dumps st)
  /\ forall k,
       k ∈ get_all_fieldnames json_dumps st
       <-> exists activity,
             activity ∈ all_flattened st
             /\ k ∈ (flatten json_dumps activity (max_receivers st)
                             (max_balance_changes st)).*1.
Proof.
  split; [apply sorted_set_sorted|].
  intros k. unfold get_all_fieldnames. split.
  - intros Hk. apply sorted_set_elem_of, list_elem_of_In, in_concat in Hk
      as (keys & Hkeys & Hk).
    apply in_map_iff in Hkeys as (activity & <- & Ha).
    exists activity. split; apply list_elem_of_In; assumption.
  - intros (activity & Ha & Hk). apply elem_of_sorted_set.
    apply list_elem_of_In, in_concat.
    exists ((flatten json_dumps activity (max_receivers st) (max_balance_changes st)).*1).
    split; [|apply list_elem_of_In; exact Hk].
    apply in_map_iff. exists activity. split; [reflexivity|].
    apply list_elem_of_In. exact Ha.
Qed.

(** X16: the second pass of the activity export adds no request, cannot
    fail and drops no record: the export completes exactly when the first
    pass does, with the first pass's requests, and the file then holds the
    header and one flattened row per buffered record, in order; a failure
    of the first pass is passed on. *)
Theorem export_activities_after_second_pass
    (fuel : nat) (gw : Gateway) (after_timestamp : string) (page_size : Z) :
  export_activities_after json_dumps fuel gw after_timestamp page_size
  = match scan_batches fuel gw after_timestamp page_size (JStr "") scan_init with
    | (Ret st, log) =>
        (Ret {| header := Some (get_all_fieldnames json_dumps st);
                rows := (fun activity =>
                           flatten json_dumps activity (max_receivers st)
                                   (max_balance_changes st))
                          <$> all_flattened st |},
         log)
    | (Raise e, log) => (Raise e, log)
    | (OutOfFuel, log) => (OutOfFuel, log)
    end.
Proof.
  destruct (scan_batches fuel gw after_timestamp page_size (JStr "") scan_init)
    as [[st| e |] log] eqn:Hscan.
  - rewrite (export_of_scan json_dumps _ _ _ _ _ _ Hscan). reflexivity.
  - unfold export_activities_after, bind. rewrite Hscan. reflexivity.
  - unfold export_activities_after, bind. rewrite Hscan. reflexivity.
Qed.

Lemma calls_export_activities_after
    (fuel : nat) (gw : Gateway) (after_timestamp : string) (page_size : Z) :
  calls (export_activities_after json_dumps fuel gw after_timestamp page_size)
  = calls (scan_batches fuel gw after_timestamp page_size (JStr "") scan_init).
Proof.
  destruct (scan_batches fuel gw after_timestamp page_size (JStr "") scan_init)
    as [[st| e |] log] eqn:Hscan.
  - rewrite (export_of_scan json_dumps _ _ _ _ _ _ Hscan). reflexivity.
  - unfold export_activities_after, bind. rewrite Hscan. reflexivity.
  - unfold export_activities_after, bind. rewrite Hscan. reflexivity.
Qed.

(** X17: the requests of an activity export, whatever its outcome, are
    list_activity requests with the page size given; the first one starts
    from the empty cursor and each later one carries the (truthy)
    [event_id] of the last record of the page before it. *)
Theorem export_activities_after_cursor_chain
    (fuel : nat) (gw : Gateway) (after_timestamp : string) (page_size : Z) :
  cursor_chain gw page_size (JStr "")
    (calls (export_activities_after json_dumps fuel gw after_timestamp page_size)).
Proof.
  rewrite calls_export_activities_after.
  apply calls_scan_batches_cursor_chain.
Qed.

End SecondPassFacts.

(** ** The party-totals exporter *)

Lemma dict_set_has_key (items : dict) (k : string) (v : json) :
  k ∈ (dict_set items k v).*1.
Proof.
  induction items as [|[k' v'] items IH]; simpl.
  - left.
  - destruct (String.eqb k' k); simpl; [left|right; exact IH].
Qed.

Lemma party_totals_add_time_Ret (m : gmap pykey json) (acc out : list dict)
    (entry : json) :
  party_totals_add_time m acc entry = Ret out ->
  exists d t, out = acc ++ [dict_set d "effective_time" t].
Proof.
  unfold party_totals_add_time.
  destruct (as_dict entry) as [d| e |]; try discriminate.
  cbn [mbind res_bind].
  destruct (index_get_json m (py_get d "closed_round")) as [t| e |]; try discriminate.
  cbn [mbind res_bind]. intros [= <-]. eauto.
Qed.

Lemma fold_res_add_time (m : gmap pykey json) (l : list json) (acc out : list dict) :
  fold_res (party_totals_add_time m) l acc = Ret out ->
  exists new,
    out = acc ++ new
    /\ length new = length l
    /\ Forall (fun row => "effective_time" ∈ row.*1) new.
Proof.
  revert acc. induction l as [|entry l IH]; intros acc; cbn [fold_res].
  - intros [= <-]. exists []. rewrite app_nil_r. auto.
  - destruct (party_totals_add_time m acc entry) as [acc1| e |] eqn:Hadd;
      try discriminate.
    cbn [mbind res_bind]. intros Hrest.
    apply party_totals_add_time_Ret in Hadd as (d & t & ->).
    destruct (IH _ Hrest) as (new & -> & Hlen & Hall).
    exists (dict_set d "effective_time" t :: new).
    rewrite <- app_assoc. split; [reflexivity|]. split; [simpl; lia|].
    constructor; [apply dict_set_has_key|exact Hall].
Qed.

Lemma writerow_Ret (fieldnames : list string) (row out : dict) :
  writerow fieldnames row = Ret out ->
  out = row /\ forall k, k ∈ row.*1 -> k ∈ fieldnames.
Proof.
  unfold writerow. destruct (forallb _ row) eqn:Hall; [|discriminate].
  intros [= <-]. split; [reflexivity|].
  intros k Hk. apply list_elem_of_fmap in Hk as ([k' v] & -> & Hin).
  rewrite forallb_forall in Hall. apply list_elem_of_In in Hin.
  specialize (Hall _ Hin). apply existsb_exists in Hall as (x & Hx & Heq).
  apply String.eqb_eq in Heq. simpl in Heq. subst x.
  apply list_elem_of_In. exact Hx.
Qed.

Lemma fold_res_writerow (fieldnames : list string) (entries acc out : list dict) :
  fold_res (fun acc e => r ← writerow fieldnames e; Ret (acc ++ [r])) entries acc
  = Ret out ->
  out = acc ++ entries
  /\ Forall (fun row => forall k, k ∈ row.*1 -> k ∈ fieldnames) entries.
Proof.
  revert acc. induction entries as [|e entries IH]; intros acc; cbn [fold_res].
  - intros [= <-]. rewrite app_nil_r. auto.
  - destruct (writerow fieldnames e) as [r| x |] eqn:Hrow; try discriminate.
    cbn [mbind res_bind]. intros Hrest.
    apply writerow_Ret in Hrow as [-> Hkeys].
    destruct (IH _ Hrest) as (-> & Hall).
    rewrite <- app_assoc. split; [reflexivity|]. constructor; assumption.
Qed.

Lemma party_totals_batch_ok (gw : Gateway) (latest_round batch_size batch_start : Z)
    (f f' : csv_file) (log : list call) :
  party_totals_batch gw latest_round batch_size f batch_start = (Ret f', log) ->
  party_totals_file_ok f -> party_totals_file_ok f'.
Proof.
  unfold party_totals_batch, call_round_party_totals, bind at 1. cbv beta.
  set (entries := py_get_default _ "entries" (JList [])).
  destruct (truthy entries) eqn:Htruthy; cbn [negb];
    [|intros [= <- _]; auto].
  unfold call_round_totals, bind at 1. cbv beta.
  unfold bind at 1.
  destruct (for_each _ (list_round_totals gw _ _) ∅) as [[m| e |] log1];
    try discriminate.
  destruct entries as [| | | |l|d]; try discriminate.
  unfold lift, bind at 1.
  destruct (fold_res (party_totals_add_time m) l []) as [entries'| e |] eqn:Hadd;
    try discriminate.
  unfold bind at 1.
  destruct (fold_res _ entries' []) as [written| e |] eqn:Hwritten; try discriminate.
  unfold ret. intros [= <- _] Hf.
  apply fold_res_add_time in Hadd as (new & -> & Hlen & Htimes).
  apply fold_res_writerow in Hwritten as (-> & Hkeys).
  cbn [app] in *.
  unfold party_totals_file_ok in *. cbn [header rows].
  destruct (header f) as [fieldnames|].
  - destruct Hf as [Htime Hrows]. split; [exact Htime|].
    apply Forall_app. split; [exact Hrows|].
    apply Forall_forall. intros row Hrow. split.
    + rewrite Forall_forall in Htimes. apply Htimes. exact Hrow.
    + rewrite Forall_forall in Hkeys. apply Hkeys. exact Hrow.
  - rewrite Hf. cbn [app].
    destruct new as [|first new]; [destruct l; [discriminate Htruthy|discriminate Hlen]|].
    split; [apply Forall_inv in Htimes; exact Htimes|].
    apply Forall_forall. intros row Hrow. split.
    + rewrite Forall_forall in Htimes. apply Htimes. exact Hrow.
    + rewrite Forall_forall in Hkeys. apply Hkeys. exact Hrow.
Qed.

Lemma for_each_party_totals_batch_ok (gw : Gateway) (latest_round batch_size : Z)
    (batches : list Z) (f f' : csv_file) (log : list call) :
  for_each (party_totals_batch gw latest_round batch_size) batches f = (Ret f', log) ->
  party_totals_file_ok f -> party_totals_file_ok f'.
Proof.
  revert f log. induction batches as [|b batches IH]; intros f log; cbn [for_each].
  - intros [= <- _]. auto.
  - unfold bind.
    destruct (party_totals_batch gw latest_round batch_size f b)
      as [[f1| e |] log1] eqn:Hbatch; try discriminate.
    destruct (for_each _ batches f1) as [r log2] eqn:Hrest.
    intros [= -> _] Hf.
    exact (IH _ _ Hrest (party_totals_batch_ok _ _ _ _ _ _ _ Hbatch Hf)).
Qed.

(** X18: a party-totals export that completes and opens a file leaves it
    well formed: either no header and no row (no window had entries), or a
    header naming [effective_time] and rows that each have an
    [effective_time] and only keys of the header; an entry with a key
    outside the header of the first entry written makes the export fail
    instead. *)
Theorem export_all_round_party_totals_rows
    (gw : Gateway) (start_round batch_size : Z) (f : csv_file) (log : list call) :
  export_all_round_party_totals_to_csv gw start_round batch_size = (Ret (Some f), log) ->
  party_totals_file_ok f.
Proof.
  unfold export_all_round_party_totals_to_csv, call_round_of_latest_data, bind at 1.
  cbv beta.
  destruct (latest_round_of (get_round_of_latest_data gw)) as [|latest_round|];
    try discriminate.
  unfold lift, bind at 1.
  destruct (py_range start_round (latest_round + 1) batch_size) as [batches| e |];
    try discriminate.
  unfold bind at 1.
  destruct (for_each _ batches _) as [[f1| e |] log1] eqn:Hrun; try discriminate.
  unfold ret. intros [= <- _].
  apply (for_each_party_totals_batch_ok _ _ _ _ _ _ _ Hrun). reflexivity.
Qed.

Lemma export_all_round_party_totals_rows_witness :
  party_totals_file_ok
    {| header := Some ["closed_round"; "party"; "effective_time"];
       rows := [ [("closed_round", JNum 0); ("party", JStr "alice");
                  ("effective_time", JStr "2024-04-01T00:00:00Z")];
                 [("closed_round", JNum 1); ("party", JStr "alice");
                  ("effective_time", JNull)] ] |}.
Proof.
  apply (export_all_round_party_totals_rows party_totals_gateway 0 1 _
           [CallRoundOfLatestData;
            CallRoundPartyTotals 0 0; CallRoundTotals 0 0;
            CallRoundPartyTotals 1 1; CallRoundTotals 1 1]).
  reflexivity.
Defined.

(** ** Flattening a record without nested objects *)

Lemma dict_set_fresh (items : dict) (k : string) (v : json) :
  k ∉ items.*1 -> dict_set items k v = items ++ [(k, v)].
Proof.
  induction items as [|[k' v'] items IH]; intros Hk; [reflexivity|].
  cbn [dict_set]. cbn [fmap list_fmap fst] in Hk.
  apply not_elem_of_cons in Hk as [Hne Hk].
  replace (String.eqb k' k) with false
    by (symmetry; apply String.eqb_neq; congruence).
  cbn [app]. rewrite IH by exact Hk. reflexivity.
Qed.

Section FlattenFacts.

Variable json_dumps : json -> string.

Lemma flatten_field_flat (max_receivers max_balance_changes : nat)
    (items : dict) (k : string) (v : json) :
  is_object v = false ->
  flatten_field json_dumps max_receivers max_balance_changes items k v
  = dict_set items k (flat_cell json_dumps v).
Proof. destruct v; intros Hv; try discriminate; reflexivity. Qed.

Lemma fold_flatten_field_flat (max_receivers max_balance_changes : nat)
    (d items : dict) :
  NoDup (items.*1 ++ d.*1) ->
  Forall (fun kv => is_object kv.2 = false) d ->
  fold_left (fun items kv =>
               flatten_field json_dumps max_receivers max_balance_changes
                             items kv.1 kv.2)
            d items
  = items ++ ((fun kv => (kv.1, flat_cell json_dumps kv.2)) <$> d).
Proof.
  revert items. induction d as [|[k v] d IH]; intros items Hnodup Hflat.
  - simpl. rewrite app_nil_r. reflexivity.
  - apply Forall_cons in Hflat as [Hv Hflat]. cbn [fold_left fst snd].
    rewrite flatten_field_flat by exact Hv.
    cbn [fmap list_fmap fst] in Hnodup.
    rewrite dict_set_fresh.
    2:{ apply NoDup_app in Hnodup as (_ & Hdisj & _).
        intros Hin. apply (Hdisj k Hin). left. }
    rewrite IH.
    + rewrite <- app_assoc. reflexivity.
    + rewrite fmap_app. cbn [fmap list_fmap fst]. rewrite <- app_assoc. exact Hnodup.
    + exact Hflat.
Qed.

(** X19: a record without nested objects is flattened field by field,
    whatever the two maxima are: the row has the record's keys, in the
    record's order, with every list replaced by its JSON text and every
    other value unchanged. *)
Theorem flatten_without_objects (d : dict) (max_receivers max_balance_changes : nat) :
  NoDup d.*1 ->
  Forall (fun kv => is_object kv.2 = false) d ->
  flatten json_dumps d max_receivers max_balance_changes
  = (fun kv => (kv.1, flat_cell json_dumps kv.2)) <$> d.
Proof.
  intros Hnodup Hflat. unfold flatten.
  rewrite fold_flatten_field_flat; [reflexivity|exact Hnodup|exact Hflat].
Qed.

End FlattenFacts.

Lemma flatten_without_objects_witness :
  flatten sample_json_dumps newer_activity 2 3
  = (fun kv => (kv.1, flat_cell sample_json_dumps kv.2)) <$> newer_activity.
Proof.
  apply (flatten_without_objects sample_json_dumps newer_activity 2 3).
  - apply (bool_decide_unpack _). vm_compute. exact I.
  - repeat constructor.
Defined.

(** ** The monthly holdings summary *)

Lemma process_month_Some (gw : HoldingsGateway) (migration_id : Z)
    (party_ids : list string) (year month : Z)
    (rows : list HoldingsSummaryForMonth) (log : list holdings_call) :
  process_month gw migration_id party_ids year month = (Some rows, log) ->
  1 <= month <= 12
  /\ log = month_requests gw migration_id party_ids (year, month)
  /\ (fun row => (hs_year row, hs_month row, hs_party_id row)) <$> rows
     = (if has_end_snapshot gw migration_id (year, month)
        then (fun party_id => (year, month, party_id)) <$> party_ids
        else [])
  /\ Forall (fun row =>
               hs_beginning_of_month_time row
               = month_begin_time (hs_year row) (hs_month row)
               /\ Some (hs_end_of_month_time row)
                  = month_end_time_query (hs_year row) (hs_month row)
               /\ hs_end_of_month_snapshot_time row
                  = snapshot_record_time gw (hs_end_of_month_time row) migration_id
               /\ truthy (hs_end_of_month_snapshot_time row) = true)
            rows.
Proof.
  unfold process_month, month_requests, has_end_snapshot. cbn [fst snd].
  assert (Hmonth : is_Some (month_end_time_query year month) -> 1 <= month <= 12).
  { unfold month_end_time_query, monthrange_days.
    destruct ((1 <=? month) && (month <=? 12)) eqn:Hm; [intros _; lia|].
    intros [? [=]]. }
  destruct (month_end_time_query year month) as [end_time_query|] eqn:Hquery;
    [|discriminate].
  specialize (Hmonth (ex_intro _ _ eq_refl)).
  destruct (truthy (snapshot_record_time gw end_time_query migration_id)) eqn:Hsnap;
    cbn [negb].
  - destruct (extract_holdings _) as [begin_balances|]; [|discriminate].
    destruct (extract_holdings _) as [end_balances|]; [|discriminate].
    intros [= <- <-]. split; [exact Hmonth|]. split; [reflexivity|].
    split.
    + rewrite <- list_fmap_compose. reflexivity.
    + apply Forall_fmap, Forall_forall. intros party_id _. cbn.
      rewrite Hquery. auto.
  - intros [= <- <-]. split; [exact Hmonth|]. split; [rewrite app_nil_r; reflexivity|].
    split; [reflexivity|constructor].
Qed.

Lemma holdings_months_Some (gw : HoldingsGateway) (migration_id : Z)
    (party_ids : list string) (months : list (Z * Z))
    (all_results rows : list HoldingsSummaryForMonth) (log : list holdings_call) :
  holdings_months gw migration_id party_ids months all_results = (Some rows, log) ->
  exists new,
    rows = all_results ++ new
    /\ Forall (fun ym => 1 <= ym.2 <= 12) months
    /\ log = months ≫= month_requests gw migration_id party_ids
    /\ (fun row => (hs_year row, hs_month row, hs_party_id row)) <$> new
       = List.filter (has_end_snapshot gw migration_id) months
           ≫= (fun ym => (fun party_id => (ym.1, ym.2, party_id)) <$> party_ids)
    /\ Forall (fun row =>
                 hs_beginning_of_month_time row
                 = month_begin_time (hs_year row) (hs_month row)
                 /\ Some (hs_end_of_month_time row)
                    = month_end_time_query (hs_year row) (hs_month row)
                 /\ hs_end_of_month_snapshot_time row
                    = snapshot_record_time gw (hs_end_of_month_time row) migration_id
                 /\ truthy (hs_end_of_month_snapshot_time row) = true)
              new.
Proof.
  revert all_results rows log.
  induction months as [|[y m] months IH]; intros acc rows log; cbn [holdings_months].
  - intros [= <- <-]. exists []. rewrite app_nil_r.
    repeat split; constructor.
  - destruct (process_month gw migration_id party_ids y m) as [[rows1|] log1] eqn:Hmonth;
      [|discriminate].
    destruct (holdings_months gw migration_id party_ids months (acc ++ rows1))
      as [r log2] eqn:Hrest.
    intros [= -> <-].
    apply process_month_Some in Hmonth as (Hm & -> & Hkeys1 & Hrows1).
    destruct (IH _ _ _ Hrest) as (new & -> & Hmonths & -> & Hkeys & Hrows).
    exists (rows1 ++ new). rewrite app_assoc.
    split; [reflexivity|]. split; [constructor; assumption|].
    split; [reflexivity|]. split.
    + rewrite fmap_app, Hkeys1, Hkeys. cbn [List.filter].
      destruct (has_end_snapshot gw migration_id (y, m)); reflexivity.
    + apply Forall_app. split; assumption.
Qed.

(** X20: a monthly holdings summary that completes has asked, month by
    month in the order given, for the snapshot before the first instant of
    the month and for the snapshot before 23:59:59 of its last calendar
    day, and then, only when the latter has a record time, for the
    holdings at the NOMINAL first instant of the month (not at the first
    snapshot's record time) and for the holdings at the end snapshot's
    record time; every month lies in 1..12. *)
Theorem get_holdings_summary_for_month_requests
    (gw : HoldingsGateway) (migration_id : Z) (party_ids : list string)
    (months : list (Z * Z)) (rows : list HoldingsSummaryForMonth)
    (log : list holdings_call) :
  get_holdings_summary_for_month gw migration_id party_ids months = (Some rows, log) ->
  log = months ≫= month_requests gw migration_id party_ids
  /\ Forall (fun ym => 1 <= ym.2 <= 12) months.
Proof.
  intros Hrun. apply holdings_months_Some in Hrun as (new & _ & Hmonths & Hlog & _).
  auto.
Qed.

Lemma get_holdings_summary_for_month_requests_witness :
  [CallAcsSnapshotTimestamp "2024-02-01T00:00:00.000000Z" 3;
   CallAcsSnapshotTimestamp "2024-02-29T23:59:59.000000Z" 3;
   CallHoldingsSummaryAtTime 3 (JStr "2024-02-01T00:00:00.000000Z") ["alice"; "bob"];
   CallHoldingsSummaryAtTime 3 (JStr "2024-02-29T20:00:00.000000Z") ["alice"; "bob"];
   CallAcsSnapshotTimestamp "2024-03-01T00:00:00.000000Z" 3;
   CallAcsSnapshotTimestamp "2024-03-31T23:59:59.000000Z" 3]
  = [(2024, 2); (2024, 3)] ≫= month_requests february_holdings_gateway 3 ["alice"; "bob"]
  /\ Forall (fun ym => 1 <= ym.2 <= 12) [(2024, 2); (2024, 3)].
Proof.
  apply (get_holdings_summary_for_month_requests february_holdings_gateway 3
           ["alice"; "bob"] [(2024, 2); (2024, 3)]
           [ {| hs_party_id := "alice";
                hs_beginning_of_month_time := "2024-02-01T00:00:00.000000Z";
                hs_beginning_of_month_snapshot_time := JStr "2024-02-29T20:00:00.000000Z";
                hs_beginning_of_month_balance := JStr "5.0";
                hs_end_of_month_time := "2024-02-29T23:59:59.000000Z";
                hs_end_of_month_snapshot_time := JStr "2024-02-29T20:00:00.000000Z";
                hs_end_of_month_balance := JStr "5.0";
                hs_year := 2024; hs_month := 2 |};
             {| hs_party_id := "bob";
                hs_beginning_of_month_time := "2024-02-01T00:00:00.000000Z";
                hs_beginning_of_month_snapshot_time := JStr "2024-02-29T20:00:00.000000Z";
                hs_beginning_of_month_balance := JNull;
                hs_end_of_month_time := "2024-02-29T23:59:59.000000Z";
                hs_end_of_month_snapshot_time := JStr "2024-02-29T20:00:00.000000Z";
                hs_end_of_month_balance := JNull;
                hs_year := 2024; hs_month := 2 |} ]).
  vm_compute. reflexivity.
Defined.

(** X21: a monthly holdings summary that completes returns one row per
    party, in the order of [party_ids], for each month whose end-of-month
    snapshot has a record time, months in the order given, and no row for
    the other months; each row carries the nominal first instant of its
    month, the end-of-month query time, and the (truthy) record time of the
    end snapshot. *)
Theorem get_holdings_summary_for_month_rows
    (gw : HoldingsGateway) (migration_id : Z) (party_ids : list string)
    (months : list (Z * Z)) (rows : list HoldingsSummaryForMonth)
    (log : list holdings_call) :
  get_holdings_summary_for_month gw migration_id party_ids months = (Some rows, log) ->
  (fun row => (hs_year row, hs_month row, hs_party_id row)) <$> rows
  = List.filter (has_end_snapshot gw migration_id) months
      ≫= (fun ym => (fun party_id => (ym.1, ym.2, party_id)) <$> party_ids)
  /\ Forall (fun row =>
               hs_beginning_of_month_time row
               = month_begin_time (hs_year row) (hs_month row)
               /\ Some (hs_end_of_month_time row)
                  = month_end_time_query (hs_year row) (hs_month row)
               /\ hs_end_of_month_snapshot_time row
                  = snapshot_record_time gw (hs_end_of_month_time row) migration_id
               /\ truthy (hs_end_of_month_snapshot_time row) = true)
            rows.
Proof.
  intros Hrun.
  apply holdings_months_Some in Hrun as (new & -> & _ & _ & Hkeys & Hrows).
  auto.
Qed.

Lemma get_holdings_summary_for_month_rows_witness :
  (fun row => (hs_year row, hs_month row, hs_party_id row))
    <$> [ {| hs_party_id := "alice";
             hs_beginning_of_month_time := "2024-02-01T00:00:00.000000Z";
             hs_beginning_of_month_snapshot_time := JStr "2024-02-29T20:00:00.000000Z";
             hs_beginning_of_month_balance := JStr "5.0";
             hs_end_of_month_time := "2024-02-29T23:59:59.000000Z";
             hs_end_of_month_snapshot_time := JStr "2024-02-29T20:00:00.000000Z";
             hs_end_of_month_balance := JStr "5.0";
             hs_year := 2024; hs_month := 2 |};
          {| hs_party_id := "bob";
             hs_beginning_of_month_time := "2024-02-01T00:00:00.000000Z";
             hs_beginning_of_month_snapshot_time := JStr "2024-02-29T20:00:00.000000Z";
             hs_beginning_of_month_balance := JNull;
             hs_end_of_month_time := "2024-02-29T23:59:59.000000Z";
             hs_end_of_month_snapshot_time := JStr "2024-02-29T20:00:00.000000Z";
             hs_end_of_month_balance := JNull;
             hs_year := 2024; hs_month := 2 |} ]
  = List.filter (has_end_snapshot february_holdings_gateway 3) [(2024, 2); (2024, 3)]
      ≫= (fun ym => (fun party_id => (ym.1, ym.2, party_id)) <$> ["alice"; "bob"])
  /\ Forall (fun row =>
               hs_beginning_of_month_time row
               = month_begin_time (hs_year row) (hs_month row)
               /\ Some (hs_end_of_month_time row)
                  = month_end_time_query (hs_year row) (hs_month row)
               /\ hs_end_of_month_snapshot_time row
                  = snapshot_record_time february_holdings_gateway
                      (hs_end_of_month_time row) 3
               /\ truthy (hs_end_of_month_snapshot_time row) = true)
            [ {| hs_party_id := "alice";
                 hs_beginning_of_month_time := "2024-02-01T00:00:00.000000Z";
                 hs_beginning_of_month_snapshot_time := JStr "2024-02-29T20:00:00.000000Z";
                 hs_beginning_of_month_balance := JStr "5.0";
                 hs_end_of_month_time := "2024-02-29T23:59:59.000000Z";
                 hs_end_of_month_snapshot_time := JStr "2024-02-29T20:00:00.000000Z";
                 hs_end_of_month_balance := JStr "5.0";
                 hs_year := 2024; hs_month := 2 |};
              {| hs_party_id := "bob";
                 hs_beginning_of_month_time := "2024-02-01T00:00:00.000000Z";
                 hs_beginning_of_month_snapshot_time := JStr "2024-02-29T20:00:00.000000Z";
                 hs_beginning_of_month_balance := JNull;
                 hs_end_of_month_time := "2024-02-29T23:59:59.000000Z";
                 hs_end_of_month_snapshot_time := JStr "2024-02-29T20:00:00.000000Z";
                 hs_end_of_month_balance := JNull;
                 hs_year := 2024; hs_month := 2 |} ].
Proof.
  apply (get_holdings_summary_for_month_rows february_holdings_gateway 3
           ["alice"; "bob"] [(2024, 2); (2024, 3)] _
           [CallAcsSnapshotTimestamp "2024-02-01T00:00:00.000000Z" 3;
            CallAcsSnapshotTimestamp "2024-02-29T23:59:59.000000Z" 3;
            CallHoldingsSummaryAtTime 3 (JStr "2024-02-01T00:00:00.000000Z")
                                      ["alice"; "bob"];
            CallHoldingsSummaryAtTime 3 (JStr "2024-02-29T20:00:00.000000Z")
                                      ["alice"; "bob"];
            CallAcsSnapshotTimestamp "2024-03-01T00:00:00.000000Z" 3;
            CallAcsSnapshotTimestamp "2024-03-31T23:59:59.000000Z" 3]).
  vm_compute. reflexivity.
Defined.

(** ** The range series builder with a negative stride *)

Lemma stride_rounds_descending (a b step r : Z) :
  step < 0 -> r ∈ stride_rounds a b step -> b + 1 < r <= a.
Proof.
  intros Hstep Hr. unfold stride_rounds in Hr.
  apply list_elem_of_fmap in Hr as (i & -> & Hi).
  apply elem_of_seqZ in Hi. unfold range_len in Hi.
  replace (0 <? step) with false in Hi by (symmetry; apply Z.ltb_ge; lia).
  replace (step <? 0) with true in Hi by (symmetry; apply Z.ltb_lt; lia).
  cbn [andb] in Hi.
  destruct (Z.ltb_spec (b + 1) a) as [Hlt|Hge]; [|lia].
  assert (Hdiv : - step * ((a - 1 - (b + 1)) / - step) <= a - 1 - (b + 1))
    by (apply Z.mul_div_le; lia).
  nia.
Qed.

(** X22: with a negative stride and [last_round < first_round], the
    builder prefetches nothing and walks downward from [first_round]: it
    returns one sample per round of [range(first_round, last_round + 1,
    step)], every one strictly above [last_round + 1] and without a
    timestamp, after one balance request per sample and no round_totals
    request. *)
Theorem get_wallet_balances_for_rounds_negative_step
    (gw : Gateway) (party_id : string) (a b step : Z) :
  step < 0 -> b < a ->
  get_wallet_balances_for_rounds gw party_id a b step
  = (Ret ((fun r =>
             {| round := r;
                effective_time := JNull;
                wallet_balance :=
                  py_get (get_wallet_balance gw party_id (JNum r)) "wallet_balance" |})
            <$> stride_rounds a b step),
     (fun r => CallWalletBalance party_id (JNum r)) <$> stride_rounds a b step)
  /\ forall r, r ∈ stride_rounds a b step -> b + 1 < r <= a.
Proof.
  intros Hstep Hab. split; [|intros r; apply stride_rounds_descending; exact Hstep].
  assert (Hempty : stride_rounds a b batch_size = []).
  { unfold stride_rounds, batch_size. rewrite range_len_stride by lia.
    replace (a <=? b) with false by (symmetry; apply Z.leb_gt; lia). reflexivity. }
  unfold get_wallet_balances_for_rounds.
  rewrite (py_range_nonzero a b batch_size) by (unfold batch_size; lia).
  rewrite (py_range_nonzero a b step) by lia.
  rewrite Hempty. unfold lift, bind. cbn [for_each ret]. cbv beta.
  rewrite for_each_fetch_sample. reflexivity.
Qed.

Lemma get_wallet_balances_for_rounds_negative_step_witness :
  get_wallet_balances_for_rounds balances_gateway "alice" 60 50 (-5)
  = (Ret ((fun r =>
             {| round := r;
                effective_time := JNull;
                wallet_balance :=
                  py_get (get_wallet_balance balances_gateway "alice" (JNum r))
                         "wallet_balance" |})
            <$> stride_rounds 60 50 (-5)),
     (fun r => CallWalletBalance "alice" (JNum r)) <$> stride_rounds 60 50 (-5))
  /\ forall r, r ∈ stride_rounds 60 50 (-5) -> 50 + 1 < r <= 60.
Proof.
  apply (get_wallet_balances_for_rounds_negative_step balances_gateway "alice" 60 50 (-5));
    lia.
Defined.
